(** * Seat inventory and booking ledger of the bus booking service

    A shallow embedding of [MemStorage] (server/storage.ts): the in-memory
    maps, the lazily created trips, [getSeatAvailability], [createBooking]
    and [cancelBooking], together with the catalogue operations that build
    the seeded store. Further down: the read operations of the storage
    interface, the HTTP routes (server/routes.ts), the request log
    (server/index.ts) and the user operations.

    Conventions.
    - A JavaScript [number] that holds an identifier or a counter is an
      integer of [Z]; [availableSeats] is a [Z] too, since the code lets it
      go below zero.
    - A JavaScript [Map] iterates in insertion order and [set] on a key that
      is present keeps the key's position: it is an association list with
      exactly that behaviour.
    - A method that throws returns [Throw]; the state it returns is the store
      as the [throw] left it, so mutations made before the [throw] stay.
    - In a history, calls are atomic. The routes start one storage call at
      a time and every [await] inside a method is on a promise that is
      already settled, so a call runs to completion before the next one
      starts. Calls that a caller starts together without awaiting them
      interleave at their [await]s: for [getSeatAvailability] they are
      treated apart, in [startedTogether].
    - [new Date()] is a parameter of the call that reads it. *)

From Stdlib Require Import ZArith List Bool String Ascii Lia.
From Stdlib Require Import DecimalString DecimalPos.
Import ListNotations.

Open Scope string_scope.
Open Scope Z_scope.
Open Scope list_scope.

(** ** JavaScript [Map] with insertion order *)

Section JsMap.

Variable K : Type.
Variable keq : K -> K -> bool.
Variable V : Type.

Definition JsMap := list (K * V).

(** [Map.prototype.get] *)
Fixpoint mget (k : K) (m : JsMap) : option V :=
  match m with
  | [] => None
  | (k', v) :: m' => if keq k k' then Some v else mget k m'
  end.

(** [Map.prototype.has] *)
Definition mhas (k : K) (m : JsMap) : bool :=
  match mget k m with Some _ => true | None => false end.

(** [Map.prototype.set]: overwrite in place, or append a new entry. *)
Fixpoint mset (k : K) (v : V) (m : JsMap) : JsMap :=
  match m with
  | [] => [(k, v)]
  | (k', v') :: m' =>
      if keq k k' then (k', v) :: m' else (k', v') :: mset k v m'
  end.

(** [Map.prototype.delete]: the map without the key. *)
Fixpoint mdelete (k : K) (m : JsMap) : JsMap :=
  match m with
  | [] => []
  | (k', v') :: m' => if keq k k' then m' else (k', v') :: mdelete k m'
  end.

(** [Array.from(m.values())] *)
Definition mvalues (m : JsMap) : list V := map snd m.

Definition mkeys (m : JsMap) : list K := map fst m.

End JsMap.

Arguments mget {K} keq {V} k m.
Arguments mhas {K} keq {V} k m.
Arguments mset {K} keq {V} k v m.
Arguments mdelete {K} keq {V} k m.
Arguments mvalues {K V} m.
Arguments mkeys {K V} m.

(** ** Strings, errors, sets *)

(** What a template literal prints for an integer. *)
Definition num_to_string (n : Z) : string :=
  NilZero.string_of_int (Z.to_int n).

(** [String.fromCharCode] on a code below 256. *)
Definition fromCharCode (n : Z) : string :=
  String (ascii_of_N (Z.to_N n)) EmptyString.

(** A thrown [Error] with its message. *)
Inductive Error : Type := JsError (message : string).

Inductive result (A : Type) : Type :=
| Ok (a : A)
| Throw (e : Error).

Arguments Ok {A} a.
Arguments Throw {A} e.

(** [Set<string>]: [has] and [add]. *)
Definition shas (x : string) (l : list string) : bool :=
  existsb (String.eqb x) l.

Definition sadd (x : string) (l : list string) : list string :=
  if shas x l then l else l ++ [x].

(** Integers [lo], [lo+1], ..., [lo+n-1]: the values a counting [for] loop
    runs through. *)
Definition zrange (lo : Z) (n : nat) : list Z :=
  map (fun i => lo + Z.of_nat i) (seq 0 n).

(** ** Data model (shared/schema.ts) *)

Module City.
Record t : Type := mk { id : Z; name : string }.
End City.

Module InsertBus.
Record t : Type := mk {
  name : string;
  type : string;
  fromCityId : Z;
  toCityId : Z;
  departureTime : string;
  arrivalTime : string;
  duration : string;
  price : Z;
  totalSeats : Z;
  amenities : option (list string);
  rating : option Z;
  reviewCount : option Z
}.
End InsertBus.

Module Bus.
Record t : Type := mk {
  id : Z;
  name : string;
  type : string;
  fromCityId : Z;
  toCityId : Z;
  departureTime : string;
  arrivalTime : string;
  duration : string;
  price : Z;
  totalSeats : Z;
  amenities : option (list string);
  rating : option Z;
  reviewCount : option Z
}.

(** [{ ...insertBus, id }] *)
Definition of_insert (i : Z) (b : InsertBus.t) : t :=
  {| id := i;
     name := InsertBus.name b;
     type := InsertBus.type b;
     fromCityId := InsertBus.fromCityId b;
     toCityId := InsertBus.toCityId b;
     departureTime := InsertBus.departureTime b;
     arrivalTime := InsertBus.arrivalTime b;
     duration := InsertBus.duration b;
     price := InsertBus.price b;
     totalSeats := InsertBus.totalSeats b;
     amenities := InsertBus.amenities b;
     rating := InsertBus.rating b;
     reviewCount := InsertBus.reviewCount b |}.
End Bus.

Module BusWithCities.
Record t : Type := mk { bus : Bus.t; fromCity : City.t; toCity : City.t }.
End BusWithCities.

Module InsertSeatLayout.
Record t : Type := mk {
  busId : Z;
  seatNumber : string;
  rowPosition : Z;
  columnPosition : Z;
  isVisible : bool
}.
End InsertSeatLayout.

Module SeatLayout.
Record t : Type := mk {
  id : Z;
  busId : Z;
  seatNumber : string;
  rowPosition : Z;
  columnPosition : Z;
  isVisible : bool
}.

(** [{ ...insertSeatLayout, id }] *)
Definition of_insert (i : Z) (l : InsertSeatLayout.t) : t :=
  {| id := i;
     busId := InsertSeatLayout.busId l;
     seatNumber := InsertSeatLayout.seatNumber l;
     rowPosition := InsertSeatLayout.rowPosition l;
     columnPosition := InsertSeatLayout.columnPosition l;
     isVisible := InsertSeatLayout.isVisible l |}.
End SeatLayout.

Module SeatAvailability.
Record t : Type := mk {
  seatNumber : string;
  isAvailable : bool;
  rowPosition : Z;
  columnPosition : Z;
  isVisible : bool
}.
End SeatAvailability.

Module InsertBooking.
Record t : Type := mk {
  userId : Z;
  busId : Z;
  travelDate : string;
  status : string;
  totalAmount : Z;
  paymentStatus : string
}.
End InsertBooking.

Module Booking.
(** [bookingDate] is the [Date] of creation, as milliseconds. *)
Record t : Type := mk {
  id : Z;
  userId : Z;
  busId : Z;
  travelDate : string;
  bookingDate : Z;
  status : string;
  totalAmount : Z;
  paymentStatus : string
}.

(** [{ ...insertBooking, id, bookingDate: new Date() }] *)
Definition of_insert (i : Z) (now : Z) (b : InsertBooking.t) : t :=
  {| id := i;
     userId := InsertBooking.userId b;
     busId := InsertBooking.busId b;
     travelDate := InsertBooking.travelDate b;
     bookingDate := now;
     status := InsertBooking.status b;
     totalAmount := InsertBooking.totalAmount b;
     paymentStatus := InsertBooking.paymentStatus b |}.

(** [booking.status = st] *)
Definition set_status (st : string) (b : t) : t :=
  {| id := id b;
     userId := userId b;
     busId := busId b;
     travelDate := travelDate b;
     bookingDate := bookingDate b;
     status := st;
     totalAmount := totalAmount b;
     paymentStatus := paymentStatus b |}.
End Booking.

Module BookingDetail.
Record t : Type := mk { id : Z; bookingId : Z; seatNumber : string }.
End BookingDetail.

Module Trip.
Record t : Type := mk {
  id : Z;
  busId : Z;
  date : string;
  availableSeats : Z
}.

(** [trip.availableSeats = n] *)
Definition set_availableSeats (n : Z) (tr : t) : t :=
  {| id := id tr; busId := busId tr; date := date tr; availableSeats := n |}.
End Trip.

Module TripSeatAvailability.
Record t : Type := mk { tripId : Z; seatNumber : string; isAvailable : bool }.
End TripSeatAvailability.

Module BookingWithDetails.
Record t : Type := mk {
  booking : Booking.t;
  bus : BusWithCities.t;
  fromCity : City.t;
  toCity : City.t;
  seats : list string
}.
End BookingWithDetails.

(** ** The store

    The fields of [MemStorage]; the [users] map and its counter take no part
    in the seat inventory and are left out. *)

Record MemStorage : Type := mkMemStorage {
  cities : JsMap Z City.t;
  buses : JsMap Z Bus.t;
  seatLayouts : JsMap Z SeatLayout.t;
  bookings : JsMap Z Booking.t;
  bookingDetails : JsMap Z BookingDetail.t;
  trips : JsMap Z Trip.t;
  tripSeatAvailability : JsMap string TripSeatAvailability.t;
  cityIdCounter : Z;
  busIdCounter : Z;
  seatLayoutIdCounter : Z;
  bookingIdCounter : Z;
  bookingDetailIdCounter : Z;
  tripIdCounter : Z
}.

Definition with_city (k : Z) (c : City.t) (s : MemStorage) : MemStorage :=
  mkMemStorage (mset Z.eqb k c (cities s)) (buses s) (seatLayouts s)
    (bookings s) (bookingDetails s) (trips s) (tripSeatAvailability s)
    (cityIdCounter s + 1) (busIdCounter s) (seatLayoutIdCounter s)
    (bookingIdCounter s) (bookingDetailIdCounter s) (tripIdCounter s).

Definition with_buses (m : JsMap Z Bus.t) (s : MemStorage) : MemStorage :=
  mkMemStorage (cities s) m (seatLayouts s)
    (bookings s) (bookingDetails s) (trips s) (tripSeatAvailability s)
    (cityIdCounter s) (busIdCounter s) (seatLayoutIdCounter s)
    (bookingIdCounter s) (bookingDetailIdCounter s) (tripIdCounter s).

Definition with_busIdCounter (c : Z) (s : MemStorage) : MemStorage :=
  mkMemStorage (cities s) (buses s) (seatLayouts s)
    (bookings s) (bookingDetails s) (trips s) (tripSeatAvailability s)
    (cityIdCounter s) c (seatLayoutIdCounter s)
    (bookingIdCounter s) (bookingDetailIdCounter s) (tripIdCounter s).

Definition with_seatLayout (k : Z) (l : SeatLayout.t) (s : MemStorage)
  : MemStorage :=
  mkMemStorage (cities s) (buses s) (mset Z.eqb k l (seatLayouts s))
    (bookings s) (bookingDetails s) (trips s) (tripSeatAvailability s)
    (cityIdCounter s) (busIdCounter s) (seatLayoutIdCounter s + 1)
    (bookingIdCounter s) (bookingDetailIdCounter s) (tripIdCounter s).

Definition with_bookings (m : JsMap Z Booking.t) (s : MemStorage)
  : MemStorage :=
  mkMemStorage (cities s) (buses s) (seatLayouts s)
    m (bookingDetails s) (trips s) (tripSeatAvailability s)
    (cityIdCounter s) (busIdCounter s) (seatLayoutIdCounter s)
    (bookingIdCounter s) (bookingDetailIdCounter s) (tripIdCounter s).

Definition with_bookingIdCounter (c : Z) (s : MemStorage) : MemStorage :=
  mkMemStorage (cities s) (buses s) (seatLayouts s)
    (bookings s) (bookingDetails s) (trips s) (tripSeatAvailability s)
    (cityIdCounter s) (busIdCounter s) (seatLayoutIdCounter s)
    c (bookingDetailIdCounter s) (tripIdCounter s).

(** [const detailId = this.bookingDetailIdCounter++;
     this.bookingDetails.set(detailId, detail)] *)
Definition with_bookingDetail (d : BookingDetail.t) (s : MemStorage)
  : MemStorage :=
  mkMemStorage (cities s) (buses s) (seatLayouts s)
    (bookings s) (mset Z.eqb (BookingDetail.id d) d (bookingDetails s))
    (trips s) (tripSeatAvailability s)
    (cityIdCounter s) (busIdCounter s) (seatLayoutIdCounter s)
    (bookingIdCounter s) (bookingDetailIdCounter s + 1) (tripIdCounter s).

Definition with_trips (m : JsMap Z Trip.t) (s : MemStorage) : MemStorage :=
  mkMemStorage (cities s) (buses s) (seatLayouts s)
    (bookings s) (bookingDetails s) m (tripSeatAvailability s)
    (cityIdCounter s) (busIdCounter s) (seatLayoutIdCounter s)
    (bookingIdCounter s) (bookingDetailIdCounter s) (tripIdCounter s).

Definition with_tripIdCounter (c : Z) (s : MemStorage) : MemStorage :=
  mkMemStorage (cities s) (buses s) (seatLayouts s)
    (bookings s) (bookingDetails s) (trips s) (tripSeatAvailability s)
    (cityIdCounter s) (busIdCounter s) (seatLayoutIdCounter s)
    (bookingIdCounter s) (bookingDetailIdCounter s) c.

Definition with_tripSeatAvailability
  (m : JsMap string TripSeatAvailability.t) (s : MemStorage) : MemStorage :=
  mkMemStorage (cities s) (buses s) (seatLayouts s)
    (bookings s) (bookingDetails s) (trips s) m
    (cityIdCounter s) (busIdCounter s) (seatLayoutIdCounter s)
    (bookingIdCounter s) (bookingDetailIdCounter s) (tripIdCounter s).

(** ** Catalogue operations *)

(** [createCity] *)
Definition createCity (name : string) (s : MemStorage)
  : MemStorage * City.t :=
  let id := cityIdCounter s in
  let city := City.mk id name in
  (with_city id city s, city).

(** [getBus]: [undefined] for an unknown bus, an error when one of its
    cities is missing. *)
Definition getBus (id : Z) (s : MemStorage) : result (option BusWithCities.t) :=
  match mget Z.eqb id (buses s) with
  | None => Ok None
  | Some bus =>
      match mget Z.eqb (Bus.fromCityId bus) (cities s),
            mget Z.eqb (Bus.toCityId bus) (cities s) with
      | Some fromCity, Some toCity =>
          Ok (Some (BusWithCities.mk bus fromCity toCity))
      | _, _ =>
          Throw (JsError ("City not found for bus "
                            ++ num_to_string (Bus.id bus))%string)
      end
  end.

(** [createSeatLayout] *)
Definition createSeatLayout (l : InsertSeatLayout.t) (s : MemStorage)
  : MemStorage * SeatLayout.t :=
  let id := seatLayoutIdCounter s in
  let seatLayout := SeatLayout.of_insert id l in
  (with_seatLayout id seatLayout s, seatLayout).

(** [getBusSeatLayout] *)
Definition getBusSeatLayout (busId : Z) (s : MemStorage) : list SeatLayout.t :=
  filter (fun seatLayout => SeatLayout.busId seatLayout =? busId)
         (mvalues (seatLayouts s)).

(** One iteration of the inner loop of [createDefaultSeatLayout]: the seat
    at [row], [col], or nothing at the aisle. *)
Definition defaultSeat (busId row col : Z) : option InsertSeatLayout.t :=
  let rows := 6 in
  if row =? rows then
    Some (InsertSeatLayout.mk busId
            (num_to_string row ++ fromCharCode (65 + col))%string row col true)
  else if col =? 2 then None
  else
    let seatNumber :=
      if 2 <? col
      then (num_to_string row ++ fromCharCode (65 + col - 1))%string
      else (num_to_string row ++ fromCharCode (65 + col))%string in
    let isVisible :=
      if ((row =? 1) && ((col =? 2) || (col =? 3)))
         || ((row =? 3) && (col =? 0))
         || ((row =? 4) && ((col =? 0) || (col =? 1)))
      then false else true in
    Some (InsertSeatLayout.mk busId seatNumber row col isVisible).

(** [createDefaultSeatLayout]: rows 1 to 6, four columns each and five in
    the last row. *)
Definition createDefaultSeatLayout (busId : Z) (s : MemStorage) : MemStorage :=
  let rows := 6 in
  let seatsPerRow := 4 in
  fold_left
    (fun s row =>
       let cols := if row =? rows then 5 else seatsPerRow in
       fold_left
         (fun s col =>
            match defaultSeat busId row col with
            | Some l => fst (createSeatLayout l s)
            | None => s
            end)
         (zrange 0 (Z.to_nat cols)) s)
    (zrange 1 (Z.to_nat rows)) s.

(** [createBus] *)
Definition createBus (b : InsertBus.t) (s : MemStorage) : MemStorage * Bus.t :=
  let id := busIdCounter s in
  let bus := Bus.of_insert id b in
  let s1 := with_buses (mset Z.eqb id bus (buses s))
              (with_busIdCounter (id + 1) s) in
  (createDefaultSeatLayout id s1, bus).

(** [updateBus] *)
Definition updateBus (id : Z) (b : InsertBus.t) (s : MemStorage)
  : MemStorage * option Bus.t :=
  if negb (mhas Z.eqb id (buses s)) then (s, None)
  else
    let bus := Bus.of_insert id b in
    (with_buses (mset Z.eqb id bus (buses s)) s, Some bus).

(** [deleteBus] *)
Definition deleteBus (id : Z) (s : MemStorage) : MemStorage * bool :=
  (with_buses (mdelete Z.eqb id (buses s)) s, mhas Z.eqb id (buses s)).

(** ** Seat inventory *)

(** [trip => trip.busId === busId && trip.date === date] *)
Definition tripMatches (busId : Z) (date : string) (trip : Trip.t) : bool :=
  (Trip.busId trip =? busId) && String.eqb (Trip.date trip) date.

(** [Array.from(this.trips.values()).find(...)] *)
Definition findTrip (busId : Z) (date : string) (s : MemStorage)
  : option Trip.t :=
  find (tripMatches busId date) (mvalues (trips s)).

(** The key [`${tripId}-${seatNumber}`] of the per-trip seat map. *)
Definition seatKey (tripId : Z) (seatNumber : string) : string :=
  (num_to_string tripId ++ "-" ++ seatNumber)%string.

(** [this.tripSeatAvailability.set(key, {tripId, seatNumber, isAvailable})]
    for each seat number of a list, in order. *)
Definition markSeats (tripId : Z) (isAvailable : bool)
  (seatNumbers : list string) (m : JsMap string TripSeatAvailability.t)
  : JsMap string TripSeatAvailability.t :=
  fold_left
    (fun m seatNumber =>
       mset String.eqb (seatKey tripId seatNumber)
         (TripSeatAvailability.mk tripId seatNumber isAvailable) m)
    seatNumbers m.

(** The booking details of one booking, in the order of the map. *)
Definition detailsOf (bookingId : Z) (s : MemStorage) : list BookingDetail.t :=
  filter (fun detail => BookingDetail.bookingId detail =? bookingId)
         (mvalues (bookingDetails s)).

(** The set [bookedSeats] that [getSeatAvailability] builds: the seats of
    the confirmed bookings of the bus on the date. *)
Definition bookedSeats (busId : Z) (date : string) (s : MemStorage)
  : list string :=
  fold_left
    (fun booked booking =>
       if (Booking.busId booking =? busId)
          && String.eqb (Booking.travelDate booking) date
          && String.eqb (Booking.status booking) "confirmed"
       then
         fold_left
           (fun booked detail => sadd (BookingDetail.seatNumber detail) booked)
           (detailsOf (Booking.id booking) s) booked
       else booked)
    (mvalues (bookings s)) [].

(** [availability?.isAvailable !== false] *)
Definition notMarkedUnavailable (a : option TripSeatAvailability.t) : bool :=
  match a with
  | Some e => TripSeatAvailability.isAvailable e
  | None => true
  end.

(** The find-or-create half of [getSeatAvailability]. *)
Definition getOrCreateTrip (seatLayout : list SeatLayout.t)
  (busId : Z) (date : string) (s : MemStorage)
  : MemStorage * result Trip.t :=
  match findTrip busId date s with
  | Some trip => (s, Ok trip)
  | None =>
      match getBus busId s with
      | Throw e => (s, Throw e)
      | Ok None =>
          (s, Throw (JsError ("Bus not found with id "
                                ++ num_to_string busId)%string))
      | Ok (Some bus) =>
          let tripId := tripIdCounter s in
          let trip :=
            Trip.mk tripId busId date
              (Bus.totalSeats (BusWithCities.bus bus)) in
          let s1 := with_trips (mset Z.eqb tripId trip (trips s))
                      (with_tripIdCounter (tripId + 1) s) in
          let s2 :=
            with_tripSeatAvailability
              (markSeats (Trip.id trip) true
                 (map SeatLayout.seatNumber seatLayout)
                 (tripSeatAvailability s1)) s1 in
          (s2, Ok trip)
      end
  end.

(** The response of [getSeatAvailability] for a trip. *)
Definition seatReport (seatLayout : list SeatLayout.t) (trip : Trip.t)
  (busId : Z) (date : string) (s : MemStorage) : list SeatAvailability.t :=
  let booked := bookedSeats busId date s in
  map
    (fun seat =>
       let key := seatKey (Trip.id trip) (SeatLayout.seatNumber seat) in
       let availability := mget String.eqb key (tripSeatAvailability s) in
       SeatAvailability.mk
         (SeatLayout.seatNumber seat)
         (notMarkedUnavailable availability
          && negb (shas (SeatLayout.seatNumber seat) booked))
         (SeatLayout.rowPosition seat)
         (SeatLayout.columnPosition seat)
         (SeatLayout.isVisible seat))
    seatLayout.

(** [getSeatAvailability] *)
Definition getSeatAvailability (busId : Z) (date : string) (s : MemStorage)
  : MemStorage * result (list SeatAvailability.t) :=
  let seatLayout := getBusSeatLayout busId s in
  match getOrCreateTrip seatLayout busId date s with
  | (s', Throw e) => (s', Throw e)
  | (s', Ok trip) => (s', Ok (seatReport seatLayout trip busId date s'))
  end.

(** ** Booking ledger *)

(** [getBookingWithDetails] *)
Definition getBookingWithDetails (booking : Booking.t) (s : MemStorage)
  : result BookingWithDetails.t :=
  match getBus (Booking.busId booking) s with
  | Throw e => Throw e
  | Ok None =>
      Throw (JsError ("Bus not found for booking "
                        ++ num_to_string (Booking.id booking))%string)
  | Ok (Some bus) =>
      let details := detailsOf (Booking.id booking) s in
      let seats := map BookingDetail.seatNumber details in
      Ok (BookingWithDetails.mk booking bus
            (BusWithCities.fromCity bus) (BusWithCities.toCity bus) seats)
  end.

(** The loop of [createBooking] that stores one detail per seat. *)
Definition addDetails (bookingId : Z) (seats : list string) (s : MemStorage)
  : MemStorage :=
  fold_left
    (fun s seatNumber =>
       let detailId := bookingDetailIdCounter s in
       with_bookingDetail (BookingDetail.mk detailId bookingId seatNumber) s)
    seats s.

(** [createBooking]; [now] is the value of [new Date()]. *)
Definition createBooking (insertBooking : InsertBooking.t)
  (seats : list string) (now : Z) (s : MemStorage)
  : MemStorage * result BookingWithDetails.t :=
  let id := bookingIdCounter s in
  let booking := Booking.of_insert id now insertBooking in
  let s1 := with_bookings (mset Z.eqb id booking (bookings s))
              (with_bookingIdCounter (id + 1) s) in
  let s2 := addDetails id seats s1 in
  let s3 :=
    match findTrip (Booking.busId booking) (Booking.travelDate booking) s2 with
    | Some trip =>
        let trip' :=
          Trip.set_availableSeats
            (Trip.availableSeats trip - Z.of_nat (List.length seats)) trip in
        with_tripSeatAvailability
          (markSeats (Trip.id trip') false seats (tripSeatAvailability s2))
          (with_trips (mset Z.eqb (Trip.id trip') trip' (trips s2)) s2)
    | None => s2
    end in
  (s3, getBookingWithDetails booking s3).

(** [getBooking] *)
Definition getBooking (id : Z) (s : MemStorage)
  : result (option BookingWithDetails.t) :=
  match mget Z.eqb id (bookings s) with
  | None => Ok None
  | Some booking =>
      match getBookingWithDetails booking s with
      | Ok b => Ok (Some b)
      | Throw e => Throw e
      end
  end.

(** [cancelBooking] *)
Definition cancelBooking (id : Z) (s : MemStorage)
  : MemStorage * result BookingWithDetails.t :=
  match mget Z.eqb id (bookings s) with
  | None =>
      (s, Throw (JsError ("Booking not found with id "
                            ++ num_to_string id)%string))
  | Some booking0 =>
      let booking := Booking.set_status "cancelled" booking0 in
      let s1 := with_bookings (mset Z.eqb id booking (bookings s)) s in
      let details := detailsOf (Booking.id booking) s1 in
      let s2 :=
        match findTrip (Booking.busId booking) (Booking.travelDate booking) s1
        with
        | Some trip =>
            let trip' :=
              Trip.set_availableSeats
                (Trip.availableSeats trip + Z.of_nat (List.length details))
                trip in
            with_tripSeatAvailability
              (markSeats (Trip.id trip') true
                 (map BookingDetail.seatNumber details)
                 (tripSeatAvailability s1))
              (with_trips (mset Z.eqb (Trip.id trip') trip' (trips s1)) s1)
        | None => s1
        end in
      (s2, getBookingWithDetails booking s2)
  end.

(** ** The seeded store *)

(** [new Map()] everywhere, every counter at 1. *)
Definition emptyStorage : MemStorage :=
  mkMemStorage [] [] [] [] [] [] [] 1 1 1 1 1 1.

(** [seedData]: five cities, five buses with their default layouts. *)
Definition seedData (s : MemStorage) : MemStorage :=
  let '(s, bangalore) := createCity "Bangalore, Karnataka" s in
  let '(s, hyderabad) := createCity "Hyderabad, Telangana" s in
  let '(s, chennai) := createCity "Chennai, Tamil Nadu" s in
  let '(s, mumbai) := createCity "Mumbai, Maharashtra" s in
  let '(s, vijayawada) := createCity "Vijayawada, Andhra Pradesh" s in
  let s := fst (createBus
    (InsertBus.mk "Karnataka Express" "Luxury"
       (City.id bangalore) (City.id hyderabad) "07:30" "14:15" "6h 45m"
       4500 30 (Some ["wifi"; "ac"; "refreshments"]) (Some 450) (Some 120))
    s) in
  let s := fst (createBus
    (InsertBus.mk "Telangana Travels" "Standard"
       (City.id bangalore) (City.id hyderabad) "09:00" "16:30" "7h 30m"
       2850 40 (Some ["ac"]) (Some 310) (Some 85))
    s) in
  let s := fst (createBus
    (InsertBus.mk "Tamil Nadu Superfast" "Luxury"
       (City.id chennai) (City.id bangalore) "08:00" "14:30" "6h 30m"
       5200 25 (Some ["wifi"; "ac"; "refreshments"; "entertainment"])
       (Some 470) (Some 95))
    s) in
  let s := fst (createBus
    (InsertBus.mk "Maharashtra Travels" "Standard"
       (City.id mumbai) (City.id hyderabad) "18:00" "08:30" "14h 30m"
       8500 35 (Some ["wifi"; "ac"; "refreshments"]) (Some 390) (Some 42))
    s) in
  let s := fst (createBus
    (InsertBus.mk "Andhra Pradesh Express" "Luxury"
       (City.id vijayawada) (City.id bangalore) "19:30" "05:45" "10h 15m"
       9900 22
       (Some ["wifi"; "ac"; "refreshments"; "entertainment"; "sleeper"])
       (Some 480) (Some 65))
    s) in
  s.

(** [new MemStorage()] *)
Definition initialStorage : MemStorage := seedData emptyStorage.

(** ** The real-time layer (hold-seat socket handler)

    The handler calls [storage.holdSeat] and, from a timer,
    [storage.releaseSeat]. Neither has a definition to run, so the handler
    is modelled by what it emits and schedules, and by whether the call on
    the storage object can be made at all. *)

(** The names bound at the top of the handler's module: its imports and
    [app]. *)
Definition moduleScope : list string :=
  ["express"; "registerRoutes"; "setupVite"; "serveStatic"; "log"; "Server";
   "app"].

(** The methods the class [MemStorage] defines. *)
Definition memStorageMethods : list string :=
  ["getUser"; "getUserByUsername"; "getUserByEmail"; "createUser";
   "getAllUsers"; "createCity"; "getAllCities"; "getCity"; "createBus";
   "getAllBuses"; "getBus"; "updateBus"; "deleteBus"; "searchBuses";
   "createSeatLayout"; "getBusSeatLayout"; "getSeatAvailability";
   "createBooking"; "getBooking"; "getUserBookings"; "getAllBookings";
   "cancelBooking"; "getBookingWithDetails"; "createDefaultSeatLayout";
   "seedData"].

Definition hasMethod (name : string) : bool :=
  existsb (String.eqb name) memStorageMethods.

(** [storage.name(...)] evaluated in the handler: a ReferenceError when
    [storage] is not bound, a TypeError when the object has no such
    method. *)
Definition callStorage (name : string) : result unit :=
  if negb (existsb (String.eqb "storage") moduleScope)
  then Throw (JsError "storage is not defined")
  else if hasMethod name then Ok tt
  else Throw (JsError ("storage." ++ name ++ " is not a function")%string).

(** What a handler does to the outside: [io.emit('seat-status-changed', ...)]
    and [setTimeout]. *)
Inductive SocketEffect : Type :=
| Emit (busId : Z) (seatNumber : string) (status : string)
| SetTimeout (delay : Z) (busId : Z) (seatNumber : string).

(** The ['hold-seat'] handler: the effects it performs and how it ends. *)
Definition onHoldSeat (busId : Z) (seatNumber : string)
  : list SocketEffect * result unit :=
  let holdTimeout := 5 * 60 * 1000 in
  match callStorage "holdSeat" with
  | Throw e => ([], Throw e)
  | Ok _ =>
      ([Emit busId seatNumber "held";
        SetTimeout holdTimeout busId seatNumber], Ok tt)
  end.

(** ** Histories of calls

    The mutating methods of the storage interface, and the store after a
    sequence of calls. A call that throws keeps what it wrote before. *)

Inductive Op : Type :=
| OpCreateCity (name : string)
| OpCreateBus (b : InsertBus.t)
| OpUpdateBus (id : Z) (b : InsertBus.t)
| OpDeleteBus (id : Z)
| OpCreateSeatLayout (l : InsertSeatLayout.t)
| OpGetSeatAvailability (busId : Z) (date : string)
| OpCreateBooking (b : InsertBooking.t) (seats : list string) (now : Z)
| OpCancelBooking (id : Z).

Definition step (s : MemStorage) (o : Op) : MemStorage :=
  match o with
  | OpCreateCity name => fst (createCity name s)
  | OpCreateBus b => fst (createBus b s)
  | OpUpdateBus id b => fst (updateBus id b s)
  | OpDeleteBus id => fst (deleteBus id s)
  | OpCreateSeatLayout l => fst (createSeatLayout l s)
  | OpGetSeatAvailability busId date => fst (getSeatAvailability busId date s)
  | OpCreateBooking b seats now => fst (createBooking b seats now s)
  | OpCancelBooking id => fst (cancelBooking id s)
  end.

Definition run (ops : list Op) (s : MemStorage) : MemStorage :=
  fold_left step ops s.

(** The stores the server can be in. *)
Definition reachable (s : MemStorage) : Prop :=
  exists ops, s = run ops initialStorage.

(** ** Observations *)

(** The trips recorded for a bus and a date. *)
Definition tripsFor (busId : Z) (date : string) (s : MemStorage)
  : list Trip.t :=
  filter (tripMatches busId date) (mvalues (trips s)).

(** Whether a response of [getSeatAvailability] lists the seat as
    available. *)
Definition listedAvailable (seat : string) (r : list SeatAvailability.t)
  : bool :=
  existsb
    (fun a => String.eqb (SeatAvailability.seatNumber a) seat
              && SeatAvailability.isAvailable a)
    r.

(** Whether [getSeatAvailability] reports the seat available. *)
Definition seatAvailable (busId : Z) (date : string) (seat : string)
  (s : MemStorage) : bool :=
  match snd (getSeatAvailability busId date s) with
  | Ok r => listedAvailable seat r
  | Throw _ => false
  end.

(** How many seats [getSeatAvailability] reports available. *)
Definition availableCount (busId : Z) (date : string) (s : MemStorage) : Z :=
  match snd (getSeatAvailability busId date s) with
  | Ok r => Z.of_nat (List.length (filter SeatAvailability.isAvailable r))
  | Throw _ => 0
  end.

(** The details [createBooking] appends for a seat list, with their keys,
    when the next free detail id is [c]. *)
Fixpoint newDetails (c : Z) (bookingId : Z) (seats : list string)
  : JsMap Z BookingDetail.t :=
  match seats with
  | [] => []
  | seatNumber :: rest =>
      (c, BookingDetail.mk c bookingId seatNumber)
        :: newDetails (c + 1) bookingId rest
  end.

(** ** Representation invariant

    What every reachable store satisfies: a value sits under its own id,
    the counters are above every key in use, the keys of a map are distinct,
    no two trips share a bus and date, and a detail refers to a booking id
    that has been issued. *)

Definition keysAreIds {V : Type} (idOf : V -> Z) (m : JsMap Z V) : bool :=
  forallb (fun kv => fst kv =? idOf (snd kv)) m.

Definition keysBelow {V : Type} (c : Z) (m : JsMap Z V) : bool :=
  forallb (fun kv => fst kv <? c) m.

Fixpoint distinctb {A : Type} (eqb : A -> A -> bool) (l : list A) : bool :=
  match l with
  | [] => true
  | x :: l' => negb (existsb (eqb x) l') && distinctb eqb l'
  end.

Definition tripKey (t : Trip.t) : Z * string := (Trip.busId t, Trip.date t).

Definition tripKeyEqb (a b : Z * string) : bool :=
  (fst a =? fst b) && String.eqb (snd a) (snd b).

Definition wfb (s : MemStorage) : bool :=
  keysAreIds Trip.id (trips s)
  && keysBelow (tripIdCounter s) (trips s)
  && distinctb Z.eqb (mkeys (trips s))
  && distinctb tripKeyEqb (map tripKey (mvalues (trips s)))
  && keysAreIds Booking.id (bookings s)
  && keysBelow (bookingIdCounter s) (bookings s)
  && keysBelow (bookingDetailIdCounter s) (bookingDetails s)
  && forallb (fun d => BookingDetail.bookingId d <? bookingIdCounter s)
       (mvalues (bookingDetails s)).

Definition wf (s : MemStorage) : Prop := wfb s = true.

(** The same invariant, as propositions. *)
Record WF (s : MemStorage) : Prop := mkWF {
  wf_trip_ids : forall k t, In (k, t) (trips s) -> k = Trip.id t;
  wf_trip_below : forall k t, In (k, t) (trips s) -> k < tripIdCounter s;
  wf_trip_keys : NoDup (mkeys (trips s));
  wf_trip_unique : NoDup (map tripKey (mvalues (trips s)));
  wf_booking_ids : forall k b, In (k, b) (bookings s) -> k = Booking.id b;
  wf_booking_below :
    forall k b, In (k, b) (bookings s) -> k < bookingIdCounter s;
  wf_detail_below :
    forall k d, In (k, d) (bookingDetails s) -> k < bookingDetailIdCounter s;
  wf_detail_booking :
    forall d, In d (mvalues (bookingDetails s)) ->
              BookingDetail.bookingId d < bookingIdCounter s
}.

(** Two stores with the same trips, seat map, bookings, details and
    ledger counters: what the catalogue operations preserve. *)
Definition sameLedger (s s' : MemStorage) : Prop :=
  trips s' = trips s
  /\ tripSeatAvailability s' = tripSeatAvailability s
  /\ bookings s' = bookings s
  /\ bookingDetails s' = bookingDetails s
  /\ tripIdCounter s' = tripIdCounter s
  /\ bookingIdCounter s' = bookingIdCounter s
  /\ bookingDetailIdCounter s' = bookingDetailIdCounter s.

(** Two booking records that agree on every field but [status]. *)
Definition sameExceptStatus (a b : Booking.t) : Prop :=
  Booking.id a = Booking.id b
  /\ Booking.userId a = Booking.userId b
  /\ Booking.busId a = Booking.busId b
  /\ Booking.travelDate a = Booking.travelDate b
  /\ Booking.bookingDate a = Booking.bookingDate b
  /\ Booking.totalAmount a = Booking.totalAmount b
  /\ Booking.paymentStatus a = Booking.paymentStatus b.

(** The store after a booking, and after the cancellation of that
    booking. *)
Definition afterBooking (ib : InsertBooking.t) (seats : list string)
  (now : Z) (s : MemStorage) : MemStorage :=
  fst (createBooking ib seats now s).

Definition afterCancel (ib : InsertBooking.t) (seats : list string)
  (now : Z) (s : MemStorage) : MemStorage :=
  fst (cancelBooking (bookingIdCounter s) (afterBooking ib seats now s)).

(** By how much an operation moves the [availableSeats] counter of the trip
    of a bus and date: down by the length of the seat list for a booking
    of that bus and date, up by the number of details of the booking for a
    cancellation of a booking of that bus and date. *)
Definition counterDelta (busId : Z) (date : string) (s : MemStorage) (o : Op)
  : Z :=
  match o with
  | OpCreateBooking b seats _ =>
      if (InsertBooking.busId b =? busId)
         && String.eqb (InsertBooking.travelDate b) date
      then - Z.of_nat (List.length seats)
      else 0
  | OpCancelBooking id =>
      match mget Z.eqb id (bookings s) with
      | Some b =>
          if (Booking.busId b =? busId)
             && String.eqb (Booking.travelDate b) date
          then Z.of_nat (List.length (detailsOf (Booking.id b) s))
          else 0
      | None => 0
      end
  | _ => 0
  end.

(** ** Example stores and requests *)

(** A confirmed, paid booking request for bus 1 on 2025-06-01. *)
Definition exampleRequest : InsertBooking.t :=
  InsertBooking.mk 7 1 "2025-06-01" "confirmed" 4500 "paid".

(** What a call returned, if it returned. *)
Definition returned {A : Type} (r : result A) : option A :=
  match r with
  | Ok a => Some a
  | Throw _ => None
  end.

(** The seeded store after the seats of bus 1 on 2025-06-01 were queried. *)
Definition tripOpened : MemStorage :=
  Eval vm_compute in
    run [OpGetSeatAvailability 1 "2025-06-01"] initialStorage.

(** Then seat 2B was booked. *)
Definition seat2BBooked : MemStorage :=
  Eval vm_compute in
    run [OpGetSeatAvailability 1 "2025-06-01";
         OpCreateBooking exampleRequest ["2B"] 0] initialStorage.

(** Then that booking (id 1) was cancelled. *)
Definition seat2BCancelled : MemStorage :=
  Eval vm_compute in
    run [OpGetSeatAvailability 1 "2025-06-01";
         OpCreateBooking exampleRequest ["2B"] 0;
         OpCancelBooking 1] initialStorage.

(** Bus 1 of the seeded store, with its cities. *)
Definition karnatakaExpress : BusWithCities.t :=
  BusWithCities.mk
    (Bus.mk 1 "Karnataka Express" "Luxury" 1 2 "07:30" "14:15" "6h 45m"
       4500 30 (Some ["wifi"; "ac"; "refreshments"]) (Some 450) (Some 120))
    (City.mk 1 "Bangalore, Karnataka")
    (City.mk 2 "Hyderabad, Telangana").

(** * The rest of the storage interface *)

(** ** Reading the catalogue *)

(** [Array.prototype.map] with a callback that may throw, and [Promise.all]
    over calls that only read: the results in order, or the first error. *)
Fixpoint mapResult {A B : Type} (f : A -> result B) (l : list A)
  : result (list B) :=
  match l with
  | [] => Ok []
  | x :: l' =>
      match f x with
      | Throw e => Throw e
      | Ok y =>
          match mapResult f l' with
          | Throw e => Throw e
          | Ok ys => Ok (y :: ys)
          end
      end
  end.

(** [getCity] *)
Definition getCity (id : Z) (s : MemStorage) : option City.t :=
  mget Z.eqb id (cities s).

(** [getAllCities] *)
Definition getAllCities (s : MemStorage) : list City.t := mvalues (cities s).

(** The callback of [getAllBuses] and [searchBuses]: a bus with its two
    cities, or an error when one of them is missing. *)
Definition withCities (s : MemStorage) (bus : Bus.t)
  : result BusWithCities.t :=
  match mget Z.eqb (Bus.fromCityId bus) (cities s),
        mget Z.eqb (Bus.toCityId bus) (cities s) with
  | Some fromCity, Some toCity => Ok (BusWithCities.mk bus fromCity toCity)
  | _, _ =>
      Throw (JsError ("City not found for bus "
                        ++ num_to_string (Bus.id bus))%string)
  end.

(** [getAllBuses] *)
Definition getAllBuses (s : MemStorage) : result (list BusWithCities.t) :=
  mapResult (withCities s) (mvalues (buses s)).

(** [String.prototype.split] on a one-character separator. *)
Fixpoint splitOn (sep : ascii) (str : string) : list string :=
  match str with
  | EmptyString => [EmptyString]
  | String c rest =>
      if Ascii.eqb c sep then EmptyString :: splitOn sep rest
      else
        match splitOn sep rest with
        | [] => [String c EmptyString]
        | h :: t => String c h :: t
        end
  end.

(** A number that need not be an integer (the result of [Number(...)] on a
    query string): [NaN], an integer, or any other value, that is a
    fraction or an infinity. *)
Inductive JsNumber : Type :=
| NaN
| Integer (z : Z)
| NonInteger.

(** [if (n)] on a number: 0 and [NaN] are falsy. *)
Definition numberTruthy (n : JsNumber) : bool :=
  match n with
  | NaN => false
  | Integer z => negb (z =? 0)
  | NonInteger => true
  end.

(** [z === n] for an integer [z]. *)
Definition numberIs (z : Z) (n : JsNumber) : bool :=
  match n with
  | Integer c => z =? c
  | _ => false
  end.

Module SearchBusParams.
(** An absent field is [None]. *)
Record t : Type := mk {
  fromCityId : option JsNumber;
  toCityId : option JsNumber;
  date : option string;
  priceRange : option string
}.
End SearchBusParams.

Section SearchBuses.

(** [parseInt] of the language, on one argument: [None] is [NaN]. *)
Variable parseInt : string -> option Z.

(** [const [min, max] = params.priceRange.split('-').map(p => parseInt(p))]:
    a missing second element is [undefined], which [isNaN] takes for
    [NaN]. *)
Definition priceBounds (priceRange : string) : option Z * option Z :=
  match map parseInt (splitOn "-"%char priceRange) with
  | [] => (None, None)
  | [min] => (min, None)
  | min :: max :: _ => (min, max)
  end.

(** The three filters of [searchBuses], before the cities are attached. A
    city id that is 0 or [NaN] and an empty price range are falsy and filter
    nothing. *)
Definition searchFilter (params : SearchBusParams.t) (buses : list Bus.t)
  : list Bus.t :=
  let buses :=
    match SearchBusParams.fromCityId params with
    | Some c =>
        if numberTruthy c
        then filter (fun bus => numberIs (Bus.fromCityId bus) c) buses
        else buses
    | None => buses
    end in
  let buses :=
    match SearchBusParams.toCityId params with
    | Some c =>
        if numberTruthy c
        then filter (fun bus => numberIs (Bus.toCityId bus) c) buses
        else buses
    | None => buses
    end in
  match SearchBusParams.priceRange params with
  | Some range =>
      if String.eqb range "" then buses
      else
        match priceBounds range with
        | (Some min, Some max) =>
            filter (fun bus => (min * 100 <=? Bus.price bus)
                               && (Bus.price bus <=? max * 100)) buses
        | (Some min, None) =>
            filter (fun bus => min * 100 <=? Bus.price bus) buses
        | (None, _) => buses
        end
  | None => buses
  end.

(** [searchBuses] *)
Definition searchBuses (params : SearchBusParams.t) (s : MemStorage)
  : result (list BusWithCities.t) :=
  mapResult (withCities s) (searchFilter params (mvalues (buses s))).

End SearchBuses.

(** ** Reading the ledger *)

(** [getUserBookings] *)
Definition getUserBookings (userId : Z) (s : MemStorage)
  : result (list BookingWithDetails.t) :=
  let userBookings :=
    filter (fun booking => Booking.userId booking =? userId)
           (mvalues (bookings s)) in
  mapResult (fun booking => getBookingWithDetails booking s) userBookings.

(** [getAllBookings] *)
Definition getAllBookings (s : MemStorage)
  : result (list BookingWithDetails.t) :=
  mapResult (fun booking => getBookingWithDetails booking s)
            (mvalues (bookings s)).

(** ** More of what every reachable store satisfies

    A bus sits under its own id and the bus ids in use are distinct and
    below the counter; seat-layout keys are below their counter; booking
    keys are distinct; trip ids are positive. *)

Record WFC (s : MemStorage) : Prop := mkWFC {
  wfc_bus_ids : forall k b, In (k, b) (buses s) -> k = Bus.id b;
  wfc_bus_below : forall k b, In (k, b) (buses s) -> k < busIdCounter s;
  wfc_bus_keys : NoDup (mkeys (buses s));
  wfc_layout_below :
    forall k l, In (k, l) (seatLayouts s) -> k < seatLayoutIdCounter s;
  wfc_booking_keys : NoDup (mkeys (bookings s));
  wfc_trip_positive : forall k t, In (k, t) (trips s) -> 0 < k;
  wfc_trip_counter : 0 < tripIdCounter s
}.

(** The operations that build the seeded store, as a history. *)
Definition seedOps : list Op :=
  [OpCreateCity "Bangalore, Karnataka";
   OpCreateCity "Hyderabad, Telangana";
   OpCreateCity "Chennai, Tamil Nadu";
   OpCreateCity "Mumbai, Maharashtra";
   OpCreateCity "Vijayawada, Andhra Pradesh";
   OpCreateBus
     (InsertBus.mk "Karnataka Express" "Luxury" 1 2 "07:30" "14:15" "6h 45m"
        4500 30 (Some ["wifi"; "ac"; "refreshments"]) (Some 450) (Some 120));
   OpCreateBus
     (InsertBus.mk "Telangana Travels" "Standard" 1 2 "09:00" "16:30"
        "7h 30m" 2850 40 (Some ["ac"]) (Some 310) (Some 85));
   OpCreateBus
     (InsertBus.mk "Tamil Nadu Superfast" "Luxury" 3 1 "08:00" "14:30"
        "6h 30m" 5200 25
        (Some ["wifi"; "ac"; "refreshments"; "entertainment"])
        (Some 470) (Some 95));
   OpCreateBus
     (InsertBus.mk "Maharashtra Travels" "Standard" 4 2 "18:00" "08:30"
        "14h 30m" 8500 35 (Some ["wifi"; "ac"; "refreshments"])
        (Some 390) (Some 42));
   OpCreateBus
     (InsertBus.mk "Andhra Pradesh Express" "Luxury" 5 1 "19:30" "05:45"
        "10h 15m" 9900 22
        (Some ["wifi"; "ac"; "refreshments"; "entertainment"; "sleeper"])
        (Some 480) (Some 65))].

(** A booking request for bus 99, which the seeded store does not have. *)
Definition ghostRequest : InsertBooking.t :=
  InsertBooking.mk 7 99 "2025-06-01" "confirmed" 4500 "paid".

(** ** The default seat layout, as a list

    The seats [createDefaultSeatLayout] creates for a bus, in the order of
    its two loops, and the layout rows it appends when the next free layout
    id is [c]. *)
Definition defaultLayout (busId : Z) : list InsertSeatLayout.t :=
  flat_map
    (fun row =>
       let cols := if row =? 6 then 5 else 4 in
       flat_map
         (fun col =>
            match defaultSeat busId row col with
            | Some l => [l]
            | None => []
            end)
         (zrange 0 (Z.to_nat cols)))
    (zrange 1 (Z.to_nat 6)).

Fixpoint newLayouts (c : Z) (ls : list InsertSeatLayout.t)
  : JsMap Z SeatLayout.t :=
  match ls with
  | [] => []
  | l :: rest => (c, SeatLayout.of_insert c l) :: newLayouts (c + 1) rest
  end.

(** A bus to add to the seeded store: 45 seats declared. *)
Definition nightRider : InsertBus.t :=
  InsertBus.mk "Night Rider" "Sleeper" 2 3 "22:00" "05:00" "7h 00m"
    3000 45 None None None.

(** A bus whose departure city (99) the seeded store does not have. *)
Definition ghostBus : InsertBus.t :=
  InsertBus.mk "Ghost Line" "Standard" 99 2 "10:00" "12:00" "2h 00m"
    1000 20 None None None.

(** The value of [parseInt] on a string of decimal digits and on the empty
    string (where it is [NaN]). The examples apply it to such strings
    only. *)
Fixpoint digitsValue (acc : Z) (str : string) : option Z :=
  match str with
  | EmptyString => Some acc
  | String c rest =>
      let n := Z.of_N (N_of_ascii c) in
      if (48 <=? n) && (n <=? 57)
      then digitsValue (acc * 10 + (n - 48)) rest
      else None
  end.

Definition parseDigits (str : string) : option Z :=
  match str with
  | EmptyString => None
  | _ => digitsValue 0 str
  end.

(** * The HTTP routes (server/routes.ts)

    A handler is a function of the session user of the request, of the parts
    of the request it reads and of the store; it gives the store and the
    response. [req.user] is present exactly when [req.isAuthenticated()]
    holds. A request body is given as what the schema's [parse] returns,
    [None] when it throws a [ZodError]; a query parameter occurs at most
    once. The routes of the user administration and those that [setupAuth]
    installs are not modelled. *)

Module SessionUser.
(** [req.user], with the two fields the routes read. *)
Record t : Type := mk { id : Z; isAdmin : bool }.
End SessionUser.

(** What a handler passes to [res.json]. [JInvalidInput] is
    [{ message: "Invalid input", errors }] with the validator's errors;
    [JFailure] is [{ message, error }]. *)
Inductive Json : Type :=
| JMessage (message : string)
| JInvalidInput
| JFailure (message : string) (error : Error)
| JCity (city : City.t)
| JCities (cities : list City.t)
| JBus (bus : Bus.t)
| JBusWithCities (bus : BusWithCities.t)
| JBuses (buses : list BusWithCities.t)
| JSeats (seats : list SeatAvailability.t)
| JBooking (booking : BookingWithDetails.t)
| JBookings (bookings : list BookingWithDetails.t).

(** The status ([res.status(...)], 200 when not set) and the body. *)
Record Response : Type := mkResponse { statusCode : Z; json : Json }.

Definition Handler : Type := MemStorage -> MemStorage * Response.

(** The middleware [isAuthenticated]. *)
Definition isAuthenticated (user : option SessionUser.t)
  (next : SessionUser.t -> Handler) : Handler :=
  fun s =>
    match user with
    | Some u => next u s
    | None => (s, mkResponse 401 (JMessage "Authentication required"))
    end.

(** The middleware [isAdmin]. *)
Definition isAdmin (user : option SessionUser.t)
  (next : SessionUser.t -> Handler) : Handler :=
  fun s =>
    match user with
    | Some u =>
        if SessionUser.isAdmin u then next u s
        else (s, mkResponse 403 (JMessage "Admin access required"))
    | None => (s, mkResponse 403 (JMessage "Admin access required"))
    end.

(** [if (q)] on a query parameter: absent and empty are falsy. *)
Definition truthy (q : option string) : bool :=
  match q with
  | Some str => negb (String.eqb str "")
  | None => false
  end.

(** [booking.userId = req.user.id] *)
Definition withUserId (userId : Z) (b : InsertBooking.t) : InsertBooking.t :=
  InsertBooking.mk userId (InsertBooking.busId b)
    (InsertBooking.travelDate b) (InsertBooking.status b)
    (InsertBooking.totalAmount b) (InsertBooking.paymentStatus b).

Section Routes.

(** [parseInt] and [Number] of the language, on a string. *)
Variable parseInt : string -> option Z.
Variable toNumber : string -> JsNumber.

(** [q ? Number(q) : undefined] *)
Definition queryNumber (q : option string) : option JsNumber :=
  match q with
  | Some str => if truthy q then Some (toNumber str) else None
  | None => None
  end.

(** [GET /api/cities] *)
Definition getCitiesRoute : Handler :=
  fun s => (s, mkResponse 200 (JCities (getAllCities s))).

(** [POST /api/cities] *)
Definition postCityRoute (user : option SessionUser.t) (body : option string)
  : Handler :=
  isAdmin user
    (fun _ s =>
       match body with
       | None => (s, mkResponse 400 JInvalidInput)
       | Some name =>
           let '(s', city) := createCity name s in
           (s', mkResponse 201 (JCity city))
       end).

(** [GET /api/buses] *)
Definition getBusesRoute (from to date priceRange : option string)
  : Handler :=
  fun s =>
    if truthy from || truthy to || truthy date then
      match searchBuses parseInt
              (SearchBusParams.mk (queryNumber from) (queryNumber to)
                 date priceRange) s
      with
      | Ok buses => (s, mkResponse 200 (JBuses buses))
      | Throw e => (s, mkResponse 500 (JFailure "Failed to fetch buses" e))
      end
    else
      match getAllBuses s with
      | Ok buses => (s, mkResponse 200 (JBuses buses))
      | Throw e => (s, mkResponse 500 (JFailure "Failed to fetch buses" e))
      end.

(** [POST /api/buses] *)
Definition postBusRoute (user : option SessionUser.t)
  (body : option InsertBus.t) : Handler :=
  isAdmin user
    (fun _ s =>
       match body with
       | None => (s, mkResponse 400 JInvalidInput)
       | Some b =>
           let '(s', bus) := createBus b s in
           (s', mkResponse 201 (JBus bus))
       end).

(** [GET /api/buses/:id] *)
Definition getBusRoute (id : string) : Handler :=
  fun s =>
    match parseInt id with
    | None => (s, mkResponse 400 (JMessage "Invalid bus ID"))
    | Some busId =>
        match getBus busId s with
        | Throw e => (s, mkResponse 500 (JFailure "Failed to fetch bus" e))
        | Ok None => (s, mkResponse 404 (JMessage "Bus not found"))
        | Ok (Some bus) => (s, mkResponse 200 (JBusWithCities bus))
        end
    end.

(** [PUT /api/buses/:id] *)
Definition putBusRoute (user : option SessionUser.t) (id : string)
  (body : option InsertBus.t) : Handler :=
  isAdmin user
    (fun _ s =>
       match parseInt id with
       | None => (s, mkResponse 400 (JMessage "Invalid bus ID"))
       | Some busId =>
           match body with
           | None => (s, mkResponse 400 JInvalidInput)
           | Some b =>
               match updateBus busId b s with
               | (s', None) => (s', mkResponse 404 (JMessage "Bus not found"))
               | (s', Some bus) => (s', mkResponse 200 (JBus bus))
               end
           end
       end).

(** [DELETE /api/buses/:id] *)
Definition deleteBusRoute (user : option SessionUser.t) (id : string)
  : Handler :=
  isAdmin user
    (fun _ s =>
       match parseInt id with
       | None => (s, mkResponse 400 (JMessage "Invalid bus ID"))
       | Some busId =>
           let '(s', success) := deleteBus busId s in
           if negb success
           then (s', mkResponse 404 (JMessage "Bus not found"))
           else (s', mkResponse 200 (JMessage "Bus deleted successfully"))
       end).

(** [GET /api/buses/:id/seats] *)
Definition getSeatsRoute (id : string) (date : option string) : Handler :=
  fun s =>
    match parseInt id, date with
    | Some busId, Some d =>
        if negb (truthy date)
        then (s, mkResponse 400 (JMessage "Invalid bus ID or missing date"))
        else
          match getSeatAvailability busId d s with
          | (s', Ok seats) => (s', mkResponse 200 (JSeats seats))
          | (s', Throw e) =>
              (s', mkResponse 500
                     (JFailure "Failed to fetch seat availability" e))
          end
    | _, _ => (s, mkResponse 400 (JMessage "Invalid bus ID or missing date"))
    end.

(** [POST /api/bookings]; [now] is the value of [new Date()] in
    [createBooking]. *)
Definition postBookingRoute (user : option SessionUser.t)
  (body : option (InsertBooking.t * list string)) (now : Z) : Handler :=
  isAuthenticated user
    (fun u s =>
       match body with
       | None => (s, mkResponse 400 JInvalidInput)
       | Some (booking, seats) =>
           let booking := withUserId (SessionUser.id u) booking in
           match createBooking booking seats now s with
           | (s', Ok newBooking) => (s', mkResponse 201 (JBooking newBooking))
           | (s', Throw e) =>
               (s', mkResponse 500 (JFailure "Failed to create booking" e))
           end
       end).

(** [GET /api/bookings] *)
Definition getBookingsRoute (user : option SessionUser.t) : Handler :=
  isAuthenticated user
    (fun u s =>
       match
         (if SessionUser.isAdmin u then getAllBookings s
          else getUserBookings (SessionUser.id u) s)
       with
       | Ok bookings => (s, mkResponse 200 (JBookings bookings))
       | Throw e => (s, mkResponse 500 (JFailure "Failed to fetch bookings" e))
       end).

(** [GET /api/bookings/:id] *)
Definition getBookingRoute (user : option SessionUser.t) (id : string)
  : Handler :=
  isAuthenticated user
    (fun u s =>
       match parseInt id with
       | None => (s, mkResponse 400 (JMessage "Invalid booking ID"))
       | Some bookingId =>
           match getBooking bookingId s with
           | Throw e =>
               (s, mkResponse 500 (JFailure "Failed to fetch booking" e))
           | Ok None => (s, mkResponse 404 (JMessage "Booking not found"))
           | Ok (Some booking) =>
               if negb (SessionUser.isAdmin u)
                  && negb (Booking.userId (BookingWithDetails.booking booking)
                           =? SessionUser.id u)
               then (s, mkResponse 403 (JMessage "Unauthorized"))
               else (s, mkResponse 200 (JBooking booking))
           end
       end).

(** [POST /api/bookings/:id/cancel] *)
Definition cancelBookingRoute (user : option SessionUser.t) (id : string)
  : Handler :=
  isAuthenticated user
    (fun u s =>
       match parseInt id with
       | None => (s, mkResponse 400 (JMessage "Invalid booking ID"))
       | Some bookingId =>
           match getBooking bookingId s with
           | Throw e =>
               (s, mkResponse 500 (JFailure "Failed to cancel booking" e))
           | Ok None => (s, mkResponse 404 (JMessage "Booking not found"))
           | Ok (Some booking) =>
               if negb (SessionUser.isAdmin u)
                  && negb (Booking.userId (BookingWithDetails.booking booking)
                           =? SessionUser.id u)
               then (s, mkResponse 403 (JMessage "Unauthorized"))
               else
                 match cancelBooking bookingId s with
                 | (s', Ok updatedBooking) =>
                     (s', mkResponse 200 (JBooking updatedBooking))
                 | (s', Throw e) =>
                     (s', mkResponse 500
                            (JFailure "Failed to cancel booking" e))
                 end
           end
       end).

(** A request to one of the routes above. *)
Inductive Call : Type :=
| GetCities
| PostCity (body : option string)
| GetBuses (from to date priceRange : option string)
| PostBus (body : option InsertBus.t)
| GetBus (id : string)
| PutBus (id : string) (body : option InsertBus.t)
| DeleteBus (id : string)
| GetSeats (id : string) (date : option string)
| PostBooking (body : option (InsertBooking.t * list string)) (now : Z)
| GetBookings
| GetBooking (id : string)
| CancelBooking (id : string).

(** The handler a request is routed to. *)
Definition handle (user : option SessionUser.t) (c : Call) : Handler :=
  match c with
  | GetCities => getCitiesRoute
  | PostCity body => postCityRoute user body
  | GetBuses from to date priceRange => getBusesRoute from to date priceRange
  | PostBus body => postBusRoute user body
  | GetBus id => getBusRoute id
  | PutBus id body => putBusRoute user id body
  | DeleteBus id => deleteBusRoute user id
  | GetSeats id date => getSeatsRoute id date
  | PostBooking body now => postBookingRoute user body now
  | GetBookings => getBookingsRoute user
  | GetBooking id => getBookingRoute user id
  | CancelBooking id => cancelBookingRoute user id
  end.

End Routes.

(** The bookings a response shows. *)
Definition shownBookings (r : Response) : list BookingWithDetails.t :=
  match json r with
  | JBooking b => [b]
  | JBookings l => l
  | _ => []
  end.



(** The value of [Number] on a string of decimal digits, used in the
    examples on such strings only. *)
Definition digitsNumber (str : string) : JsNumber :=
  match parseDigits str with
  | Some z => Integer z
  | None => NaN
  end.

(** Session users of the examples: the owner of booking 1 of the example
    stores, and another user. Neither is an administrator. *)
Definition owner : SessionUser.t := SessionUser.mk 7 false.
Definition stranger : SessionUser.t := SessionUser.mk 8 false.

(** The buses a response lists. *)
Definition shownBuses (r : Response) : list BusWithCities.t :=
  match json r with
  | JBuses l => l
  | _ => []
  end.

(** The five buses of the seeded store, as [getAllBuses] lists them. *)
Definition seededBuses : list BusWithCities.t :=
  Eval vm_compute in
    match getAllBuses initialStorage with
    | Ok l => l
    | Throw _ => []
    end.



(** A confirmed booking request for bus 6, the next bus id of the seeded
    store. *)
Definition earlyRequest : InsertBooking.t :=
  InsertBooking.mk 7 6 "2025-06-01" "confirmed" 3000 "paid".

(** * The request log (server/index.ts)

    The middleware that logs a line for every finished request to a path
    under [/api]. The length of a string and [slice] count UTF-16 code
    units, and the ellipsis the line is cut with is one unit that is not a
    byte, so the line is a list of code units here. *)

(** The code units of a string of ASCII characters. *)
Definition unitsOf (str : string) : list N :=
  map N_of_ascii (list_ascii_of_string str).

(** The one code unit of the ellipsis, U+2026. *)
Definition ellipsis : N := 8230.

(** [str.startsWith(prefix)] *)
Fixpoint startsWith (prefix str : list N) : bool :=
  match prefix, str with
  | [], _ => true
  | _ :: _, [] => false
  | p :: prefix', c :: str' => N.eqb p c && startsWith prefix' str'
  end.

(** The line before it is cut: method, path, status and duration, then the
    body given to [res.json], if there was one and it is truthy, as
    [JSON.stringify] prints it. *)
Definition fullLogLine (method path : list N) (statusCode duration : Z)
  (capturedJsonResponse : option (list N)) : list N :=
  let logLine :=
    method ++ unitsOf " " ++ path ++ unitsOf " "
    ++ unitsOf (num_to_string statusCode) ++ unitsOf " in "
    ++ unitsOf (num_to_string duration) ++ unitsOf "ms" in
  match capturedJsonResponse with
  | Some json => logLine ++ unitsOf " :: " ++ json
  | None => logLine
  end.

(** What the [finish] handler passes to [log], if anything. *)
Definition requestLog (method path : list N) (statusCode duration : Z)
  (capturedJsonResponse : option (list N)) : option (list N) :=
  if startsWith (unitsOf "/api") path then
    let logLine :=
      fullLogLine method path statusCode duration capturedJsonResponse in
    if (80 <? List.length logLine)%nat
    then Some (firstn 79 logLine ++ [ellipsis])
    else Some logLine
  else None.

(** City keys are below the city counter: holds of every reachable store. *)
Definition citiesBelow (s : MemStorage) : Prop :=
  forall k c, In (k, c) (cities s) -> k < cityIdCounter s.

(** * Users (server/storage.ts, the user operations)

    The [users] map and its counter are read and written by the user
    operations only, so they are kept in a store of their own. A field that
    is absent or [null] is [None]. *)

Module InsertUser.
Record t : Type := mk {
  username : string;
  password : string;
  email : string;
  fullName : string;
  phone : option string;
  isAdmin : option bool
}.
End InsertUser.

Module User.
Record t : Type := mk {
  id : Z;
  username : string;
  password : string;
  email : string;
  fullName : string;
  phone : option string;
  isAdmin : option bool
}.

(** [{ ...insertUser, id }] *)
Definition of_insert (i : Z) (u : InsertUser.t) : t :=
  {| id := i;
     username := InsertUser.username u;
     password := InsertUser.password u;
     email := InsertUser.email u;
     fullName := InsertUser.fullName u;
     phone := InsertUser.phone u;
     isAdmin := InsertUser.isAdmin u |}.
End User.

Record UserStore : Type := mkUserStore {
  users : JsMap Z User.t;
  userIdCounter : Z
}.

(** [new Map()], counter at 1; [seedData] creates no user. *)
Definition emptyUsers : UserStore := mkUserStore [] 1.

(** [getUser] *)
Definition getUser (id : Z) (s : UserStore) : option User.t :=
  mget Z.eqb id (users s).

(** [createUser] *)
Definition createUser (insertUser : InsertUser.t) (s : UserStore)
  : UserStore * User.t :=
  let id := userIdCounter s in
  let user := User.of_insert id insertUser in
  (mkUserStore (mset Z.eqb id user (users s)) (id + 1), user).

(** [getAllUsers] *)
Definition getAllUsers (s : UserStore) : list User.t := mvalues (users s).

Section Users.

(** [String.prototype.toLowerCase] *)
Variable toLowerCase : string -> string.

(** [getUserByUsername] *)
Definition getUserByUsername (username : string) (s : UserStore)
  : option User.t :=
  find (fun user =>
          String.eqb (toLowerCase (User.username user)) (toLowerCase username))
       (mvalues (users s)).

(** [getUserByEmail] *)
Definition getUserByEmail (email : string) (s : UserStore) : option User.t :=
  find (fun user =>
          String.eqb (toLowerCase (User.email user)) (toLowerCase email))
       (mvalues (users s)).

End Users.

(** The user store after the given registrations, in order. *)
Definition registered (l : list InsertUser.t) : UserStore :=
  fold_left (fun s u => fst (createUser u s)) l emptyUsers.



(** A booking request for bus 1 that is not confirmed yet. *)
Definition pendingRequest : InsertBooking.t :=
  InsertBooking.mk 7 1 "2025-06-01" "pending" 4500 "pending".

(** * Calls of [getSeatAvailability] that are started together

    [getSeatAvailability] awaits twice: [getBusSeatLayout] before it looks
    for the trip, and [getBus] between finding no trip and storing the new
    one. A call runs up to its first [await] when it is started. When
    several calls are started before any of them is awaited (under
    [Promise.all], say), the microtask queue resumes them in turn, each up
    to its next [await], so the stretches of the calls interleave. *)

(** A call in progress: what it holds at the [await] it is suspended at, or
    what it settled with. The awaited operations run when they are called,
    so their results are already in hand. *)
Inductive SeatQuery : Type :=
| AwaitsLayout (busId : Z) (date : string) (seatLayout : list SeatLayout.t)
| AwaitsBus (busId : Z) (date : string) (seatLayout : list SeatLayout.t)
    (bus : result (option BusWithCities.t))
| Settled (r : result (list SeatAvailability.t)).

(** The call up to [await this.getBusSeatLayout(busId)]. *)
Definition startSeatQuery (busId : Z) (date : string) (s : MemStorage)
  : SeatQuery :=
  AwaitsLayout busId date (getBusSeatLayout busId s).

(** One resumption: from an [await] to the next one, or to the end. *)
Definition resume (q : SeatQuery) (s : MemStorage) : MemStorage * SeatQuery :=
  match q with
  | AwaitsLayout busId date seatLayout =>
      match findTrip busId date s with
      | Some trip =>
          (s, Settled (Ok (seatReport seatLayout trip busId date s)))
      | None => (s, AwaitsBus busId date seatLayout (getBus busId s))
      end
  | AwaitsBus busId date seatLayout bus =>
      match bus with
      | Throw e => (s, Settled (Throw e))
      | Ok None =>
          (s, Settled (Throw (JsError ("Bus not found with id "
                                         ++ num_to_string busId)%string)))
      | Ok (Some bus) =>
          let tripId := tripIdCounter s in
          let trip :=
            Trip.mk tripId busId date
              (Bus.totalSeats (BusWithCities.bus bus)) in
          let s1 := with_trips (mset Z.eqb tripId trip (trips s))
                      (with_tripIdCounter (tripId + 1) s) in
          let s2 :=
            with_tripSeatAvailability
              (markSeats (Trip.id trip) true
                 (map SeatLayout.seatNumber seatLayout)
                 (tripSeatAvailability s1)) s1 in
          (s2, Settled (Ok (seatReport seatLayout trip busId date s2)))
      end
  | Settled r => (s, Settled r)
  end.

(** One turn of the queue: every call is resumed once, in the order the
    calls were started. *)
Fixpoint resumeAll (qs : list SeatQuery) (s : MemStorage)
  : MemStorage * list SeatQuery :=
  match qs with
  | [] => (s, [])
  | q :: rest =>
      let '(s1, q') := resume q s in
      let '(s2, rest') := resumeAll rest s1 in
      (s2, q' :: rest')
  end.

(** The calls for the given buses and dates, started together and run until
    all have settled: two turns, one for each [await]. *)
Definition startedTogether (calls : list (Z * string)) (s : MemStorage)
  : MemStorage * list SeatQuery :=
  let qs := map (fun call => startSeatQuery (fst call) (snd call) s) calls in
  let '(s1, qs1) := resumeAll qs s in
  resumeAll qs1 s1.

(** Whether a call returned a report. *)
Definition returnedReport (q : SeatQuery) : bool :=
  match q with
  | Settled (Ok _) => true
  | _ => false
  end.

(** The trips that [n] suspended calls for one bus and date store, one each,
    when the next free trip id is [c]. *)
Fixpoint newTrips (c : Z) (n : nat) (busId : Z) (date : string)
  (totalSeats : Z) : JsMap Z Trip.t :=
  match n with
  | O => []
  | S n' =>
      (c, Trip.mk c busId date totalSeats)
      :: newTrips (c + 1) n' busId date totalSeats
  end.

(** * Properties *)

(** ** The seeded store, evaluated *)

Example seeded_counts :
  List.length (cities initialStorage) = 5%nat
  /\ List.length (buses initialStorage) = 5%nat
  /\ List.length (seatLayouts initialStorage) = 100%nat
  /\ trips initialStorage = []
  /\ bookings initialStorage = [].
Proof. vm_compute. repeat split. Qed.

(** The default layout: three seats in each of rows 1 to 5 (column 2 is the
    aisle), five in row 6. *)
Example seeded_layout_bus1 :
  map SeatLayout.seatNumber (getBusSeatLayout 1 initialStorage)
  = ["1A"; "1B"; "1C"; "2A"; "2B"; "2C"; "3A"; "3B"; "3C"; "4A"; "4B"; "4C";
     "5A"; "5B"; "5C"; "6A"; "6B"; "6C"; "6D"; "6E"].
Proof. vm_compute. reflexivity. Qed.

Example seeded_hidden_seats_bus1 :
  map SeatLayout.seatNumber
    (filter (fun l => negb (SeatLayout.isVisible l))
       (getBusSeatLayout 1 initialStorage))
  = ["1C"; "3A"; "4A"; "4B"].
Proof. vm_compute. reflexivity. Qed.

Example first_query_bus1 :
  trips tripOpened = [(1, Trip.mk 1 1 "2025-06-01" 30)]
  /\ List.length (tripSeatAvailability tripOpened) = 20%nat
  /\ mget String.eqb "1-2B" (tripSeatAvailability tripOpened)
     = Some (TripSeatAvailability.mk 1 "2B" true).
Proof. vm_compute. repeat split. Qed.

(** ** Facts about the insertion-ordered map *)

Section JsMapFacts.
Variable K : Type.
Variable keq : K -> K -> bool.
Hypothesis keq_spec : forall a b, reflect (a = b) (keq a b).
Variable V : Type.
Implicit Types (m : JsMap K V) (k : K) (v : V).

Lemma keq_refl k : keq k k = true.
Proof. destruct (keq_spec k k); congruence. Qed.

Lemma keq_neq a b : a <> b -> keq a b = false.
Proof. intros H. destruct (keq_spec a b); congruence. Qed.

Lemma mget_mset_same k v m : mget keq k (mset keq k v m) = Some v.
Proof.
  induction m as [|[k' v'] m IH]; simpl.
  - now rewrite keq_refl.
  - destruct (keq k k') eqn:E; simpl; now rewrite E.
Qed.

Lemma mget_mset_other k k' v m :
  k <> k' -> mget keq k' (mset keq k v m) = mget keq k' m.
Proof.
  intros Hne. induction m as [|[k0 v0] m IH]; simpl.
  - rewrite keq_neq; auto.
  - destruct (keq k k0) eqn:E; simpl.
    + destruct (keq_spec k k0) as [->|]; [|discriminate].
      rewrite keq_neq; auto.
    + now rewrite IH.
Qed.

Lemma mget_None_notin k m : mget keq k m = None <-> ~ In k (mkeys m).
Proof.
  induction m as [|[k' v'] m IH]; simpl.
  - tauto.
  - destruct (keq_spec k k') as [->|Hne].
    + split; [discriminate | intros H; exfalso; apply H; now left].
    + rewrite IH. split; intros H; [intros [E|I]; [congruence | tauto] | tauto].
Qed.

Lemma mget_Some_in k v m : mget keq k m = Some v -> In (k, v) m.
Proof.
  induction m as [|[k' v'] m IH]; simpl; [discriminate|].
  destruct (keq_spec k k') as [->|Hne].
  - intros [= ->]. now left.
  - intros H. right. auto.
Qed.

Lemma in_mget_nodup k v m :
  NoDup (mkeys m) -> In (k, v) m -> mget keq k m = Some v.
Proof.
  induction m as [|[k' v'] m IH]; simpl; [tauto|].
  intros Hnd. inversion Hnd as [|? ? Hni Hnd']; subst.
  intros [[= -> ->]|Hin].
  - now rewrite keq_refl.
  - destruct (keq_spec k k') as [->|Hne]; [|auto].
    exfalso. apply Hni. unfold mkeys. change k' with (fst (k', v)).
    now apply in_map.
Qed.

(** A fresh key is appended at the end. *)
Lemma mset_fresh k v m : mget keq k m = None -> mset keq k v m = m ++ [(k, v)].
Proof.
  induction m as [|[k' v'] m IH]; simpl; [reflexivity|].
  destruct (keq k k'); [discriminate|]. intros H. now rewrite IH.
Qed.

(** A key that is present keeps its position. *)
Lemma mset_present l1 k v0 v l2 :
  ~ In k (mkeys l1) ->
  mset keq k v (l1 ++ (k, v0) :: l2) = l1 ++ (k, v) :: l2.
Proof.
  induction l1 as [|[k' v'] l1 IH]; simpl; intros Hni.
  - now rewrite keq_refl.
  - rewrite keq_neq by (intros ->; apply Hni; now left).
    rewrite IH; auto.
Qed.

Lemma mkeys_mset_in k v m : In k (mkeys m) -> mkeys (mset keq k v m) = mkeys m.
Proof.
  induction m as [|[k' v'] m IH]; simpl; [tauto|].
  destruct (keq_spec k k') as [->|Hne]; simpl; [reflexivity|].
  intros [E|Hin]; [congruence|]. now rewrite IH.
Qed.

Lemma mkeys_mset k v m :
  mkeys (mset keq k v m) = mkeys m \/ mkeys (mset keq k v m) = mkeys m ++ [k].
Proof.
  destruct (mget keq k m) eqn:E.
  - left. apply mkeys_mset_in.
    destruct (mget_None_notin k m) as [_ H].
    destruct (in_dec (fun a b => match keq_spec a b with
                                 | ReflectT _ e => left e
                                 | ReflectF _ n => right n end) k (mkeys m));
      [assumption | rewrite H in E by assumption; discriminate].
  - right. rewrite mset_fresh by assumption. unfold mkeys.
    now rewrite map_app.
Qed.

Lemma in_mset kv k v m : In kv (mset keq k v m) -> kv = (k, v) \/ In kv m.
Proof.
  induction m as [|[k' v'] m IH]; simpl.
  - intros [<-|[]]; now left.
  - destruct (keq_spec k k') as [->|Hne]; simpl.
    + intros [<-|H]; [now left | right; now right].
    + intros [<-|H]; [right; now left|].
      destruct (IH H); [now left | right; now right].
Qed.

Lemma in_mdelete kv k m : In kv (mdelete keq k m) -> In kv m.
Proof.
  induction m as [|[k' v'] m IH]; simpl; [tauto|].
  destruct (keq k k'); simpl; [now right|].
  intros [<-|H]; [now left | right; auto].
Qed.

Lemma NoDup_mkeys_mset k v m :
  NoDup (mkeys m) -> NoDup (mkeys (mset keq k v m)).
Proof.
  intros Hnd. destruct (mget keq k m) eqn:E.
  - rewrite mkeys_mset_in; [assumption|].
    apply mget_Some_in in E. unfold mkeys. change k with (fst (k, v0)).
    now apply in_map.
  - rewrite mset_fresh by assumption. unfold mkeys. rewrite map_app. simpl.
    apply mget_None_notin in E.
    apply NoDup_app; [assumption | constructor; [intros [] | constructor] |].
    intros x Hx [<-|[]]. now apply E.
Qed.

(** Overwriting the value of a key that is present touches that entry
    only. *)
Lemma mset_replace k v0 v m :
  NoDup (mkeys m) -> In (k, v0) m ->
  exists l1 l2, m = l1 ++ (k, v0) :: l2 /\
                mset keq k v m = l1 ++ (k, v) :: l2.
Proof.
  intros Hnd Hin. destruct (in_split _ _ Hin) as (l1 & l2 & ->).
  exists l1, l2. split; [reflexivity|]. apply mset_present.
  unfold mkeys in Hnd. rewrite map_app in Hnd. simpl in Hnd.
  apply NoDup_remove_2 in Hnd. intros H. apply Hnd. apply in_or_app. now left.
Qed.

Lemma in_mset_inv kv k v m :
  In kv m -> fst kv <> k -> In kv (mset keq k v m).
Proof.
  induction m as [|[k' v'] m IH]; simpl; [tauto|].
  intros [<-|Hin] Hne; simpl in *.
  - rewrite keq_neq by congruence. now left.
  - destruct (keq k k'); [now right | right; auto].
Qed.

Lemma in_mset_new k v m : In (k, v) (mset keq k v m).
Proof.
  induction m as [|[k' v'] m IH]; simpl; [now left|].
  destruct (keq_spec k k') as [->|Hne]; [now left | now right].
Qed.

End JsMapFacts.

Arguments keq_refl {K keq} keq_spec k.
Arguments mget_mset_same {K keq} keq_spec {V} k v m.
Arguments mget_mset_other {K keq} keq_spec {V} k k' v m.
Arguments mget_None_notin {K keq} keq_spec {V} k m.
Arguments mget_Some_in {K keq} keq_spec {V} k v m.
Arguments in_mget_nodup {K keq} keq_spec {V} k v m.
Arguments mset_fresh {K keq V} k v m.
Arguments mset_present {K keq} keq_spec {V} l1 k v0 v l2.
Arguments mkeys_mset_in {K keq} keq_spec {V} k v m.
Arguments in_mset {K keq} keq_spec {V} kv k v m.
Arguments in_mdelete {K keq V} kv k m.
Arguments NoDup_mkeys_mset {K keq} keq_spec {V} k v m.
Arguments mset_replace {K keq} keq_spec {V} k v0 v m.
Arguments in_mset_inv {K keq} keq_spec {V} kv k v m.
Arguments in_mset_new {K keq} keq_spec {V} k v m.

(** ** The boolean invariant and its meaning *)

Lemma tripKeyEqb_spec a b : reflect (a = b) (tripKeyEqb a b).
Proof.
  destruct a as [a1 a2], b as [b1 b2]. unfold tripKeyEqb; simpl.
  destruct (Z.eqb_spec a1 b1) as [->|]; simpl.
  - destruct (String.eqb_spec a2 b2) as [->|]; constructor; congruence.
  - constructor; congruence.
Qed.

Lemma distinctb_NoDup {A : Type} (eqb : A -> A -> bool)
  (eqb_spec : forall a b, reflect (a = b) (eqb a b)) (l : list A) :
  distinctb eqb l = true <-> NoDup l.
Proof.
  induction l as [|x l IH]; simpl.
  - split; [constructor | reflexivity].
  - rewrite andb_true_iff, negb_true_iff, IH. split.
    + intros [Hx Hl]. constructor; [|assumption]. intros Hin.
      assert (existsb (eqb x) l = true); [|congruence].
      apply existsb_exists. exists x. split; [assumption|].
      destruct (eqb_spec x x); congruence.
    + intros H. inversion H as [|? ? Hni Hnd]; subst. split; [|assumption].
      destruct (existsb (eqb x) l) eqn:E; [|reflexivity].
      apply existsb_exists in E. destruct E as (y & Hy & Exy).
      destruct (eqb_spec x y); [subst; contradiction | discriminate].
Qed.

Lemma keysAreIds_spec {V : Type} (idOf : V -> Z) (m : JsMap Z V) :
  keysAreIds idOf m = true <-> (forall k v, In (k, v) m -> k = idOf v).
Proof.
  unfold keysAreIds. rewrite forallb_forall. split.
  - intros H k v Hin. apply H in Hin. simpl in Hin. lia.
  - intros H [k v] Hin. simpl. apply Z.eqb_eq. auto.
Qed.

Lemma keysBelow_spec {V : Type} (c : Z) (m : JsMap Z V) :
  keysBelow c m = true <-> (forall k v, In (k, v) m -> k < c).
Proof.
  unfold keysBelow. rewrite forallb_forall. split.
  - intros H k v Hin. apply H in Hin. simpl in Hin. lia.
  - intros H [k v] Hin. simpl. apply Z.ltb_lt. eauto.
Qed.

Lemma wf_WF s : wf s <-> WF s.
Proof.
  unfold wf, wfb. rewrite !andb_true_iff.
  rewrite !keysAreIds_spec, !keysBelow_spec.
  rewrite (distinctb_NoDup Z.eqb Z.eqb_spec).
  rewrite (distinctb_NoDup tripKeyEqb tripKeyEqb_spec).
  rewrite forallb_forall. split.
  - intros (((((((H1 & H2) & H3) & H4) & H5) & H6) & H7) & H8).
    constructor; auto. intros d Hd. apply H8 in Hd. lia.
  - intros [H1 H2 H3 H4 H5 H6 H7 H8]. repeat split; auto.
    intros d Hd. apply Z.ltb_lt. auto.
Qed.

(** ** Trips: lookup and in-place update *)

Lemma tripMatches_key busId date t :
  tripMatches busId date t = true <-> tripKey t = (busId, date).
Proof.
  unfold tripMatches, tripKey. rewrite andb_true_iff, Z.eqb_eq, String.eqb_eq.
  split; [intros [-> ->]; reflexivity | intros [= -> ->]; auto].
Qed.

Lemma tripMatches_same_key busId date t t' :
  tripKey t' = tripKey t ->
  tripMatches busId date t' = tripMatches busId date t.
Proof. unfold tripKey, tripMatches. now intros [= -> ->]. Qed.

Lemma findTrip_Some busId date s t :
  findTrip busId date s = Some t ->
  (exists k, In (k, t) (trips s)) /\ tripKey t = (busId, date).
Proof.
  unfold findTrip. intros H. apply find_some in H. destruct H as [Hin Hm].
  split; [|now apply tripMatches_key].
  unfold mvalues in Hin. apply in_map_iff in Hin.
  destruct Hin as ([k t0] & E & Hin). simpl in E. subst. eauto.
Qed.

Lemma findTrip_None busId date s :
  findTrip busId date s = None ->
  forall k t, In (k, t) (trips s) -> tripKey t <> (busId, date).
Proof.
  unfold findTrip. intros H k t Hin Hk.
  assert (Ht : In t (mvalues (trips s))).
  { unfold mvalues. change t with (snd (k, t)). now apply in_map. }
  pose proof (find_none _ _ H _ Ht) as Hf.
  apply tripMatches_key in Hk. congruence.
Qed.

Lemma find_app_split {A : Type} (p : A -> bool) (l1 l2 : list A) :
  find p (l1 ++ l2) =
  match find p l1 with Some x => Some x | None => find p l2 end.
Proof.
  induction l1 as [|x l1 IH]; simpl; [reflexivity|].
  destruct (p x); [reflexivity | exact IH].
Qed.

Lemma find_unique_key busId date (l1 l2 : JsMap Z Trip.t) k t :
  NoDup (map tripKey (mvalues (l1 ++ (k, t) :: l2))) ->
  tripMatches busId date t = true ->
  find (tripMatches busId date) (mvalues l1) = None.
Proof.
  intros Hnd Hm. destruct (find _ (mvalues l1)) as [y|] eqn:E; [|reflexivity].
  exfalso. apply find_some in E. destruct E as [Hin Hy].
  apply tripMatches_key in Hm, Hy.
  unfold mvalues in Hnd. rewrite map_app, map_app in Hnd. simpl in Hnd.
  apply NoDup_remove_2 in Hnd. apply Hnd. apply in_or_app. left.
  rewrite Hm, <- Hy. now apply in_map.
Qed.

(** Looking a trip up after one trip was overwritten by a trip with the
    same bus and date. *)
Lemma find_after_replace busId date (l1 l2 : JsMap Z Trip.t) k t t' :
  NoDup (map tripKey (mvalues (l1 ++ (k, t) :: l2))) ->
  tripKey t' = tripKey t ->
  find (tripMatches busId date) (mvalues (l1 ++ (k, t') :: l2)) =
  if tripMatches busId date t then Some t'
  else find (tripMatches busId date) (mvalues (l1 ++ (k, t) :: l2)).
Proof.
  intros Hnd Hk. unfold mvalues. rewrite !map_app. simpl.
  rewrite !find_app_split. simpl.
  rewrite (tripMatches_same_key _ _ _ _ Hk).
  destruct (tripMatches busId date t) eqn:Hm; [|reflexivity].
  pose proof (find_unique_key busId date l1 l2 k t Hnd Hm) as Hn.
  unfold mvalues in Hn. now rewrite Hn.
Qed.

Section TripUpdate.
Variables (s : MemStorage) (t t' : Trip.t).
Hypothesis Hwf : WF s.
Hypothesis Hin : In (Trip.id t, t) (trips s).
Hypothesis Hid : Trip.id t' = Trip.id t.
Hypothesis Hkey : tripKey t' = tripKey t.

Lemma trips_update_shape :
  exists l1 l2,
    trips s = l1 ++ (Trip.id t, t) :: l2
    /\ mset Z.eqb (Trip.id t') t' (trips s) = l1 ++ (Trip.id t, t') :: l2.
Proof.
  rewrite Hid.
  apply (mset_replace Z.eqb_spec); [apply Hwf | exact Hin].
Qed.

Lemma trips_update_find busId date :
  find (tripMatches busId date)
    (mvalues (mset Z.eqb (Trip.id t') t' (trips s)))
  = if tripMatches busId date t then Some t' else findTrip busId date s.
Proof.
  destruct trips_update_shape as (l1 & l2 & E1 & E2).
  unfold findTrip. rewrite E2, E1.
  apply find_after_replace; [|exact Hkey].
  rewrite <- E1. apply Hwf.
Qed.

Lemma trips_update_in k x :
  In (k, x) (mset Z.eqb (Trip.id t') t' (trips s)) ->
  (k, x) = (Trip.id t, t') \/ In (k, x) (trips s).
Proof.
  intros H. apply (in_mset Z.eqb_spec) in H. rewrite Hid in H. exact H.
Qed.

Lemma trips_update_keys :
  mkeys (mset Z.eqb (Trip.id t') t' (trips s)) = mkeys (trips s).
Proof.
  destruct trips_update_shape as (l1 & l2 & E1 & E2).
  rewrite E2, E1. unfold mkeys. now rewrite !map_app.
Qed.

Lemma trips_update_tripKeys :
  map tripKey (mvalues (mset Z.eqb (Trip.id t') t' (trips s)))
  = map tripKey (mvalues (trips s)).
Proof.
  destruct trips_update_shape as (l1 & l2 & E1 & E2).
  rewrite E2, E1. unfold mvalues. rewrite !map_app. simpl. now rewrite Hkey.
Qed.

End TripUpdate.

(** ** What the booking operations write *)

Lemma fresh_key {V : Type} (c : Z) (m : JsMap Z V) :
  (forall k v, In (k, v) m -> k < c) -> mget Z.eqb c m = None.
Proof.
  intros H. apply (mget_None_notin Z.eqb_spec). intros Hin.
  unfold mkeys in Hin. apply in_map_iff in Hin.
  destruct Hin as ([k v] & E & Hin). simpl in E. subst k.
  apply H in Hin. lia.
Qed.

Lemma newDetails_in c bookingId seats k d :
  In (k, d) (newDetails c bookingId seats) ->
  c <= k < c + Z.of_nat (List.length seats)
  /\ BookingDetail.id d = k /\ BookingDetail.bookingId d = bookingId.
Proof.
  revert c. induction seats as [|x seats IH]; simpl; intros c; [tauto|].
  intros [[= <- <-]|Hin]; simpl.
  - repeat split; lia.
  - apply IH in Hin. intuition lia.
Qed.

Lemma newDetails_seats c bookingId seats :
  map BookingDetail.seatNumber (mvalues (newDetails c bookingId seats)) = seats.
Proof.
  revert c. induction seats as [|x seats IH]; simpl; intros c; [reflexivity|].
  f_equal. apply IH.
Qed.

Lemma newDetails_filter c bookingId seats :
  filter (fun d => BookingDetail.bookingId d =? bookingId)
         (mvalues (newDetails c bookingId seats))
  = mvalues (newDetails c bookingId seats).
Proof.
  revert c. induction seats as [|x seats IH]; simpl; intros c; [reflexivity|].
  rewrite Z.eqb_refl. f_equal. apply IH.
Qed.

Lemma newDetails_length c bookingId seats :
  List.length (newDetails c bookingId seats) = List.length seats.
Proof.
  revert c. induction seats as [|x seats IH]; simpl; intros c; auto.
Qed.

(** The detail loop of [createBooking] appends one detail per seat, in
    order, under fresh ids. *)
Lemma addDetails_eq bookingId seats s :
  (forall k d, In (k, d) (bookingDetails s) -> k < bookingDetailIdCounter s) ->
  addDetails bookingId seats s =
  mkMemStorage (cities s) (buses s) (seatLayouts s) (bookings s)
    (bookingDetails s
       ++ newDetails (bookingDetailIdCounter s) bookingId seats)
    (trips s) (tripSeatAvailability s)
    (cityIdCounter s) (busIdCounter s) (seatLayoutIdCounter s)
    (bookingIdCounter s)
    (bookingDetailIdCounter s + Z.of_nat (List.length seats))
    (tripIdCounter s).
Proof.
  revert s. induction seats as [|x seats IH]; intros s Hb.
  - destruct s; simpl. rewrite app_nil_r, Z.add_0_r. reflexivity.
  - unfold addDetails in *. simpl fold_left. rewrite IH.
    + unfold with_bookingDetail. cbn [cities buses seatLayouts bookings
        bookingDetails trips tripSeatAvailability cityIdCounter busIdCounter
        seatLayoutIdCounter bookingIdCounter bookingDetailIdCounter
        tripIdCounter BookingDetail.id].
      rewrite (mset_fresh _ _ _ (fresh_key _ _ Hb)).
      rewrite <- app_assoc. simpl. f_equal. simpl List.length. lia.
    + unfold with_bookingDetail. cbn [bookingDetails bookingDetailIdCounter
        BookingDetail.id].
      intros k d Hin. apply (in_mset Z.eqb_spec) in Hin.
      destruct Hin as [[= -> ->]|Hin]; [lia|]. apply Hb in Hin. lia.
Qed.

(** The store [createBooking] leaves behind. *)
Lemma createBooking_eq ib seats now s :
  WF s ->
  let id := bookingIdCounter s in
  let booking := Booking.of_insert id now ib in
  let found :=
    findTrip (InsertBooking.busId ib) (InsertBooking.travelDate ib) s in
  let s3 :=
    mkMemStorage (cities s) (buses s) (seatLayouts s)
      (bookings s ++ [(id, booking)])
      (bookingDetails s ++ newDetails (bookingDetailIdCounter s) id seats)
      (match found with
       | Some trip =>
           mset Z.eqb (Trip.id trip)
             (Trip.set_availableSeats
                (Trip.availableSeats trip - Z.of_nat (List.length seats)) trip)
             (trips s)
       | None => trips s
       end)
      (match found with
       | Some trip =>
           markSeats (Trip.id trip) false seats (tripSeatAvailability s)
       | None => tripSeatAvailability s
       end)
      (cityIdCounter s) (busIdCounter s) (seatLayoutIdCounter s)
      (id + 1)
      (bookingDetailIdCounter s + Z.of_nat (List.length seats))
      (tripIdCounter s) in
  createBooking ib seats now s = (s3, getBookingWithDetails booking s3).
Proof.
  intros Hwf id booking found s3. unfold createBooking.
  fold id. fold booking.
  rewrite addDetails_eq by (apply Hwf).
  unfold with_bookings, with_bookingIdCounter.
  cbn [cities buses seatLayouts bookings bookingDetails trips
       tripSeatAvailability cityIdCounter busIdCounter seatLayoutIdCounter
       bookingIdCounter bookingDetailIdCounter tripIdCounter].
  rewrite (mset_fresh _ _ _ (fresh_key _ _ (wf_booking_below s Hwf))).
  unfold findTrip at 1 2.
  cbn [trips Booking.busId Booking.travelDate booking Booking.of_insert].
  change (find (tripMatches (InsertBooking.busId ib)
                  (InsertBooking.travelDate ib)) (mvalues (trips s)))
    with found.
  subst s3. destruct found as [trip|]; reflexivity.
Qed.

(** The store [cancelBooking] leaves behind. *)
Lemma cancelBooking_eq id s b0 :
  mget Z.eqb id (bookings s) = Some b0 ->
  let booking := Booking.set_status "cancelled" b0 in
  let details := detailsOf (Booking.id b0) s in
  let found := findTrip (Booking.busId b0) (Booking.travelDate b0) s in
  let s2 :=
    mkMemStorage (cities s) (buses s) (seatLayouts s)
      (mset Z.eqb id booking (bookings s))
      (bookingDetails s)
      (match found with
       | Some trip =>
           mset Z.eqb (Trip.id trip)
             (Trip.set_availableSeats
                (Trip.availableSeats trip + Z.of_nat (List.length details))
                trip)
             (trips s)
       | None => trips s
       end)
      (match found with
       | Some trip =>
           markSeats (Trip.id trip) true
             (map BookingDetail.seatNumber details) (tripSeatAvailability s)
       | None => tripSeatAvailability s
       end)
      (cityIdCounter s) (busIdCounter s) (seatLayoutIdCounter s)
      (bookingIdCounter s) (bookingDetailIdCounter s) (tripIdCounter s) in
  cancelBooking id s = (s2, getBookingWithDetails booking s2).
Proof.
  intros Hget booking details found s2. unfold cancelBooking. rewrite Hget.
  fold booking.
  change (findTrip (Booking.busId booking) (Booking.travelDate booking)
            (with_bookings (mset Z.eqb id booking (bookings s)) s))
    with found.
  change (detailsOf (Booking.id booking)
            (with_bookings (mset Z.eqb id booking (bookings s)) s))
    with details.
  subst s2. destruct found as [trip|]; reflexivity.
Qed.

Lemma cancelBooking_missing id s :
  mget Z.eqb id (bookings s) = None ->
  cancelBooking id s =
  (s, Throw (JsError ("Booking not found with id "
                        ++ num_to_string id)%string)).
Proof. intros H. unfold cancelBooking. now rewrite H. Qed.

(** [getSeatAvailability] on a trip that exists reads only. *)
Lemma getSeatAvailability_existing busId date s trip :
  findTrip busId date s = Some trip ->
  getSeatAvailability busId date s =
  (s, Ok (seatReport (getBusSeatLayout busId s) trip busId date s)).
Proof.
  intros H. unfold getSeatAvailability, getOrCreateTrip. now rewrite H.
Qed.

(** [getSeatAvailability] on a missing trip of a known bus creates it. *)
Lemma getSeatAvailability_create busId date s bus :
  WF s ->
  findTrip busId date s = None ->
  getBus busId s = Ok (Some bus) ->
  let trip := Trip.mk (tripIdCounter s) busId date
                (Bus.totalSeats (BusWithCities.bus bus)) in
  let s2 :=
    mkMemStorage (cities s) (buses s) (seatLayouts s)
      (bookings s) (bookingDetails s)
      (trips s ++ [(tripIdCounter s, trip)])
      (markSeats (tripIdCounter s) true
         (map SeatLayout.seatNumber (getBusSeatLayout busId s))
         (tripSeatAvailability s))
      (cityIdCounter s) (busIdCounter s) (seatLayoutIdCounter s)
      (bookingIdCounter s) (bookingDetailIdCounter s) (tripIdCounter s + 1) in
  getSeatAvailability busId date s =
  (s2, Ok (seatReport (getBusSeatLayout busId s) trip busId date s2)).
Proof.
  intros Hwf Hnone Hbus trip s2.
  unfold getSeatAvailability, getOrCreateTrip. rewrite Hnone, Hbus.
  fold trip. unfold with_trips, with_tripIdCounter, with_tripSeatAvailability.
  cbn [cities buses seatLayouts bookings bookingDetails trips
       tripSeatAvailability cityIdCounter busIdCounter seatLayoutIdCounter
       bookingIdCounter bookingDetailIdCounter tripIdCounter].
  rewrite (mset_fresh _ _ _ (fresh_key _ _ (wf_trip_below s Hwf))).
  reflexivity.
Qed.

(** [getSeatAvailability] that fails leaves the store as it was. *)
Lemma getSeatAvailability_throw busId date s s' e :
  getSeatAvailability busId date s = (s', Throw e) -> s' = s.
Proof.
  unfold getSeatAvailability, getOrCreateTrip.
  destruct (findTrip busId date s); [discriminate|].
  destruct (getBus busId s) as [[bus|]|e']; [discriminate| |];
    now intros [= <- _].
Qed.

(** ** The invariant holds in every reachable store *)

Lemma findTrip_In busId date s t :
  WF s -> findTrip busId date s = Some t -> In (Trip.id t, t) (trips s).
Proof.
  intros Hwf H. apply findTrip_Some in H. destruct H as [[k Hin] _].
  now rewrite <- (wf_trip_ids s Hwf k t Hin).
Qed.

Lemma WF_trips_update s trip n :
  WF s -> In (Trip.id trip, trip) (trips s) ->
  (forall k t, In (k, t) (mset Z.eqb (Trip.id trip)
                            (Trip.set_availableSeats n trip) (trips s)) ->
               k = Trip.id t /\ k < tripIdCounter s)
  /\ NoDup (mkeys (mset Z.eqb (Trip.id trip)
                     (Trip.set_availableSeats n trip) (trips s)))
  /\ NoDup (map tripKey (mvalues (mset Z.eqb (Trip.id trip)
                     (Trip.set_availableSeats n trip) (trips s)))).
Proof.
  intros Hwf Hin.
  assert (Hid : Trip.id (Trip.set_availableSeats n trip) = Trip.id trip)
    by reflexivity.
  assert (Hkey : tripKey (Trip.set_availableSeats n trip) = tripKey trip)
    by reflexivity.
  pose proof (trips_update_in s trip _ Hid) as Hi.
  pose proof (trips_update_keys s trip _ Hwf Hin Hid) as Hk.
  pose proof (trips_update_tripKeys s trip _ Hwf Hin Hid Hkey) as Hu.
  change (Trip.id (Trip.set_availableSeats n trip)) with (Trip.id trip)
    in Hi, Hk, Hu.
  repeat split.
  - destruct (Hi _ _ H) as [[= -> ->]|H']; [reflexivity|].
    eapply wf_trip_ids; eauto.
  - destruct (Hi _ _ H) as [[= -> ->]|H']; eapply wf_trip_below; eauto.
  - rewrite Hk. apply Hwf.
  - rewrite Hu. apply Hwf.
Qed.

(** The trips after the counter of the trip of a bus and date, if any, was
    moved by [n]. *)
Lemma WF_trips_counter s busId date n :
  WF s ->
  forall m',
    m' = match findTrip busId date s with
         | Some trip =>
             mset Z.eqb (Trip.id trip)
               (Trip.set_availableSeats (Trip.availableSeats trip + n) trip)
               (trips s)
         | None => trips s
         end ->
    (forall k t, In (k, t) m' -> k = Trip.id t /\ k < tripIdCounter s)
    /\ NoDup (mkeys m')
    /\ NoDup (map tripKey (mvalues m')).
Proof.
  intros Hwf m' ->. destruct (findTrip busId date s) as [trip|] eqn:E.
  - apply WF_trips_update; [assumption | eapply findTrip_In; eauto].
  - split; [|split; apply Hwf].
    intros k t H. split; [eapply wf_trip_ids | eapply wf_trip_below]; eauto.
Qed.

Lemma WF_createBooking ib seats now s :
  WF s -> WF (fst (createBooking ib seats now s)).
Proof.
  intros Hwf. rewrite (createBooking_eq ib seats now s Hwf). cbn [fst].
  destruct (WF_trips_counter s (InsertBooking.busId ib)
              (InsertBooking.travelDate ib)
              (- Z.of_nat (List.length seats)) Hwf _ eq_refl)
    as (Ht1 & Ht2 & Ht3).
  constructor; cbn [trips tripIdCounter bookings bookingIdCounter
                    bookingDetails bookingDetailIdCounter].
  - intros k t H. exact (proj1 (Ht1 k t H)).
  - intros k t H. exact (proj2 (Ht1 k t H)).
  - exact Ht2.
  - exact Ht3.
  - intros k b H. apply in_app_or in H. destruct H as [H|[[= <- <-]|[]]].
    + eapply wf_booking_ids; eauto.
    + reflexivity.
  - intros k b H. apply in_app_or in H. destruct H as [H|[[= <- <-]|[]]].
    + apply (wf_booking_below s Hwf) in H. lia.
    + lia.
  - intros k d H. apply in_app_or in H. destruct H as [H|H].
    + apply (wf_detail_below s Hwf) in H. lia.
    + apply newDetails_in in H. lia.
  - intros d H. unfold mvalues in H. rewrite map_app in H.
    apply in_app_or in H. destruct H as [H|H].
    + apply (wf_detail_booking s Hwf) in H. lia.
    + apply in_map_iff in H. destruct H as ([k d'] & E & H). simpl in E.
      subst d'. apply newDetails_in in H. lia.
Qed.

Lemma WF_cancelBooking id s : WF s -> WF (fst (cancelBooking id s)).
Proof.
  intros Hwf. destruct (mget Z.eqb id (bookings s)) as [b0|] eqn:Hget.
  2:{ now rewrite cancelBooking_missing. }
  rewrite (cancelBooking_eq id s b0 Hget). cbn [fst].
  pose proof (mget_Some_in Z.eqb_spec _ _ _ Hget) as Hin0.
  destruct (WF_trips_counter s (Booking.busId b0) (Booking.travelDate b0)
              (Z.of_nat (List.length (detailsOf (Booking.id b0) s)))
              Hwf _ eq_refl)
    as (Ht1 & Ht2 & Ht3).
  constructor; cbn [trips tripIdCounter bookings bookingIdCounter
                    bookingDetails bookingDetailIdCounter].
  - intros k t H. exact (proj1 (Ht1 k t H)).
  - intros k t H. exact (proj2 (Ht1 k t H)).
  - exact Ht2.
  - exact Ht3.
  - intros k b H. apply (in_mset Z.eqb_spec) in H.
    destruct H as [[= -> ->]|H]; [|eapply wf_booking_ids; eauto].
    simpl. eapply wf_booking_ids; eauto.
  - intros k b H. apply (in_mset Z.eqb_spec) in H.
    destruct H as [[= -> ->]|H]; eapply wf_booking_below; eauto.
  - apply Hwf.
  - apply Hwf.
Qed.

Lemma WF_getSeatAvailability busId date s :
  WF s -> WF (fst (getSeatAvailability busId date s)).
Proof.
  intros Hwf. destruct (findTrip busId date s) as [trip|] eqn:Hfind.
  { now rewrite (getSeatAvailability_existing _ _ _ _ Hfind). }
  destruct (getBus busId s) as [[bus|]|e] eqn:Hbus.
  2,3: unfold getSeatAvailability, getOrCreateTrip;
       rewrite Hfind, Hbus; exact Hwf.
  rewrite (getSeatAvailability_create _ _ _ _ Hwf Hfind Hbus). cbn [fst].
  constructor; cbn [trips tripIdCounter bookings bookingIdCounter
                    bookingDetails bookingDetailIdCounter]; try apply Hwf.
  - intros k t H. apply in_app_or in H. destruct H as [H|[[= <- <-]|[]]].
    + eapply wf_trip_ids; eauto.
    + reflexivity.
  - intros k t H. apply in_app_or in H. destruct H as [H|[[= <- <-]|[]]].
    + apply (wf_trip_below s Hwf) in H. lia.
    + lia.
  - unfold mkeys. rewrite map_app. simpl.
    apply NoDup_app; [apply Hwf | constructor; [intros [] | constructor] |].
    intros k Hk [<-|[]]. apply in_map_iff in Hk.
    destruct Hk as ([k t] & E & Hin). simpl in E. subst k.
    apply (wf_trip_below s Hwf) in Hin. lia.
  - unfold mvalues. rewrite !map_app. simpl.
    apply NoDup_app; [apply Hwf | constructor; [intros [] | constructor] |].
    intros x Hx [<-|[]]. apply in_map_iff in Hx.
    destruct Hx as (t & E & Hin). apply in_map_iff in Hin.
    destruct Hin as ([k t0] & E0 & Hin). simpl in E0. subst t0.
    exact (findTrip_None _ _ _ Hfind k t Hin E).
Qed.

Lemma sameLedger_refl s : sameLedger s s.
Proof. repeat split. Qed.

Lemma sameLedger_trans s1 s2 s3 :
  sameLedger s1 s2 -> sameLedger s2 s3 -> sameLedger s1 s3.
Proof.
  unfold sameLedger. intros (A1 & A2 & A3 & A4 & A5 & A6 & A7)
                            (B1 & B2 & B3 & B4 & B5 & B6 & B7).
  repeat split; congruence.
Qed.

Lemma sameLedger_fold {A : Type} (f : MemStorage -> A -> MemStorage)
  (l : list A) :
  (forall s a, sameLedger s (f s a)) ->
  forall s, sameLedger s (fold_left f l s).
Proof.
  intros Hf. induction l as [|a l IH]; intros s; simpl.
  - apply sameLedger_refl.
  - eapply sameLedger_trans; [apply Hf | apply IH].
Qed.

Lemma sameLedger_createSeatLayout l s :
  sameLedger s (fst (createSeatLayout l s)).
Proof. repeat split. Qed.

Lemma sameLedger_createDefaultSeatLayout busId s :
  sameLedger s (createDefaultSeatLayout busId s).
Proof.
  unfold createDefaultSeatLayout. apply sameLedger_fold. intros s1 row.
  apply sameLedger_fold. intros s2 col.
  destruct (defaultSeat busId row col);
    [apply sameLedger_createSeatLayout | apply sameLedger_refl].
Qed.

Lemma sameLedger_createBus b s : sameLedger s (fst (createBus b s)).
Proof.
  unfold createBus. cbn [fst].
  eapply sameLedger_trans; [|apply sameLedger_createDefaultSeatLayout].
  repeat split.
Qed.

Lemma sameLedger_createCity name s : sameLedger s (fst (createCity name s)).
Proof. repeat split. Qed.

Lemma sameLedger_updateBus id b s : sameLedger s (fst (updateBus id b s)).
Proof. unfold updateBus. destruct (negb _); repeat split. Qed.

Lemma sameLedger_deleteBus id s : sameLedger s (fst (deleteBus id s)).
Proof. repeat split. Qed.

Lemma WF_sameLedger s s' : sameLedger s s' -> WF s -> WF s'.
Proof.
  intros (A1 & A2 & A3 & A4 & A5 & A6 & A7) [H1 H2 H3 H4 H5 H6 H7 H8].
  constructor; rewrite ?A1, ?A3, ?A4, ?A5, ?A6, ?A7; assumption.
Qed.

Lemma WF_step s o : WF s -> WF (step s o).
Proof.
  intros Hwf. destruct o; simpl.
  - exact (WF_sameLedger _ _ (sameLedger_createCity _ _) Hwf).
  - exact (WF_sameLedger _ _ (sameLedger_createBus _ _) Hwf).
  - exact (WF_sameLedger _ _ (sameLedger_updateBus _ _ _) Hwf).
  - exact (WF_sameLedger _ _ (sameLedger_deleteBus _ _) Hwf).
  - exact (WF_sameLedger _ _ (sameLedger_createSeatLayout _ _) Hwf).
  - now apply WF_getSeatAvailability.
  - now apply WF_createBooking.
  - now apply WF_cancelBooking.
Qed.

Lemma WF_run ops : forall s, WF s -> WF (run ops s).
Proof.
  unfold run. induction ops as [|o ops IH]; intros s Hwf; simpl.
  - exact Hwf.
  - apply IH. now apply WF_step.
Qed.

Lemma wf_initialStorage : wf initialStorage.
Proof. vm_compute. reflexivity. Qed.

Lemma reachable_WF s : reachable s -> WF s.
Proof.
  intros [ops ->]. apply WF_run. apply wf_WF. exact wf_initialStorage.
Qed.

Lemma reachable_step s o : reachable s -> reachable (step s o).
Proof.
  intros [ops ->]. exists (ops ++ [o]). unfold run.
  now rewrite fold_left_app.
Qed.

(** ** The per-trip seat map *)

Lemma append_cancel_l (p a b : string) :
  (p ++ a)%string = (p ++ b)%string -> a = b.
Proof. induction p as [|c p IH]; simpl; [auto | intros [= H]; auto]. Qed.

Lemma seatKey_inj tripId a b : seatKey tripId a = seatKey tripId b -> a = b.
Proof.
  unfold seatKey. intros H. apply append_cancel_l in H.
  now apply append_cancel_l in H.
Qed.

Lemma markSeats_cons tripId flag x seats m :
  markSeats tripId flag (x :: seats) m =
  markSeats tripId flag seats
    (mset String.eqb (seatKey tripId x)
       (TripSeatAvailability.mk tripId x flag) m).
Proof. reflexivity. Qed.

(** A seat that is not in the list keeps its entry. *)
Lemma markSeats_other tripId flag seats seat m :
  ~ In seat seats ->
  mget String.eqb (seatKey tripId seat) (markSeats tripId flag seats m)
  = mget String.eqb (seatKey tripId seat) m.
Proof.
  revert m. induction seats as [|x seats IH]; intros m Hni; [reflexivity|].
  rewrite markSeats_cons, IH by (intros H; apply Hni; now right).
  apply (mget_mset_other String.eqb_spec).
  intros E. apply seatKey_inj in E. apply Hni. now left.
Qed.

(** A seat of the list ends with the entry the loop writes. *)
Lemma markSeats_in tripId flag seats seat m :
  In seat seats ->
  mget String.eqb (seatKey tripId seat) (markSeats tripId flag seats m)
  = Some (TripSeatAvailability.mk tripId seat flag).
Proof.
  revert m. induction seats as [|x seats IH]; intros m Hin; [destruct Hin|].
  rewrite markSeats_cons.
  destruct (in_dec string_dec seat seats) as [Hi|Hni]; [now apply IH|].
  destruct Hin as [->|Hin]; [|contradiction].
  rewrite markSeats_other by assumption.
  apply (mget_mset_same String.eqb_spec).
Qed.

(** ** The set of booked seats *)

Lemma shas_sadd x y l : shas x (sadd y l) = String.eqb x y || shas x l.
Proof.
  unfold sadd. destruct (shas y l) eqn:E.
  - destruct (String.eqb_spec x y) as [->|]; [now rewrite E | reflexivity].
  - unfold shas. rewrite existsb_app. simpl.
    rewrite orb_false_r. apply orb_comm.
Qed.

Lemma shas_add_details x details booked :
  shas x (fold_left
            (fun booked detail => sadd (BookingDetail.seatNumber detail) booked)
            details booked)
  = shas x booked
    || existsb (fun d => String.eqb x (BookingDetail.seatNumber d)) details.
Proof.
  revert booked. induction details as [|d ds IH]; intros booked; simpl.
  - now rewrite orb_false_r.
  - rewrite IH, shas_sadd.
    destruct (String.eqb x (BookingDetail.seatNumber d)), (shas x booked);
      reflexivity.
Qed.

(** Whether the booking is one [getSeatAvailability] counts for the bus and
    date, and holds the seat. *)
Lemma shas_bookedSeats x busId date s :
  shas x (bookedSeats busId date s)
  = existsb
      (fun booking =>
         (Booking.busId booking =? busId)
         && String.eqb (Booking.travelDate booking) date
         && String.eqb (Booking.status booking) "confirmed"
         && existsb (fun d => String.eqb x (BookingDetail.seatNumber d))
              (detailsOf (Booking.id booking) s))
      (mvalues (bookings s)).
Proof.
  unfold bookedSeats.
  assert (H : forall bs booked,
    shas x (fold_left
      (fun booked booking =>
         if (Booking.busId booking =? busId)
            && String.eqb (Booking.travelDate booking) date
            && String.eqb (Booking.status booking) "confirmed"
         then fold_left
                (fun booked detail =>
                   sadd (BookingDetail.seatNumber detail) booked)
                (detailsOf (Booking.id booking) s) booked
         else booked) bs booked)
    = shas x booked
      || existsb
           (fun booking =>
              (Booking.busId booking =? busId)
              && String.eqb (Booking.travelDate booking) date
              && String.eqb (Booking.status booking) "confirmed"
              && existsb (fun d => String.eqb x (BookingDetail.seatNumber d))
                   (detailsOf (Booking.id booking) s)) bs).
  { induction bs as [|b bs IH]; intros booked; simpl.
    - now rewrite orb_false_r.
    - rewrite IH.
      destruct ((Booking.busId b =? busId)
                && String.eqb (Booking.travelDate b) date
                && String.eqb (Booking.status b) "confirmed"); simpl.
      + rewrite shas_add_details. now rewrite orb_assoc.
      + reflexivity. }
  now rewrite H.
Qed.

(** ** The availability report *)

Lemma listedAvailable_seatReport seat layout trip busId date s :
  listedAvailable seat (seatReport layout trip busId date s)
  = existsb (fun l => String.eqb (SeatLayout.seatNumber l) seat) layout
    && notMarkedUnavailable
         (mget String.eqb (seatKey (Trip.id trip) seat)
            (tripSeatAvailability s))
    && negb (shas seat (bookedSeats busId date s)).
Proof.
  unfold listedAvailable, seatReport.
  induction layout as [|l layout IH]; [reflexivity|].
  cbn [map existsb SeatAvailability.seatNumber SeatAvailability.isAvailable].
  rewrite IH.
  destruct (String.eqb_spec (SeatLayout.seatNumber l) seat) as [->|];
    cbn [andb orb]; [|reflexivity].
  destruct (notMarkedUnavailable _), (negb _), (existsb _ layout); reflexivity.
Qed.

Lemma seatAvailable_existing busId date seat s trip :
  findTrip busId date s = Some trip ->
  seatAvailable busId date seat s
  = existsb (fun l => String.eqb (SeatLayout.seatNumber l) seat)
      (getBusSeatLayout busId s)
    && notMarkedUnavailable
         (mget String.eqb (seatKey (Trip.id trip) seat)
            (tripSeatAvailability s))
    && negb (shas seat (bookedSeats busId date s)).
Proof.
  intros H. unfold seatAvailable.
  rewrite (getSeatAvailability_existing _ _ _ _ H). cbn [snd].
  apply listedAvailable_seatReport.
Qed.

(** ** What the booking operations return *)

Lemma getBus_ext id s s' :
  buses s' = buses s -> cities s' = cities s -> getBus id s' = getBus id s.
Proof. unfold getBus. now intros -> ->. Qed.

Lemma filter_nil {A : Type} (p : A -> bool) (l : list A) :
  (forall x, In x l -> p x = false) -> filter p l = [].
Proof.
  induction l as [|x l IH]; simpl; intros H; [reflexivity|].
  rewrite (H x) by now left. apply IH. intros y Hy. apply H. now right.
Qed.

(** No detail refers to the booking id that is issued next. *)
Lemma detailsOf_next s : WF s -> detailsOf (bookingIdCounter s) s = [].
Proof.
  intros Hwf. unfold detailsOf. apply filter_nil. intros d Hd.
  apply (wf_detail_booking s Hwf) in Hd. lia.
Qed.

(** After [createBooking] the details of the new booking are the requested
    seats, in order. *)
Lemma detailsOf_created ib seats now s :
  WF s ->
  detailsOf (bookingIdCounter s) (fst (createBooking ib seats now s))
  = mvalues (newDetails (bookingDetailIdCounter s) (bookingIdCounter s) seats).
Proof.
  intros Hwf. rewrite (createBooking_eq ib seats now s Hwf). cbn [fst].
  pose proof (detailsOf_next s Hwf) as Hn.
  unfold detailsOf, mvalues in *. cbn [bookingDetails].
  rewrite map_app, filter_app, Hn. simpl. apply newDetails_filter.
Qed.

Lemma createBooking_returns ib seats now s bus :
  WF s ->
  getBus (InsertBooking.busId ib) s = Ok (Some bus) ->
  snd (createBooking ib seats now s)
  = Ok (BookingWithDetails.mk
          (Booking.of_insert (bookingIdCounter s) now ib) bus
          (BusWithCities.fromCity bus) (BusWithCities.toCity bus) seats).
Proof.
  intros Hwf Hbus.
  pose proof (detailsOf_created ib seats now s Hwf) as Hd.
  rewrite (createBooking_eq ib seats now s Hwf) in *. cbn [fst snd] in *.
  unfold getBookingWithDetails.
  rewrite (getBus_ext _ s) by reflexivity.
  cbn [Booking.busId Booking.of_insert Booking.id]. rewrite Hbus.
  rewrite Hd, newDetails_seats. reflexivity.
Qed.

(** ** How an operation moves the trips *)

(** Overwriting the counter of the trip of one bus and date, seen from the
    lookup of any bus and date. *)
Lemma findTrip_update_counter s busId date n busId' date' m' :
  WF s ->
  m' = match findTrip busId date s with
       | Some trip =>
           mset Z.eqb (Trip.id trip)
             (Trip.set_availableSeats (Trip.availableSeats trip + n) trip)
             (trips s)
       | None => trips s
       end ->
  find (tripMatches busId' date') (mvalues m')
  = option_map
      (fun t => if tripMatches busId date t
                then Trip.set_availableSeats (Trip.availableSeats t + n) t
                else t)
      (findTrip busId' date' s).
Proof.
  intros Hwf ->. destruct (findTrip busId date s) as [trip|] eqn:Hfind.
  - pose proof (findTrip_In _ _ _ _ Hwf Hfind) as Hin.
    pose proof (proj2 (findTrip_Some _ _ _ _ Hfind)) as Hk.
    pose proof (trips_update_find s trip
                  (Trip.set_availableSeats (Trip.availableSeats trip + n) trip)
                  Hwf Hin eq_refl eq_refl busId' date') as Hf.
    change (Trip.id (Trip.set_availableSeats
                       (Trip.availableSeats trip + n) trip))
      with (Trip.id trip) in Hf.
    rewrite Hf. destruct (tripMatches busId' date' trip) eqn:Hm.
    + apply tripMatches_key in Hm. rewrite Hk in Hm.
      injection Hm as <- <-. rewrite Hfind. simpl.
      now rewrite (proj2 (tripMatches_key busId date trip) Hk).
    + destruct (findTrip busId' date' s) as [t|] eqn:Hf'; [|reflexivity].
      simpl. destruct (tripMatches busId date t) eqn:Hm'; [|reflexivity].
      exfalso. apply tripMatches_key in Hm'.
      pose proof (proj2 (findTrip_Some _ _ _ _ Hf')) as Hk'.
      rewrite Hm' in Hk'. injection Hk' as <- <-.
      apply tripMatches_key in Hk. congruence.
  - fold (findTrip busId' date' s).
    destruct (findTrip busId' date' s) as [t|] eqn:Hf'; [|reflexivity].
    simpl. destruct (tripMatches busId date t) eqn:Hm'; [|reflexivity].
    exfalso. apply tripMatches_key in Hm'.
    destruct (proj1 (findTrip_Some _ _ _ _ Hf')) as [k Hin].
    exact (findTrip_None _ _ _ Hfind k t Hin Hm').
Qed.

(** [createBooking] lowers the counter of the trip of its bus and date by
    the length of the seat list and leaves every other trip alone. *)
Lemma findTrip_createBooking ib seats now s busId date :
  WF s ->
  findTrip busId date (fst (createBooking ib seats now s))
  = option_map
      (fun t =>
         if tripMatches (InsertBooking.busId ib) (InsertBooking.travelDate ib) t
         then Trip.set_availableSeats
                (Trip.availableSeats t + - Z.of_nat (List.length seats)) t
         else t)
      (findTrip busId date s).
Proof.
  intros Hwf. rewrite (createBooking_eq ib seats now s Hwf). cbn [fst].
  unfold findTrip at 1. cbn [trips].
  apply findTrip_update_counter; [assumption|].
  destruct (findTrip _ _ s); reflexivity.
Qed.

(** [cancelBooking] raises the counter of the trip of the booking's bus and
    date by the number of the booking's details and leaves every other trip
    alone. *)
Lemma findTrip_cancelBooking id s b0 busId date :
  WF s ->
  mget Z.eqb id (bookings s) = Some b0 ->
  findTrip busId date (fst (cancelBooking id s))
  = option_map
      (fun t =>
         if tripMatches (Booking.busId b0) (Booking.travelDate b0) t
         then Trip.set_availableSeats
                (Trip.availableSeats t
                 + Z.of_nat (List.length (detailsOf (Booking.id b0) s))) t
         else t)
      (findTrip busId date s).
Proof.
  intros Hwf Hget. rewrite (cancelBooking_eq id s b0 Hget). cbn [fst].
  unfold findTrip at 1. cbn [trips].
  apply findTrip_update_counter; [assumption|].
  destruct (findTrip _ _ s); reflexivity.
Qed.

Lemma mget_appended {V : Type} (k : Z) (v : V) (m : JsMap Z V) :
  (forall k' v', In (k', v') m -> k' < k) ->
  mget Z.eqb k (m ++ [(k, v)]) = Some v.
Proof.
  intros H. rewrite <- (mset_fresh _ _ _ (fresh_key _ _ H)).
  apply (mget_mset_same Z.eqb_spec).
Qed.

Lemma cancelBooking_result id s b0 :
  mget Z.eqb id (bookings s) = Some b0 ->
  snd (cancelBooking id s)
  = match getBookingWithDetails b0 s with
    | Ok before =>
        Ok (BookingWithDetails.mk (Booking.set_status "cancelled" b0)
              (BookingWithDetails.bus before)
              (BookingWithDetails.fromCity before)
              (BookingWithDetails.toCity before)
              (BookingWithDetails.seats before))
    | Throw e => Throw e
    end.
Proof.
  intros Hget. rewrite (cancelBooking_eq id s b0 Hget). cbn [snd].
  unfold getBookingWithDetails. rewrite (getBus_ext _ s) by reflexivity.
  cbn [Booking.busId Booking.id Booking.set_status].
  destruct (getBus (Booking.busId b0) s) as [[bus|]|e]; reflexivity.
Qed.

(** * The claims *)

(** ** C1: booking a seat that is already booked *)

(** C1, the claim as stated fails: with seat 2B of bus 1 on 2025-06-01
    already held by confirmed booking 1, a request for 2A and 2B is
    accepted. Booking 2 is stored and returned, seat 2A, available before,
    is reported unavailable after, and the counter goes from 29 to 27. *)
Lemma double_booking_accepted :
  shas "2B" (bookedSeats 1 "2025-06-01" seat2BBooked) = true
  /\ seatAvailable 1 "2025-06-01" "2A" seat2BBooked = true
  /\ option_map Trip.availableSeats (findTrip 1 "2025-06-01" seat2BBooked)
     = Some 29
  /\ option_map BookingWithDetails.seats
       (returned (snd (createBooking exampleRequest ["2A"; "2B"] 0
                         seat2BBooked)))
     = Some ["2A"; "2B"]
  /\ mhas Z.eqb 2
       (bookings (fst (createBooking exampleRequest ["2A"; "2B"] 0
                         seat2BBooked))) = true
  /\ seatAvailable 1 "2025-06-01" "2A"
       (fst (createBooking exampleRequest ["2A"; "2B"] 0 seat2BBooked)) = false
  /\ option_map Trip.availableSeats
       (findTrip 1 "2025-06-01"
          (fst (createBooking exampleRequest ["2A"; "2B"] 0 seat2BBooked)))
     = Some 27.
Proof. vm_compute. repeat split. Qed.

(** C1, amended. [createBooking] does not look at the state of the seats:
    for a request that targets a seat already held by a confirmed booking of
    the same bus and travel date, with the trip in place and the bus
    fetchable, the call succeeds, a new booking is stored and returned with
    the requested seats, the trip's [availableSeats] drops by the number of
    requested seats, and every targeted seat is marked unavailable in the
    per-trip seat map and reported unavailable. *)
Theorem createBooking_ignores_seat_state ib seats now s trip bus :
  reachable s ->
  findTrip (InsertBooking.busId ib) (InsertBooking.travelDate ib) s
  = Some trip ->
  getBus (InsertBooking.busId ib) s = Ok (Some bus) ->
  (exists seat,
      In seat seats
      /\ shas seat (bookedSeats (InsertBooking.busId ib)
                      (InsertBooking.travelDate ib) s) = true) ->
  exists s1 bwd,
    createBooking ib seats now s = (s1, Ok bwd)
    /\ mget Z.eqb (bookingIdCounter s) (bookings s1)
       = Some (BookingWithDetails.booking bwd)
    /\ BookingWithDetails.seats bwd = seats
    /\ findTrip (InsertBooking.busId ib) (InsertBooking.travelDate ib) s1
       = Some (Trip.set_availableSeats
                 (Trip.availableSeats trip - Z.of_nat (List.length seats))
                 trip)
    /\ forall seat,
         In seat seats ->
         mget String.eqb (seatKey (Trip.id trip) seat)
           (tripSeatAvailability s1)
         = Some (TripSeatAvailability.mk (Trip.id trip) seat false)
         /\ seatAvailable (InsertBooking.busId ib)
              (InsertBooking.travelDate ib) seat s1 = false.
Proof.
  intros Hr Hfind Hbus _. apply reachable_WF in Hr.
  pose proof (createBooking_returns ib seats now s bus Hr Hbus) as Hret.
  pose proof (findTrip_createBooking ib seats now s
                (InsertBooking.busId ib) (InsertBooking.travelDate ib) Hr)
    as Htrip.
  rewrite Hfind in Htrip. cbn [option_map] in Htrip.
  rewrite (proj2 (tripMatches_key _ _ trip)
             (proj2 (findTrip_Some _ _ _ _ Hfind))) in Htrip.
  assert (Hmark : forall seat, In seat seats ->
            mget String.eqb (seatKey (Trip.id trip) seat)
              (tripSeatAvailability (fst (createBooking ib seats now s)))
            = Some (TripSeatAvailability.mk (Trip.id trip) seat false)).
  { intros seat Hin. rewrite (createBooking_eq ib seats now s Hr).
    cbn [fst tripSeatAvailability]. rewrite Hfind. now apply markSeats_in. }
  assert (Hget : mget Z.eqb (bookingIdCounter s)
                   (bookings (fst (createBooking ib seats now s)))
                 = Some (Booking.of_insert (bookingIdCounter s) now ib)).
  { rewrite (createBooking_eq ib seats now s Hr). cbn [fst bookings].
    apply mget_appended. apply Hr. }
  destruct (createBooking ib seats now s) as [s1 r] eqn:E.
  cbn [fst snd] in *. subst r. exists s1. eexists.
  split; [reflexivity|]. split; [exact Hget|]. split; [reflexivity|].
  split; [exact Htrip|].
  intros seat Hin. split; [now apply Hmark|].
  rewrite (seatAvailable_existing _ _ _ _ _ Htrip).
  cbn [Trip.id Trip.set_availableSeats]. rewrite (Hmark seat Hin).
  cbn [notMarkedUnavailable TripSeatAvailability.isAvailable].
  now rewrite andb_false_r.
Qed.

Lemma createBooking_ignores_seat_state_witness :
  reachable seat2BBooked
  /\ shas "2B" (bookedSeats 1 "2025-06-01" seat2BBooked) = true
  /\ exists s1 bwd,
       createBooking exampleRequest ["2A"; "2B"] 0 seat2BBooked = (s1, Ok bwd)
       /\ BookingWithDetails.seats bwd = ["2A"; "2B"]
       /\ findTrip 1 "2025-06-01" s1 = Some (Trip.mk 1 1 "2025-06-01" 27)
       /\ seatAvailable 1 "2025-06-01" "2A" s1 = false.
Proof.
  assert (Hr : reachable seat2BBooked).
  { exists [OpGetSeatAvailability 1 "2025-06-01";
            OpCreateBooking exampleRequest ["2B"] 0].
    vm_compute. reflexivity. }
  assert (Hb : shas "2B" (bookedSeats (InsertBooking.busId exampleRequest)
                            (InsertBooking.travelDate exampleRequest)
                            seat2BBooked) = true)
    by (vm_compute; reflexivity).
  assert (Hf : findTrip (InsertBooking.busId exampleRequest)
                 (InsertBooking.travelDate exampleRequest) seat2BBooked
               = Some (Trip.mk 1 1 "2025-06-01" 29))
    by (vm_compute; reflexivity).
  assert (Hbus : getBus (InsertBooking.busId exampleRequest) seat2BBooked
                 = Ok (Some karnatakaExpress)) by (vm_compute; reflexivity).
  split; [exact Hr|]. split; [exact Hb|].
  destruct (createBooking_ignores_seat_state exampleRequest ["2A"; "2B"] 0
              seat2BBooked (Trip.mk 1 1 "2025-06-01" 29) karnatakaExpress
              Hr Hf Hbus
              (ex_intro _ "2B" (conj (or_intror (or_introl eq_refl)) Hb)))
    as (s1 & bwd & E & _ & Hs & Ht & Hm).
  exists s1, bwd. split; [exact E|]. split; [exact Hs|].
  split; [exact Ht|].
  exact (proj2 (Hm "2A" (or_introl eq_refl))).
Defined.

(** ** C2: the counter and the seats reported available *)

(** C2, the claim as stated fails: right after the trip of bus 1 on
    2025-06-01 is created, its counter is 30, the bus's [totalSeats], while
    the layout has 20 seats and all 20 are reported available. *)
Lemma counter_differs_from_available_seats :
  option_map Trip.availableSeats (findTrip 1 "2025-06-01" tripOpened)
  = Some 30
  /\ availableCount 1 "2025-06-01" tripOpened = 20.
Proof. vm_compute. repeat split. Qed.

Lemma findTrip_sameLedger busId date s s' :
  sameLedger s s' -> findTrip busId date s' = findTrip busId date s.
Proof. intros (E & _). unfold findTrip. now rewrite E. Qed.

Lemma set_availableSeats_same t :
  Trip.set_availableSeats (Trip.availableSeats t + 0) t = t.
Proof. destruct t. unfold Trip.set_availableSeats. simpl. f_equal. lia. Qed.

Lemma tripMatches_of_key busId date busId' date' t :
  tripKey t = (busId, date) ->
  tripMatches busId' date' t = (busId' =? busId) && String.eqb date' date.
Proof.
  unfold tripKey, tripMatches. intros [= -> ->].
  now rewrite Z.eqb_sym, String.eqb_sym.
Qed.

(** C2, amended. The counter is not tied to the seats reported available;
    it follows the operations. In every reachable store and for every
    operation, the trip of a bus and date, if it exists, is afterwards the
    same trip with [availableSeats] changed by [counterDelta]: lowered by
    the length of the seat list by [createBooking] for that bus and date,
    raised by the number of the booking's details by [cancelBooking] of a
    booking for that bus and date, and unchanged otherwise. If the trip does
    not exist, it still does not afterwards, unless the operation is
    [getSeatAvailability] for that bus and date on a fetchable bus, which
    creates it with [availableSeats] equal to the bus's [totalSeats]. *)
Theorem availableSeats_follows_operations s o busId date :
  reachable s ->
  match findTrip busId date s with
  | Some trip =>
      findTrip busId date (step s o)
      = Some (Trip.set_availableSeats
                (Trip.availableSeats trip + counterDelta busId date s o) trip)
  | None =>
      findTrip busId date (step s o) = None
      \/ (o = OpGetSeatAvailability busId date
          /\ exists bus,
               getBus busId s = Ok (Some bus)
               /\ findTrip busId date (step s o)
                  = Some (Trip.mk (tripIdCounter s) busId date
                            (Bus.totalSeats (BusWithCities.bus bus))))
  end.
Proof.
  intros Hr. apply reachable_WF in Hr.
  assert (Hsame : forall s', s' = step s o -> counterDelta busId date s o = 0 ->
            findTrip busId date s' = findTrip busId date s ->
            match findTrip busId date s with
            | Some trip =>
                findTrip busId date s'
                = Some (Trip.set_availableSeats
                          (Trip.availableSeats trip
                           + counterDelta busId date s o) trip)
            | None =>
                findTrip busId date s' = None
                \/ (o = OpGetSeatAvailability busId date
                    /\ exists bus,
                         getBus busId s = Ok (Some bus)
                         /\ findTrip busId date s'
                            = Some (Trip.mk (tripIdCounter s) busId date
                                      (Bus.totalSeats (BusWithCities.bus bus))))
            end).
  { intros s' _ Hd Hf. rewrite Hd, Hf.
    destruct (findTrip busId date s) as [t|];
      [now rewrite set_availableSeats_same | now left]. }
  destruct o as [name|b|id b|id|l|busId' date'|ib seats now|id].
  - apply Hsame; [reflexivity | reflexivity |].
    apply findTrip_sameLedger, sameLedger_createCity.
  - apply Hsame; [reflexivity | reflexivity |].
    apply findTrip_sameLedger, sameLedger_createBus.
  - apply Hsame; [reflexivity | reflexivity |].
    apply findTrip_sameLedger, sameLedger_updateBus.
  - apply Hsame; [reflexivity | reflexivity |].
    apply findTrip_sameLedger, sameLedger_deleteBus.
  - apply Hsame; [reflexivity | reflexivity |].
    apply findTrip_sameLedger, sameLedger_createSeatLayout.
  - (* getSeatAvailability *)
    destruct (findTrip busId' date' s) as [t'|] eqn:Hf'.
    { apply Hsame; [reflexivity | reflexivity |]. simpl.
      now rewrite (getSeatAvailability_existing _ _ _ _ Hf'). }
    destruct (getBus busId' s) as [[bus|]|e] eqn:Hbus.
    2,3: apply Hsame; [reflexivity | reflexivity |]; simpl;
         unfold getSeatAvailability, getOrCreateTrip;
         now rewrite Hf', Hbus.
    assert (Hnew :
      findTrip busId date (step s (OpGetSeatAvailability busId' date'))
      = match findTrip busId date s with
        | Some t => Some t
        | None =>
            if (busId' =? busId) && String.eqb date' date
            then Some (Trip.mk (tripIdCounter s) busId' date'
                         (Bus.totalSeats (BusWithCities.bus bus)))
            else None
        end).
    { simpl step.
      rewrite (getSeatAvailability_create _ _ _ _ Hr Hf' Hbus). cbn [fst].
      unfold findTrip, mvalues. cbn [trips].
      rewrite map_app, find_app_split.
      destruct (find (tripMatches busId date) (map snd (trips s)));
        reflexivity. }
    rewrite Hnew. destruct (findTrip busId date s) as [t|] eqn:Hf.
    + cbn [counterDelta]. now rewrite set_availableSeats_same.
    + destruct (Z.eqb_spec busId' busId) as [->|]; [|now left].
      destruct (String.eqb_spec date' date) as [->|]; [|now left].
      right. split; [reflexivity|]. exists bus. split; [exact Hbus|reflexivity].
  - (* createBooking *)
    simpl step. rewrite (findTrip_createBooking ib seats now s _ _ Hr).
    destruct (findTrip busId date s) as [t|] eqn:Hf; [|now left].
    cbn [option_map counterDelta].
    rewrite (tripMatches_of_key busId date _ _ t
               (proj2 (findTrip_Some _ _ _ _ Hf))).
    destruct ((InsertBooking.busId ib =? busId)
              && String.eqb (InsertBooking.travelDate ib) date);
      [reflexivity | now rewrite set_availableSeats_same].
  - (* cancelBooking *)
    destruct (mget Z.eqb id (bookings s)) as [b0|] eqn:Hget.
    2:{ apply Hsame; [reflexivity | simpl; now rewrite Hget |].
        simpl. now rewrite cancelBooking_missing. }
    simpl step. rewrite (findTrip_cancelBooking id s b0 _ _ Hr Hget).
    destruct (findTrip busId date s) as [t|] eqn:Hf; [|now left].
    cbn [option_map counterDelta]. rewrite Hget.
    rewrite (tripMatches_of_key busId date _ _ t
               (proj2 (findTrip_Some _ _ _ _ Hf))).
    destruct ((Booking.busId b0 =? busId)
              && String.eqb (Booking.travelDate b0) date);
      [reflexivity | now rewrite set_availableSeats_same].
Qed.

Lemma availableSeats_follows_operations_witness :
  reachable seat2BBooked
  /\ findTrip 1 "2025-06-01" seat2BBooked
     = Some (Trip.mk 1 1 "2025-06-01" 29)
  /\ findTrip 1 "2025-06-01"
       (step seat2BBooked (OpCreateBooking exampleRequest ["2A"; "2B"] 0))
     = Some (Trip.mk 1 1 "2025-06-01" 27)
  /\ findTrip 1 "2025-06-01" (step seat2BBooked (OpCancelBooking 1))
     = Some (Trip.mk 1 1 "2025-06-01" 30).
Proof.
  assert (Hr : reachable seat2BBooked).
  { exists [OpGetSeatAvailability 1 "2025-06-01";
            OpCreateBooking exampleRequest ["2B"] 0].
    vm_compute. reflexivity. }
  assert (Hf : findTrip 1 "2025-06-01" seat2BBooked
               = Some (Trip.mk 1 1 "2025-06-01" 29))
    by (vm_compute; reflexivity).
  assert (Hd : counterDelta 1 "2025-06-01" seat2BBooked (OpCancelBooking 1)
               = 1) by (vm_compute; reflexivity).
  split; [exact Hr|]. split; [exact Hf|]. split.
  - pose proof (availableSeats_follows_operations seat2BBooked
                  (OpCreateBooking exampleRequest ["2A"; "2B"] 0)
                  1 "2025-06-01" Hr) as H.
    rewrite Hf in H. exact H.
  - pose proof (availableSeats_follows_operations seat2BBooked
                  (OpCancelBooking 1) 1 "2025-06-01" Hr) as H.
    rewrite Hf, Hd in H. exact H.
Defined.

(** ** C3: empty and repeated seat lists *)

(** C3, the claim as stated fails: an empty seat list and a list that names
    seat 1A twice are both accepted; a booking is stored and returned, with
    no detail in the first case and two details for 1A in the second. *)
Lemma malformed_seat_lists_accepted :
  option_map BookingWithDetails.seats
    (returned (snd (createBooking exampleRequest [] 0 tripOpened)))
  = Some []
  /\ mhas Z.eqb 1
       (bookings (fst (createBooking exampleRequest [] 0 tripOpened))) = true
  /\ option_map BookingWithDetails.seats
       (returned (snd (createBooking exampleRequest ["1A"; "1A"] 0
                         tripOpened)))
     = Some ["1A"; "1A"]
  /\ mhas Z.eqb 1
       (bookings (fst (createBooking exampleRequest ["1A"; "1A"] 0
                         tripOpened))) = true
  /\ map BookingDetail.seatNumber
       (mvalues (bookingDetails (fst (createBooking exampleRequest
                                        ["1A"; "1A"] 0 tripOpened))))
     = ["1A"; "1A"].
Proof. vm_compute. repeat split. Qed.

(** C3, amended. [createBooking] does not validate the seat list: called
    with an empty list or with a list that repeats a seat number, it stores
    the booking and one detail per element of the list (none for the empty
    list, one per occurrence of a repeated seat) and, when the bus of the
    request can be fetched, returns the booking with exactly that seat
    list. *)
Theorem createBooking_accepts_any_seat_list ib seats now s :
  reachable s ->
  seats = [] \/ ~ NoDup seats ->
  mget Z.eqb (bookingIdCounter s)
    (bookings (fst (createBooking ib seats now s)))
  = Some (Booking.of_insert (bookingIdCounter s) now ib)
  /\ bookingDetails (fst (createBooking ib seats now s))
     = bookingDetails s
       ++ newDetails (bookingDetailIdCounter s) (bookingIdCounter s) seats
  /\ List.length (bookingDetails (fst (createBooking ib seats now s)))
     = (List.length (bookingDetails s) + List.length seats)%nat
  /\ forall bus,
       getBus (InsertBooking.busId ib) s = Ok (Some bus) ->
       exists s1 bwd,
         createBooking ib seats now s = (s1, Ok bwd)
         /\ BookingWithDetails.seats bwd = seats
         /\ mget Z.eqb (bookingIdCounter s) (bookings s1)
            = Some (BookingWithDetails.booking bwd)
         /\ bookingDetails s1
            = bookingDetails s
              ++ newDetails (bookingDetailIdCounter s) (bookingIdCounter s)
                   seats
         /\ List.length (bookingDetails s1)
            = (List.length (bookingDetails s) + List.length seats)%nat.
Proof.
  intros Hr _. apply reachable_WF in Hr.
  assert (Hst : mget Z.eqb (bookingIdCounter s)
                  (bookings (fst (createBooking ib seats now s)))
                = Some (Booking.of_insert (bookingIdCounter s) now ib)
                /\ bookingDetails (fst (createBooking ib seats now s))
                   = bookingDetails s
                     ++ newDetails (bookingDetailIdCounter s)
                          (bookingIdCounter s) seats).
  { rewrite (createBooking_eq ib seats now s Hr).
    cbn [fst bookings bookingDetails].
    split; [apply mget_appended; apply Hr | reflexivity]. }
  destruct Hst as (Hb & Hd).
  assert (Hl : List.length (bookingDetails (fst (createBooking ib seats now s)))
               = (List.length (bookingDetails s) + List.length seats)%nat)
    by (now rewrite Hd, length_app, newDetails_length).
  split; [exact Hb|]. split; [exact Hd|]. split; [exact Hl|].
  intros bus Hbus.
  pose proof (createBooking_returns ib seats now s bus Hr Hbus) as Hret.
  destruct (createBooking ib seats now s) as [s1 r] eqn:E.
  cbn [fst snd] in *. subst r. exists s1. eexists.
  split; [reflexivity|].
  cbn [BookingWithDetails.seats BookingWithDetails.booking].
  split; [reflexivity|]. split; [exact Hb|]. split; [exact Hd | exact Hl].
Qed.

Lemma createBooking_accepts_any_seat_list_witness :
  reachable tripOpened
  /\ ~ NoDup ["1A"; "1A"]
  /\ exists s1 bwd,
       createBooking exampleRequest ["1A"; "1A"] 0 tripOpened = (s1, Ok bwd)
       /\ BookingWithDetails.seats bwd = ["1A"; "1A"]
       /\ List.length (bookingDetails s1) = 2%nat.
Proof.
  assert (Hr : reachable tripOpened).
  { exists [OpGetSeatAvailability 1 "2025-06-01"]. vm_compute. reflexivity. }
  assert (Hd : ~ NoDup ["1A"; "1A"]).
  { intros H. inversion H as [|? ? Hni _]. apply Hni. now left. }
  assert (Hbus : getBus (InsertBooking.busId exampleRequest) tripOpened
                 = Ok (Some karnatakaExpress)) by (vm_compute; reflexivity).
  split; [exact Hr|]. split; [exact Hd|].
  destruct (createBooking_accepts_any_seat_list exampleRequest ["1A"; "1A"] 0
              tripOpened Hr (or_intror Hd)) as (_ & _ & _ & Hret).
  destruct (Hret karnatakaExpress Hbus) as (s1 & bwd & E & Hs & _ & _ & Hl).
  exists s1, bwd. split; [exact E|]. split; [exact Hs|]. exact Hl.
Defined.

(** ** C4: cancelling what is missing or already cancelled *)

(** C4, the claim as stated fails: booking 1 is already cancelled and the
    counter of its trip is 30; cancelling it again does not fail, the
    booking is returned once more and the counter rises to 31. *)
Lemma second_cancel_accepted :
  option_map Booking.status (mget Z.eqb 1 (bookings seat2BCancelled))
  = Some "cancelled"
  /\ option_map Trip.availableSeats (findTrip 1 "2025-06-01" seat2BCancelled)
     = Some 30
  /\ option_map BookingWithDetails.seats
       (returned (snd (cancelBooking 1 seat2BCancelled)))
     = Some ["2B"]
  /\ option_map Trip.availableSeats
       (findTrip 1 "2025-06-01" (fst (cancelBooking 1 seat2BCancelled)))
     = Some 31.
Proof. vm_compute. repeat split. Qed.

(** C4, amended. [cancelBooking] fails with the error
    "Booking not found with id ..." when no booking is stored under the id,
    and leaves the store as it was. When the booking's status is already
    'cancelled' it does not fail: with the bus fetchable it returns the
    booking again, still 'cancelled', and when the trip exists it adds the
    number of the booking's seat details to [availableSeats] once more and
    writes each of those seats as available in the per-trip seat map. *)
Theorem cancelBooking_missing_or_cancelled id s :
  reachable s ->
  (mget Z.eqb id (bookings s) = None ->
   cancelBooking id s
   = (s, Throw (JsError ("Booking not found with id "
                           ++ num_to_string id)%string)))
  /\ (forall b bus,
        mget Z.eqb id (bookings s) = Some b ->
        Booking.status b = "cancelled" ->
        getBus (Booking.busId b) s = Ok (Some bus) ->
        exists s' bwd,
          cancelBooking id s = (s', Ok bwd)
          /\ Booking.status (BookingWithDetails.booking bwd) = "cancelled"
          /\ forall trip,
               findTrip (Booking.busId b) (Booking.travelDate b) s
               = Some trip ->
               findTrip (Booking.busId b) (Booking.travelDate b) s'
               = Some (Trip.set_availableSeats
                         (Trip.availableSeats trip
                          + Z.of_nat (List.length
                                        (detailsOf (Booking.id b) s)))
                         trip)
               /\ forall d,
                    In d (detailsOf (Booking.id b) s) ->
                    mget String.eqb
                      (seatKey (Trip.id trip) (BookingDetail.seatNumber d))
                      (tripSeatAvailability s')
                    = Some (TripSeatAvailability.mk (Trip.id trip)
                              (BookingDetail.seatNumber d) true)).
Proof.
  intros Hr. apply reachable_WF in Hr. split.
  - apply cancelBooking_missing.
  - intros b bus Hget _ Hbus.
    pose proof (cancelBooking_result id s b Hget) as Hres.
    pose proof (findTrip_cancelBooking id s b (Booking.busId b)
                  (Booking.travelDate b) Hr Hget) as Htrip.
    assert (Hmark : forall trip,
              findTrip (Booking.busId b) (Booking.travelDate b) s = Some trip ->
              tripSeatAvailability (fst (cancelBooking id s))
              = markSeats (Trip.id trip) true
                  (map BookingDetail.seatNumber (detailsOf (Booking.id b) s))
                  (tripSeatAvailability s)).
    { intros trip Hf. rewrite (cancelBooking_eq id s b Hget).
      cbn [fst tripSeatAvailability]. now rewrite Hf. }
    destruct (cancelBooking id s) as [s' r] eqn:E. cbn [fst snd] in *.
    unfold getBookingWithDetails in Hres. rewrite Hbus in Hres. subst r.
    exists s'. eexists. split; [reflexivity|]. split; [reflexivity|].
    intros trip Hf. split.
    + rewrite Htrip, Hf. cbn [option_map].
      now rewrite (proj2 (tripMatches_key _ _ trip)
                     (proj2 (findTrip_Some _ _ _ _ Hf))).
    + intros d Hd. rewrite (Hmark trip Hf). apply markSeats_in.
      now apply in_map.
Qed.


Lemma cancelBooking_missing_or_cancelled_witness :
  reachable seat2BCancelled
  /\ mget Z.eqb 9 (bookings seat2BCancelled) = None
  /\ cancelBooking 9 seat2BCancelled
     = (seat2BCancelled, Throw (JsError "Booking not found with id 9"))
  /\ mget Z.eqb 1 (bookings seat2BCancelled)
     = Some (Booking.mk 1 7 1 "2025-06-01" 0 "cancelled" 4500 "paid")
  /\ exists s' bwd,
       cancelBooking 1 seat2BCancelled = (s', Ok bwd)
       /\ findTrip 1 "2025-06-01" s' = Some (Trip.mk 1 1 "2025-06-01" 31).
Proof.
  assert (Hr : reachable seat2BCancelled).
  { exists [OpGetSeatAvailability 1 "2025-06-01";
            OpCreateBooking exampleRequest ["2B"] 0;
            OpCancelBooking 1].
    vm_compute. reflexivity. }
  assert (Hn : mget Z.eqb 9 (bookings seat2BCancelled) = None)
    by (vm_compute; reflexivity).
  assert (Hg : mget Z.eqb 1 (bookings seat2BCancelled)
               = Some (Booking.mk 1 7 1 "2025-06-01" 0 "cancelled" 4500 "paid"))
    by (vm_compute; reflexivity).
  assert (Hbus : getBus 1 seat2BCancelled = Ok (Some karnatakaExpress))
    by (vm_compute; reflexivity).
  assert (Hf : findTrip 1 "2025-06-01" seat2BCancelled
               = Some (Trip.mk 1 1 "2025-06-01" 30))
    by (vm_compute; reflexivity).
  assert (Hd : detailsOf 1 seat2BCancelled = [BookingDetail.mk 1 1 "2B"])
    by (vm_compute; reflexivity).
  destruct (cancelBooking_missing_or_cancelled 9 seat2BCancelled Hr)
    as [Hmiss _].
  destruct (cancelBooking_missing_or_cancelled 1 seat2BCancelled Hr)
    as [_ Hagain].
  split; [exact Hr|]. split; [exact Hn|]. split; [exact (Hmiss Hn)|].
  split; [exact Hg|].
  destruct (Hagain _ karnatakaExpress Hg eq_refl Hbus)
    as (s' & bwd & E & _ & Ht).
  exists s', bwd. split; [exact E|].
  destruct (Ht _ Hf) as [Hf' _].
  cbn [Booking.busId Booking.travelDate Booking.id] in Hf'.
  rewrite Hd in Hf'. exact Hf'.
Defined.

(** ** C5: booking a seat and cancelling the booking *)

Lemma existsb_ext_in {A : Type} (f g : A -> bool) (l : list A) :
  (forall x, In x l -> f x = g x) -> existsb f l = existsb g l.
Proof.
  induction l as [|x l IH]; simpl; intros H; [reflexivity|].
  rewrite (H x) by now left. f_equal. apply IH. intros y Hy. apply H.
  now right.
Qed.

Section RoundTrip.
Variables (ib : InsertBooking.t) (seats : list string) (now : Z).
Variable s : MemStorage.
Hypothesis Hwf : WF s.

Lemma afterBooking_get :
  mget Z.eqb (bookingIdCounter s) (bookings (afterBooking ib seats now s))
  = Some (Booking.of_insert (bookingIdCounter s) now ib).
Proof.
  unfold afterBooking. rewrite (createBooking_eq ib seats now s Hwf).
  cbn [fst bookings]. apply mget_appended. apply Hwf.
Qed.

Lemma afterBooking_WF : WF (afterBooking ib seats now s).
Proof. now apply WF_createBooking. Qed.

Lemma afterBooking_detailsOf :
  detailsOf (bookingIdCounter s) (afterBooking ib seats now s)
  = mvalues (newDetails (bookingDetailIdCounter s) (bookingIdCounter s) seats).
Proof. now apply detailsOf_created. Qed.

Lemma afterCancel_bookings :
  bookings (afterCancel ib seats now s)
  = bookings s
    ++ [(bookingIdCounter s,
         Booking.set_status "cancelled"
           (Booking.of_insert (bookingIdCounter s) now ib))].
Proof.
  unfold afterCancel. rewrite (cancelBooking_eq _ _ _ afterBooking_get).
  cbn [fst bookings]. unfold afterBooking.
  rewrite (createBooking_eq ib seats now s Hwf). cbn [fst bookings].
  apply (mset_present Z.eqb_spec (bookings s) _ _ _ []).
  apply (mget_None_notin Z.eqb_spec). apply fresh_key. apply Hwf.
Qed.

Lemma afterCancel_details :
  bookingDetails (afterCancel ib seats now s)
  = bookingDetails s
    ++ newDetails (bookingDetailIdCounter s) (bookingIdCounter s) seats.
Proof.
  unfold afterCancel. rewrite (cancelBooking_eq _ _ _ afterBooking_get).
  cbn [fst bookingDetails]. unfold afterBooking.
  now rewrite (createBooking_eq ib seats now s Hwf).
Qed.

Lemma afterCancel_catalogue :
  cities (afterCancel ib seats now s) = cities s
  /\ buses (afterCancel ib seats now s) = buses s
  /\ seatLayouts (afterCancel ib seats now s) = seatLayouts s.
Proof.
  unfold afterCancel. rewrite (cancelBooking_eq _ _ _ afterBooking_get).
  cbn [fst cities buses seatLayouts]. unfold afterBooking.
  now rewrite (createBooking_eq ib seats now s Hwf).
Qed.

(** The details of an older booking are what they were. *)
Lemma afterCancel_detailsOf k b :
  In (k, b) (bookings s) ->
  detailsOf (Booking.id b) (afterCancel ib seats now s)
  = detailsOf (Booking.id b) s.
Proof.
  intros Hin. unfold detailsOf. rewrite afterCancel_details.
  unfold mvalues. rewrite map_app, filter_app.
  rewrite (filter_nil _ (map snd (newDetails _ _ _))); [apply app_nil_r|].
  intros d Hd. apply in_map_iff in Hd. destruct Hd as ([k' d'] & E & Hd).
  simpl in E. subst d'. apply newDetails_in in Hd.
  destruct Hd as (_ & _ & ->).
  pose proof (wf_booking_ids s Hwf k b Hin).
  pose proof (wf_booking_below s Hwf k b Hin).
  apply Z.eqb_neq. lia.
Qed.

(** The set of booked seats is what it was before the booking. *)
Lemma afterCancel_booked x busId date :
  shas x (bookedSeats busId date (afterCancel ib seats now s))
  = shas x (bookedSeats busId date s).
Proof.
  rewrite !shas_bookedSeats, afterCancel_bookings.
  unfold mvalues at 1. rewrite map_app, existsb_app.
  cbn [map snd existsb Booking.status Booking.set_status].
  change (String.eqb "cancelled" "confirmed") with false.
  rewrite andb_false_r, andb_false_l, !orb_false_r.
  apply existsb_ext_in. intros b Hb. apply in_map_iff in Hb.
  destruct Hb as ([k b'] & E & Hin). simpl in E. subst b'.
  now rewrite (afterCancel_detailsOf k b Hin).
Qed.

(** Every trip has its counter back. *)
Lemma afterCancel_trip busId date :
  findTrip busId date (afterCancel ib seats now s) = findTrip busId date s.
Proof.
  unfold afterCancel.
  rewrite (findTrip_cancelBooking _ _ _ busId date
             afterBooking_WF afterBooking_get).
  cbn [Booking.id Booking.of_insert]. rewrite afterBooking_detailsOf.
  unfold afterBooking. rewrite (findTrip_createBooking ib seats now s _ _ Hwf).
  destruct (findTrip busId date s) as [t|]; [|reflexivity].
  cbn [option_map Booking.busId Booking.travelDate Booking.of_insert].
  destruct (tripMatches (InsertBooking.busId ib)
              (InsertBooking.travelDate ib) t) eqn:Hm.
  - rewrite (tripMatches_same_key _ _ t) by reflexivity. rewrite Hm.
    destruct t as [i b d a]. unfold Trip.set_availableSeats.
    cbn [Trip.id Trip.busId Trip.date Trip.availableSeats].
    do 2 f_equal. unfold mvalues. rewrite length_map, newDetails_length. lia.
  - now rewrite Hm.
Qed.

(** Every seat of the booking is written back as available. *)
Lemma afterCancel_marked trip seat :
  findTrip (InsertBooking.busId ib) (InsertBooking.travelDate ib) s
  = Some trip ->
  In seat seats ->
  mget String.eqb (seatKey (Trip.id trip) seat)
    (tripSeatAvailability (afterCancel ib seats now s))
  = Some (TripSeatAvailability.mk (Trip.id trip) seat true).
Proof.
  intros Hf Hin. unfold afterCancel.
  rewrite (cancelBooking_eq _ _ _ afterBooking_get).
  cbn [fst tripSeatAvailability Booking.busId Booking.travelDate
       Booking.of_insert Booking.id].
  rewrite afterBooking_detailsOf, newDetails_seats.
  unfold afterBooking.
  rewrite (findTrip_createBooking ib seats now s _ _ Hwf), Hf.
  cbn [option_map].
  destruct (tripMatches _ _ trip); now apply markSeats_in.
Qed.

End RoundTrip.

Lemma createBooking_snd ib seats now s :
  WF s ->
  snd (createBooking ib seats now s)
  = getBookingWithDetails (Booking.of_insert (bookingIdCounter s) now ib)
      (afterBooking ib seats now s).
Proof.
  intros Hwf. unfold afterBooking.
  now rewrite (createBooking_eq ib seats now s Hwf).
Qed.

(** C5. For a trip that exists and a seat that [getSeatAvailability] reports
    available on it, [createBooking] for that seat (its bus being fetchable)
    followed by [cancelBooking] of the returned booking id both succeed;
    afterwards the seat is again reported available and the trip record,
    with its [availableSeats] counter, is what it was before the booking.
    In between, the seat is reported unavailable and the counter is one
    lower. *)
Theorem booking_cancel_round_trip ib seat now s trip bus :
  reachable s ->
  findTrip (InsertBooking.busId ib) (InsertBooking.travelDate ib) s
  = Some trip ->
  seatAvailable (InsertBooking.busId ib) (InsertBooking.travelDate ib) seat s
  = true ->
  getBus (InsertBooking.busId ib) s = Ok (Some bus) ->
  exists s1 bwd s2 bwd',
    createBooking ib [seat] now s = (s1, Ok bwd)
    /\ seatAvailable (InsertBooking.busId ib) (InsertBooking.travelDate ib)
         seat s1 = false
    /\ findTrip (InsertBooking.busId ib) (InsertBooking.travelDate ib) s1
       = Some (Trip.set_availableSeats (Trip.availableSeats trip - 1) trip)
    /\ cancelBooking (Booking.id (BookingWithDetails.booking bwd)) s1
       = (s2, Ok bwd')
    /\ seatAvailable (InsertBooking.busId ib) (InsertBooking.travelDate ib)
         seat s2 = true
    /\ findTrip (InsertBooking.busId ib) (InsertBooking.travelDate ib) s2
       = Some trip.
Proof.
  intros Hr Hfind Havail Hbus. apply reachable_WF in Hr.
  pose proof (createBooking_returns ib [seat] now s bus Hr Hbus) as Hret.
  pose proof (createBooking_snd ib [seat] now s Hr) as Hsnd.
  rewrite Hret in Hsnd.
  pose proof (afterBooking_get ib [seat] now s Hr) as Hget.
  pose proof (cancelBooking_result _ _ _ Hget) as Hres.
  rewrite <- Hsnd in Hres.
  cbn [BookingWithDetails.bus BookingWithDetails.fromCity
       BookingWithDetails.toCity BookingWithDetails.seats] in Hres.
  exists (afterBooking ib [seat] now s). eexists.
  exists (afterCancel ib [seat] now s). eexists.
  split; [|split; [|split; [|split; [|split]]]].
  - rewrite (surjective_pairing (createBooking ib [seat] now s)).
    rewrite Hret. reflexivity.
  - pose proof (findTrip_createBooking ib [seat] now s
                  (InsertBooking.busId ib) (InsertBooking.travelDate ib) Hr)
      as Ht.
    rewrite Hfind in Ht. fold (afterBooking ib [seat] now s) in Ht.
    rewrite (seatAvailable_existing _ _ _ _ _ Ht).
    unfold afterBooking. rewrite (createBooking_eq ib [seat] now s Hr).
    cbn [fst tripSeatAvailability]. rewrite Hfind.
    destruct (tripMatches _ _ trip);
      cbn [Trip.id Trip.set_availableSeats];
      rewrite (markSeats_in (Trip.id trip) false [seat] seat _
                 (or_introl eq_refl));
      cbn [notMarkedUnavailable TripSeatAvailability.isAvailable];
      now rewrite andb_false_r.
  - unfold afterBooking.
    rewrite (findTrip_createBooking ib [seat] now s _ _ Hr), Hfind.
    cbn [option_map].
    now rewrite (proj2 (tripMatches_key _ _ trip)
                   (proj2 (findTrip_Some _ _ _ _ Hfind))).
  - cbn [BookingWithDetails.booking Booking.id Booking.of_insert].
    rewrite (surjective_pairing
               (cancelBooking (bookingIdCounter s)
                  (afterBooking ib [seat] now s))).
    rewrite Hres. reflexivity.
  - pose proof (afterCancel_trip ib [seat] now s Hr
                  (InsertBooking.busId ib) (InsertBooking.travelDate ib))
      as Ht.
    rewrite Hfind in Ht.
    rewrite (seatAvailable_existing _ _ _ _ _ Ht).
    rewrite (seatAvailable_existing _ _ _ _ _ Hfind) in Havail.
    apply andb_true_iff in Havail. destruct Havail as [Ha Hb].
    apply andb_true_iff in Ha. destruct Ha as [Hl _].
    destruct (afterCancel_catalogue ib [seat] now s Hr) as (_ & _ & Hlay).
    unfold getBusSeatLayout in *. rewrite Hlay, Hl.
    rewrite (afterCancel_marked ib [seat] now s Hr trip seat Hfind
               (or_introl eq_refl)).
    rewrite afterCancel_booked by assumption. rewrite Hb. reflexivity.
  - rewrite (afterCancel_trip ib [seat] now s Hr). exact Hfind.
Qed.

Lemma booking_cancel_round_trip_witness :
  reachable tripOpened
  /\ findTrip 1 "2025-06-01" tripOpened = Some (Trip.mk 1 1 "2025-06-01" 30)
  /\ seatAvailable 1 "2025-06-01" "1A" tripOpened = true
  /\ exists s1 bwd s2 bwd',
       createBooking exampleRequest ["1A"] 0 tripOpened = (s1, Ok bwd)
       /\ seatAvailable 1 "2025-06-01" "1A" s1 = false
       /\ findTrip 1 "2025-06-01" s1 = Some (Trip.mk 1 1 "2025-06-01" 29)
       /\ cancelBooking (Booking.id (BookingWithDetails.booking bwd)) s1
          = (s2, Ok bwd')
       /\ seatAvailable 1 "2025-06-01" "1A" s2 = true
       /\ findTrip 1 "2025-06-01" s2 = Some (Trip.mk 1 1 "2025-06-01" 30).
Proof.
  assert (Hr : reachable tripOpened).
  { exists [OpGetSeatAvailability 1 "2025-06-01"]. vm_compute. reflexivity. }
  assert (Hf : findTrip (InsertBooking.busId exampleRequest)
                 (InsertBooking.travelDate exampleRequest) tripOpened
               = Some (Trip.mk 1 1 "2025-06-01" 30))
    by (vm_compute; reflexivity).
  assert (Ha : seatAvailable (InsertBooking.busId exampleRequest)
                 (InsertBooking.travelDate exampleRequest) "1A" tripOpened
               = true) by (vm_compute; reflexivity).
  assert (Hbus : getBus (InsertBooking.busId exampleRequest) tripOpened
                 = Ok (Some karnatakaExpress)) by (vm_compute; reflexivity).
  split; [exact Hr|]. split; [exact Hf|]. split; [exact Ha|].
  exact (booking_cancel_round_trip exampleRequest "1A" 0 tripOpened
           (Trip.mk 1 1 "2025-06-01" 30) karnatakaExpress Hr Hf Ha Hbus).
Defined.

(** ** C6: lazy, idempotent trip creation

    First the calls that run one after the other, then the calls that are
    started together. *)

(** With distinct trip keys, the trips of a bus and date are the one that
    [find] returns, if any. *)
Lemma filter_unique_key busId date (l : list Trip.t) :
  NoDup (map tripKey l) ->
  filter (tripMatches busId date) l
  = match find (tripMatches busId date) l with
    | Some t => [t]
    | None => []
    end.
Proof.
  induction l as [|x l IH]; simpl; intros Hnd; [reflexivity|].
  inversion Hnd as [|? ? Hni Hnd']; subst.
  destruct (tripMatches busId date x) eqn:Hm; [|auto].
  f_equal. apply filter_nil. intros y Hy.
  destruct (tripMatches busId date y) eqn:Hy'; [|reflexivity].
  exfalso. apply Hni. apply tripMatches_key in Hm, Hy'.
  rewrite Hm, <- Hy'. now apply in_map.
Qed.

Lemma tripsFor_findTrip busId date s :
  WF s ->
  tripsFor busId date s
  = match findTrip busId date s with Some t => [t] | None => [] end.
Proof. intros Hwf. apply filter_unique_key. apply Hwf. Qed.

Lemma bookedSeats_ext busId date s s' :
  bookings s' = bookings s -> bookingDetails s' = bookingDetails s ->
  bookedSeats busId date s' = bookedSeats busId date s.
Proof. unfold bookedSeats, detailsOf. now intros -> ->. Qed.

Lemma run_repeat_fixed o s1 :
  step s1 o = s1 -> forall n, run (repeat o n) s1 = s1.
Proof.
  intros H n. unfold run. induction n as [|n IH]; simpl; [reflexivity|].
  now rewrite H.
Qed.

(** X26. Calls that run one after the other share the trip. In every
    reachable store, that is after any history of calls each of which
    ran to completion before the next one started, there is at most one
    trip per bus and date. When [getSeatAvailability] succeeds on such a
    store, exactly one trip for the bus and date exists afterwards; any
    number of further calls for the same key, one after the other, changes
    nothing in the store, finds that same trip and returns the same report.
    If the trip was there before, the call wrote nothing; if it was not,
    the call appended it under the next trip id with [availableSeats] equal
    to the bus's [totalSeats] and wrote an entry with [isAvailable] true for
    every seat of the layout; such a seat is reported available unless a
    confirmed booking made before the trip existed holds it. *)
Theorem lazy_trip_creation s busId date :
  reachable s ->
  (List.length (tripsFor busId date s) <= 1)%nat
  /\ forall r,
       snd (getSeatAvailability busId date s) = Ok r ->
       let s1 := fst (getSeatAvailability busId date s) in
       exists trip,
         tripsFor busId date s1 = [trip]
         /\ findTrip busId date s1 = Some trip
         /\ (forall n,
               run (repeat (OpGetSeatAvailability busId date) n) s1 = s1)
         /\ getSeatAvailability busId date s1 = (s1, Ok r)
         /\ match findTrip busId date s with
            | Some t => t = trip /\ s1 = s
            | None =>
                exists bus,
                  getBus busId s = Ok (Some bus)
                  /\ trip = Trip.mk (tripIdCounter s) busId date
                              (Bus.totalSeats (BusWithCities.bus bus))
                  /\ trips s1 = trips s ++ [(tripIdCounter s, trip)]
                  /\ forall l,
                       In l (getBusSeatLayout busId s) ->
                       mget String.eqb
                         (seatKey (Trip.id trip) (SeatLayout.seatNumber l))
                         (tripSeatAvailability s1)
                       = Some (TripSeatAvailability.mk (Trip.id trip)
                                 (SeatLayout.seatNumber l) true)
                       /\ (shas (SeatLayout.seatNumber l)
                             (bookedSeats busId date s) = false ->
                           listedAvailable (SeatLayout.seatNumber l) r = true)
            end.
Proof.
  intros Hr. apply reachable_WF in Hr. split.
  { rewrite (tripsFor_findTrip _ _ _ Hr).
    destruct (findTrip busId date s); simpl; lia. }
  intros r Hres s1.
  pose proof (WF_getSeatAvailability busId date s Hr) as Hwf1. fold s1 in Hwf1.
  destruct (findTrip busId date s) as [t|] eqn:Hfind.
  - (* the trip was there *)
    pose proof (getSeatAvailability_existing _ _ _ _ Hfind) as E.
    assert (Es : s1 = s) by (subst s1; now rewrite E).
    rewrite E in Hres. cbn [snd] in Hres. injection Hres as <-.
    rewrite Es. exists t.
    split; [rewrite (tripsFor_findTrip _ _ _ Hr); now rewrite Hfind|].
    split; [exact Hfind|].
    split; [apply run_repeat_fixed; simpl; now rewrite E|].
    split; [exact E | split; reflexivity].
  - (* the trip is created *)
    destruct (getBus busId s) as [[bus|]|e] eqn:Hbus.
    2,3: unfold getSeatAvailability, getOrCreateTrip in Hres;
         rewrite Hfind, Hbus in Hres; discriminate.
    pose proof (getSeatAvailability_create _ _ _ _ Hr Hfind Hbus) as E.
    cbv zeta in E.
    set (trip := Trip.mk (tripIdCounter s) busId date
                   (Bus.totalSeats (BusWithCities.bus bus))) in *.
    assert (Hf1 : findTrip busId date s1 = Some trip).
    { subst s1. rewrite E. cbn [fst]. unfold findTrip, mvalues.
      cbn [trips]. rewrite map_app, find_app_split.
      unfold findTrip, mvalues in Hfind. rewrite Hfind. simpl.
      unfold tripMatches. cbn [Trip.busId Trip.date trip].
      now rewrite Z.eqb_refl, String.eqb_refl. }
    pose proof (getSeatAvailability_existing _ _ _ _ Hf1) as E1.
    assert (Hlay : getBusSeatLayout busId s1 = getBusSeatLayout busId s).
    { subst s1. now rewrite E. }
    rewrite E in Hres. cbn [snd] in Hres. injection Hres as <-.
    exists trip.
    split; [rewrite (tripsFor_findTrip _ _ _ Hwf1); now rewrite Hf1|].
    split; [exact Hf1|].
    split; [apply run_repeat_fixed; simpl; now rewrite E1|].
    split.
    { rewrite E1, Hlay. subst s1. now rewrite E. }
    exists bus. split; [reflexivity|]. split; [reflexivity|].
    split; [subst s1; now rewrite E|].
    intros l Hl.
    assert (Hin : In (SeatLayout.seatNumber l)
                    (map SeatLayout.seatNumber (getBusSeatLayout busId s)))
      by now apply in_map.
    assert (Hmark :
      mget String.eqb (seatKey (Trip.id trip) (SeatLayout.seatNumber l))
        (tripSeatAvailability s1)
      = Some (TripSeatAvailability.mk (Trip.id trip)
                (SeatLayout.seatNumber l) true)).
    { subst s1. rewrite E. cbn [fst tripSeatAvailability].
      now apply markSeats_in. }
    split; [exact Hmark|]. intros Hfree.
    rewrite listedAvailable_seatReport.
    change (tripSeatAvailability _) with (tripSeatAvailability s1) in Hmark.
    assert (Hs1 : fst (getSeatAvailability busId date s) = s1) by reflexivity.
    rewrite E in Hs1. cbn [fst] in Hs1. rewrite Hs1, Hmark.
    rewrite (bookedSeats_ext busId date s s1)
      by (subst s1; now rewrite E). rewrite Hfree.
    cbn [notMarkedUnavailable TripSeatAvailability.isAvailable negb].
    rewrite !andb_true_r. apply existsb_exists. exists l.
    split; [exact Hl | apply String.eqb_refl].
Qed.

Lemma lazy_trip_creation_witness :
  reachable initialStorage
  /\ findTrip 3 "2025-06-01" initialStorage = None
  /\ exists r,
       snd (getSeatAvailability 3 "2025-06-01" initialStorage) = Ok r
       /\ tripsFor 3 "2025-06-01"
            (fst (getSeatAvailability 3 "2025-06-01" initialStorage))
          = [Trip.mk 1 3 "2025-06-01" 25]
       /\ forall n,
            run (repeat (OpGetSeatAvailability 3 "2025-06-01") n)
              (fst (getSeatAvailability 3 "2025-06-01" initialStorage))
            = fst (getSeatAvailability 3 "2025-06-01" initialStorage).
Proof.
  assert (Hr : reachable initialStorage) by (exists []; reflexivity).
  assert (Hn : findTrip 3 "2025-06-01" initialStorage = None)
    by (vm_compute; reflexivity).
  assert (Hf : findTrip 3 "2025-06-01"
                 (fst (getSeatAvailability 3 "2025-06-01" initialStorage))
               = Some (Trip.mk 1 3 "2025-06-01" 25))
    by (vm_compute; reflexivity).
  split; [exact Hr|]. split; [exact Hn|].
  destruct (lazy_trip_creation initialStorage 3 "2025-06-01" Hr) as [_ H].
  destruct (snd (getSeatAvailability 3 "2025-06-01" initialStorage))
    as [r|e] eqn:E.
  - exists r. split; [reflexivity|].
    destruct (H r eq_refl) as (trip & Ht & Hf' & Hrep & _).
    rewrite Hf in Hf'. injection Hf' as <-.
    split; [exact Ht | exact Hrep].
  - exfalso. vm_compute in E. discriminate E.
Defined.

(** A single call, with nothing started beside it, is the call that runs to
    completion. *)
Lemma startedTogether_one busId date s :
  startedTogether [(busId, date)] s
  = (fst (getSeatAvailability busId date s),
     [Settled (snd (getSeatAvailability busId date s))]).
Proof.
  unfold startedTogether, startSeatQuery, getSeatAvailability,
    getOrCreateTrip.
  cbn [map fst snd resumeAll resume].
  destruct (findTrip busId date s) as [trip|]; [reflexivity|].
  cbn [resumeAll resume].
  destruct (getBus busId s) as [[bus|]|e]; reflexivity.
Qed.

Lemma resumeAll_layout n busId date layout s :
  findTrip busId date s = None ->
  resumeAll (repeat (AwaitsLayout busId date layout) n) s
  = (s, repeat (AwaitsBus busId date layout (getBus busId s)) n).
Proof.
  intros Hnone. induction n as [|n IH]; [reflexivity|].
  cbn [repeat resumeAll resume]. now rewrite Hnone, IH.
Qed.

Lemma resumeAll_bus n busId date layout bus :
  forall s,
    (forall k t, In (k, t) (trips s) -> k < tripIdCounter s) ->
    trips (fst (resumeAll
                  (repeat (AwaitsBus busId date layout (Ok (Some bus))) n) s))
    = trips s
      ++ newTrips (tripIdCounter s) n busId date
           (Bus.totalSeats (BusWithCities.bus bus))
    /\ forallb returnedReport
         (snd (resumeAll
                 (repeat (AwaitsBus busId date layout (Ok (Some bus))) n) s))
       = true.
Proof.
  induction n as [|n IH]; intros s Hb.
  - cbn [repeat resumeAll fst snd newTrips forallb].
    now rewrite app_nil_r.
  - cbn [repeat resumeAll resume].
    set (trip := Trip.mk (tripIdCounter s) busId date
                   (Bus.totalSeats (BusWithCities.bus bus))).
    set (s2 := with_tripSeatAvailability _ _).
    assert (Ht : trips s2 = trips s ++ [(tripIdCounter s, trip)]).
    { subst s2. cbn [trips with_tripSeatAvailability with_trips].
      apply mset_fresh. now apply fresh_key. }
    assert (Hc : tripIdCounter s2 = tripIdCounter s + 1) by reflexivity.
    assert (Hb2 : forall k t, In (k, t) (trips s2) -> k < tripIdCounter s2).
    { intros k t. rewrite Ht, Hc. intros Hin. apply in_app_or in Hin.
      destruct Hin as [Hin|[[= <- _]|[]]]; [apply Hb in Hin|]; lia. }
    destruct (IH s2 Hb2) as (IH1 & IH2).
    destruct (resumeAll _ s2) as [s3 rest]. cbn [fst snd] in *.
    split.
    + rewrite IH1, Ht, Hc, <- app_assoc. reflexivity.
    + cbn [forallb returnedReport]. exact IH2.
Qed.

Lemma newTrips_match c n busId date totalSeats :
  filter (tripMatches busId date) (mvalues (newTrips c n busId date totalSeats))
  = mvalues (newTrips c n busId date totalSeats).
Proof.
  revert c. induction n as [|n IH]; intros c; [reflexivity|].
  cbn [newTrips mvalues map snd filter]. unfold tripMatches at 1.
  cbn [Trip.busId Trip.date]. rewrite Z.eqb_refl, String.eqb_refl.
  cbn [andb]. f_equal. apply IH.
Qed.

Lemma newTrips_length c n busId date totalSeats :
  List.length (newTrips c n busId date totalSeats) = n.
Proof.
  revert c. induction n as [|n IH]; intros c; simpl; [reflexivity|].
  now rewrite IH.
Qed.

(** C6, where the code fails. Calls of [getSeatAvailability] for one bus and
    date that are started together do not share a trip. On a reachable store
    that has no trip for the bus and date and can fetch the bus, each of [n]
    such calls finds no trip before any of them has stored one, so each
    stores a trip of its own: afterwards the store holds [n] trips for the
    bus and date, under the next [n] trip ids, and every call has returned a
    report. The lookup that is to keep the trip unique comes before an
    [await], the write after it. *)
Theorem queries_started_together_duplicate_trip n busId date bus s :
  reachable s ->
  findTrip busId date s = None ->
  getBus busId s = Ok (Some bus) ->
  tripsFor busId date (fst (startedTogether (repeat (busId, date) n) s))
  = mvalues (newTrips (tripIdCounter s) n busId date
               (Bus.totalSeats (BusWithCities.bus bus)))
  /\ List.length
       (tripsFor busId date (fst (startedTogether (repeat (busId, date) n) s)))
     = n
  /\ forallb returnedReport
       (snd (startedTogether (repeat (busId, date) n) s))
     = true.
Proof.
  intros Hr Hnone Hbus. pose proof (reachable_WF s Hr) as Hwf.
  unfold startedTogether. rewrite map_repeat. cbn [fst snd].
  unfold startSeatQuery.
  rewrite (resumeAll_layout n busId date _ s Hnone), Hbus.
  destruct (resumeAll_bus n busId date (getBusSeatLayout busId s) bus s
              (wf_trip_below s Hwf)) as (Ht & Hok).
  assert (E : tripsFor busId date
                (fst (resumeAll
                        (repeat (AwaitsBus busId date
                                   (getBusSeatLayout busId s) (Ok (Some bus)))
                           n) s))
              = mvalues (newTrips (tripIdCounter s) n busId date
                           (Bus.totalSeats (BusWithCities.bus bus)))).
  { unfold tripsFor. rewrite Ht. unfold mvalues at 1.
    rewrite map_app, filter_app.
    fold (mvalues (trips s)).
    fold (mvalues (newTrips (tripIdCounter s) n busId date
                     (Bus.totalSeats (BusWithCities.bus bus)))).
    rewrite newTrips_match.
    rewrite (filter_nil _ (mvalues (trips s))); [reflexivity|].
    intros t Hin. unfold findTrip in Hnone.
    exact (find_none _ _ Hnone t Hin). }
  split; [exact E|]. split; [|exact Hok].
  rewrite E. unfold mvalues. now rewrite length_map, newTrips_length.
Qed.

Lemma queries_started_together_duplicate_trip_witness :
  reachable initialStorage
  /\ tripsFor 3 "2025-06-01" initialStorage = []
  /\ List.length
       (tripsFor 3 "2025-06-01"
          (fst (startedTogether (repeat (3, "2025-06-01") 50)
                  initialStorage)))
     = 50%nat
  /\ forallb returnedReport
       (snd (startedTogether (repeat (3, "2025-06-01") 50) initialStorage))
     = true.
Proof.
  assert (Hr : reachable initialStorage) by (exists []; reflexivity).
  assert (Hn : findTrip 3 "2025-06-01" initialStorage = None)
    by (vm_compute; reflexivity).
  assert (Hb : exists bus, getBus 3 initialStorage = Ok (Some bus)).
  { vm_compute. eexists. reflexivity. }
  assert (He : tripsFor 3 "2025-06-01" initialStorage = [])
    by (vm_compute; reflexivity).
  destruct Hb as (bus & Hb).
  destruct (queries_started_together_duplicate_trip 50 3 "2025-06-01" bus
              initialStorage Hr Hn Hb) as (_ & Hl & Hok).
  split; [exact Hr|]. split; [exact He|]. split; [exact Hl | exact Hok].
Defined.

(** ** C7: a query for an unknown bus *)

(** C7. When [getSeatAvailability] is called for a bus and date that have no
    trip and the bus does not exist, the call fails with the error
    "Bus not found with id ..." and the store is exactly as before: no trip
    and no seat entry was added. *)
Theorem getSeatAvailability_unknown_bus busId date s :
  findTrip busId date s = None ->
  mget Z.eqb busId (buses s) = None ->
  getSeatAvailability busId date s
  = (s, Throw (JsError ("Bus not found with id "
                          ++ num_to_string busId)%string)).
Proof.
  intros Hfind Hbus. unfold getSeatAvailability, getOrCreateTrip, getBus.
  now rewrite Hfind, Hbus.
Qed.

Lemma getSeatAvailability_unknown_bus_witness :
  findTrip 9 "2025-06-01" initialStorage = None
  /\ mget Z.eqb 9 (buses initialStorage) = None
  /\ getSeatAvailability 9 "2025-06-01" initialStorage
     = (initialStorage, Throw (JsError "Bus not found with id 9")).
Proof.
  assert (Hf : findTrip 9 "2025-06-01" initialStorage = None)
    by (vm_compute; reflexivity).
  assert (Hb : mget Z.eqb 9 (buses initialStorage) = None)
    by (vm_compute; reflexivity).
  split; [exact Hf|]. split; [exact Hb|].
  exact (getSeatAvailability_unknown_bus 9 "2025-06-01" initialStorage Hf Hb).
Defined.

(** ** C8: holding a seat *)

(** C8. The storage layer defines neither [holdSeat] nor [releaseSeat], and
    the handler's module does not bind [storage]: the ['hold-seat'] handler
    fails at its first call, so no 'held' event is emitted and no release
    timer is scheduled, whatever the bus and seat. *)
Theorem hold_seat_handler_fails busId seatNumber :
  hasMethod "holdSeat" = false
  /\ hasMethod "releaseSeat" = false
  /\ onHoldSeat busId seatNumber
     = ([], Throw (JsError "storage is not defined")).
Proof. repeat split. Qed.

(** ** C9: what a cancellation changes in the ledger *)

(** C9. [cancelBooking] changes nothing of a booking but its status: for a
    booking stored under the id, the stored record afterwards is the old one
    with status 'cancelled'; the booking that is returned has status
    'cancelled' and the id, userId, busId, travelDate, bookingDate,
    totalAmount, paymentStatus and seat list that [getBooking] showed before
    the call, and it is returned whenever [getBooking] returned it before;
    no detail and no other booking's record is changed. *)
Theorem cancelBooking_changes_status_only id s b0 :
  mget Z.eqb id (bookings s) = Some b0 ->
  let s' := fst (cancelBooking id s) in
  (exists b1, mget Z.eqb id (bookings s') = Some b1
              /\ Booking.status b1 = "cancelled"
              /\ sameExceptStatus b1 b0)
  /\ (forall id', id' <> id ->
                  mget Z.eqb id' (bookings s') = mget Z.eqb id' (bookings s))
  /\ bookingDetails s' = bookingDetails s
  /\ (forall before,
        getBooking id s = Ok (Some before) ->
        exists after,
          snd (cancelBooking id s) = Ok after
          /\ Booking.status (BookingWithDetails.booking after) = "cancelled"
          /\ sameExceptStatus (BookingWithDetails.booking after)
                (BookingWithDetails.booking before)
          /\ BookingWithDetails.seats after = BookingWithDetails.seats before)
  /\ (forall after,
        snd (cancelBooking id s) = Ok after ->
        Booking.status (BookingWithDetails.booking after) = "cancelled"
        /\ sameExceptStatus (BookingWithDetails.booking after) b0
        /\ BookingWithDetails.seats after
           = map BookingDetail.seatNumber (detailsOf (Booking.id b0) s)).
Proof.
  intros Hget s'. pose proof (cancelBooking_result id s b0 Hget) as Hres.
  subst s'. rewrite (cancelBooking_eq id s b0 Hget) in *.
  cbn [fst snd bookings bookingDetails] in *.
  split; [|split; [|split; [|split]]].
  - exists (Booking.set_status "cancelled" b0).
    split; [apply (mget_mset_same Z.eqb_spec)|].
    split; [reflexivity | repeat split].
  - intros id' Hne. apply (mget_mset_other Z.eqb_spec). congruence.
  - reflexivity.
  - intros before Hb. unfold getBooking in Hb. rewrite Hget in Hb.
    destruct (getBookingWithDetails b0 s) as [bwd|e] eqn:E; [|discriminate].
    injection Hb as <-. eexists. split; [exact Hres|].
    unfold getBookingWithDetails in E.
    destruct (getBus (Booking.busId b0) s) as [[bus|]|e];
      try discriminate.
    injection E as <-. cbn. split; [reflexivity|].
    split; [repeat split | reflexivity].
  - intros after Ha. rewrite Hres in Ha.
    unfold getBookingWithDetails in Ha.
    destruct (getBus (Booking.busId b0) s) as [[bus|]|e];
      try discriminate.
    injection Ha as <-. cbn. split; [reflexivity|].
    split; [repeat split | reflexivity].
Qed.

Lemma cancelBooking_changes_status_only_witness :
  mget Z.eqb 1 (bookings seat2BBooked)
  = Some (Booking.mk 1 7 1 "2025-06-01" 0 "confirmed" 4500 "paid")
  /\ exists after,
       snd (cancelBooking 1 seat2BBooked) = Ok after
       /\ Booking.status (BookingWithDetails.booking after) = "cancelled"
       /\ sameExceptStatus (BookingWithDetails.booking after)
            (Booking.mk 1 7 1 "2025-06-01" 0 "confirmed" 4500 "paid")
       /\ BookingWithDetails.seats after = ["2B"].
Proof.
  assert (Hg : mget Z.eqb 1 (bookings seat2BBooked)
               = Some (Booking.mk 1 7 1 "2025-06-01" 0 "confirmed" 4500 "paid"))
    by (vm_compute; reflexivity).
  assert (Hb : getBooking 1 seat2BBooked
               = Ok (Some (BookingWithDetails.mk
                             (Booking.mk 1 7 1 "2025-06-01" 0 "confirmed"
                                4500 "paid")
                             karnatakaExpress
                             (City.mk 1 "Bangalore, Karnataka")
                             (City.mk 2 "Hyderabad, Telangana")
                             ["2B"])))
    by (vm_compute; reflexivity).
  destruct (cancelBooking_changes_status_only 1 seat2BBooked _ Hg)
    as (_ & _ & _ & Hret & _).
  split; [exact Hg|].
  destruct (Hret _ Hb) as (after & E & Hs & Hsame & Hseats).
  exists after. split; [exact E|]. split; [exact Hs|].
  split; [exact Hsame | exact Hseats].
Defined.

(** ** C10: a booking made before the trip exists *)

(** C10, the claim as stated fails. The seeded store has no trip at all.
    A confirmed request for bus 99, which is not in the store, is not
    returned: the call throws, after the booking was stored. A request with
    status pending for bus 1 is returned, as pending. *)
Lemma booking_without_trip_not_returned_confirmed :
  findTrip 99 "2025-06-01" initialStorage = None
  /\ snd (createBooking ghostRequest ["1A"] 0 initialStorage)
     = Throw (JsError "Bus not found for booking 1")
  /\ option_map Booking.status
       (mget Z.eqb 1
          (bookings (fst (createBooking ghostRequest ["1A"] 0
                            initialStorage))))
     = Some "confirmed"
  /\ findTrip 1 "2025-06-01" initialStorage = None
  /\ option_map
       (fun b => Booking.status (BookingWithDetails.booking b))
       (returned (snd (createBooking pendingRequest ["1A"] 0 initialStorage)))
     = Some "pending".
Proof. vm_compute. repeat split. Qed.

(** C10, amended. If no trip exists for the booking's bus and travel date
    when [createBooking] is called, the booking and one detail per seat are
    still stored, the booking with the status the request gives (confirmed
    for a confirmed request), while the trips map and the per-trip seat map
    are left exactly as they were: no counter is lowered and no seat is
    marked. What the call returns depends on the bus alone: the stored
    booking with its seats when the bus and its cities can be fetched; the
    error "Bus not found for booking ..." when the bus is not in the store,
    and the error of [getBus] when a city of the bus is missing, in both
    cases with the booking left in the store. *)
Theorem createBooking_without_trip ib seats now s :
  reachable s ->
  findTrip (InsertBooking.busId ib) (InsertBooking.travelDate ib) s = None ->
  let booking := Booking.of_insert (bookingIdCounter s) now ib in
  let s1 := fst (createBooking ib seats now s) in
  trips s1 = trips s
  /\ tripSeatAvailability s1 = tripSeatAvailability s
  /\ mget Z.eqb (bookingIdCounter s) (bookings s1) = Some booking
  /\ Booking.status booking = InsertBooking.status ib
  /\ bookingDetails s1
     = bookingDetails s
       ++ newDetails (bookingDetailIdCounter s) (bookingIdCounter s) seats
  /\ map BookingDetail.seatNumber (detailsOf (bookingIdCounter s) s1) = seats
  /\ snd (createBooking ib seats now s)
     = match getBus (InsertBooking.busId ib) s with
       | Ok (Some bus) =>
           Ok (BookingWithDetails.mk booking bus (BusWithCities.fromCity bus)
                 (BusWithCities.toCity bus) seats)
       | Ok None =>
           Throw (JsError ("Bus not found for booking "
                             ++ num_to_string (bookingIdCounter s))%string)
       | Throw e => Throw e
       end.
Proof.
  intros Hr Hnone booking s1. apply reachable_WF in Hr.
  pose proof (detailsOf_created ib seats now s Hr) as Hd. fold s1 in Hd.
  repeat split.
  - subst s1. rewrite (createBooking_eq ib seats now s Hr). cbn [fst trips].
    now rewrite Hnone.
  - subst s1. rewrite (createBooking_eq ib seats now s Hr).
    cbn [fst tripSeatAvailability]. now rewrite Hnone.
  - subst s1. rewrite (createBooking_eq ib seats now s Hr). cbn [fst bookings].
    apply mget_appended. apply Hr.
  - subst s1. now rewrite (createBooking_eq ib seats now s Hr).
  - rewrite Hd. apply newDetails_seats.
  - rewrite (createBooking_snd ib seats now s Hr). unfold afterBooking.
    fold s1. fold booking. unfold getBookingWithDetails.
    assert (Hg : getBus (Booking.busId booking) s1
                 = getBus (InsertBooking.busId ib) s).
    { apply getBus_ext; subst s1;
        now rewrite (createBooking_eq ib seats now s Hr). }
    rewrite Hg.
    destruct (getBus (InsertBooking.busId ib) s) as [[bus|]|e];
      [|reflexivity..].
    cbn [Booking.id booking Booking.of_insert].
    now rewrite Hd, newDetails_seats.
Qed.

Lemma createBooking_without_trip_witness :
  reachable initialStorage
  /\ findTrip 1 "2025-06-01" initialStorage = None
  /\ trips (fst (createBooking exampleRequest ["1A"; "1B"] 0 initialStorage))
     = trips initialStorage
  /\ tripSeatAvailability
       (fst (createBooking exampleRequest ["1A"; "1B"] 0 initialStorage))
     = tripSeatAvailability initialStorage
  /\ snd (createBooking exampleRequest ["1A"; "1B"] 0 initialStorage)
     = Ok (BookingWithDetails.mk
             (Booking.mk 1 7 1 "2025-06-01" 0 "confirmed" 4500 "paid")
             karnatakaExpress (City.mk 1 "Bangalore, Karnataka")
             (City.mk 2 "Hyderabad, Telangana") ["1A"; "1B"]).
Proof.
  assert (Hr : reachable initialStorage) by (exists []; reflexivity).
  assert (Hn : findTrip (InsertBooking.busId exampleRequest)
                 (InsertBooking.travelDate exampleRequest) initialStorage
               = None) by (vm_compute; reflexivity).
  assert (Hbus : getBus (InsertBooking.busId exampleRequest) initialStorage
                 = Ok (Some karnatakaExpress)) by (vm_compute; reflexivity).
  assert (Hc : bookingIdCounter initialStorage = 1)
    by (vm_compute; reflexivity).
  destruct (createBooking_without_trip exampleRequest ["1A"; "1B"] 0
              initialStorage Hr Hn) as (H1 & H2 & _ & _ & _ & _ & H7).
  split; [exact Hr|]. split; [exact Hn|]. split; [exact H1|].
  split; [exact H2|].
  rewrite H7, Hbus, Hc. reflexivity.
Defined.

(** * Further properties *)

(** ** More invariants of the reachable stores *)

Section JsMapDelete.
Variable K : Type.
Variable keq : K -> K -> bool.
Hypothesis keq_spec : forall a b, reflect (a = b) (keq a b).
Variable V : Type.
Implicit Types (m : JsMap K V) (k : K) (v : V).

Lemma mkeys_mdelete_in k k' m :
  In k' (mkeys (mdelete keq k m)) -> In k' (mkeys m).
Proof.
  induction m as [|[k0 v0] m IH]; simpl; [tauto|].
  destruct (keq k k0); simpl; [now right|].
  intros [<-|H]; [now left | right; auto].
Qed.

Lemma NoDup_mkeys_mdelete k m :
  NoDup (mkeys m) -> NoDup (mkeys (mdelete keq k m)).
Proof.
  induction m as [|[k0 v0] m IH]; simpl; intros Hnd; [constructor|].
  inversion Hnd as [|? ? Hni Hnd']; subst.
  destruct (keq k k0); simpl; [assumption|].
  constructor; [|auto]. intros H. apply Hni.
  now apply mkeys_mdelete_in in H.
Qed.

Lemma mget_mdelete_same k m :
  NoDup (mkeys m) -> mget keq k (mdelete keq k m) = None.
Proof.
  induction m as [|[k0 v0] m IH]; simpl; intros Hnd; [reflexivity|].
  inversion Hnd as [|? ? Hni Hnd']; subst.
  destruct (keq_spec k k0) as [->|Hne].
  - apply (mget_None_notin keq_spec). exact Hni.
  - simpl. destruct (keq_spec k k0); [contradiction | auto].
Qed.

Lemma mget_mdelete_other k k' m :
  k <> k' -> mget keq k' (mdelete keq k m) = mget keq k' m.
Proof.
  intros Hne. induction m as [|[k0 v0] m IH]; simpl; [reflexivity|].
  destruct (keq_spec k k0) as [->|Hne0]; simpl.
  - destruct (keq_spec k' k0); [congruence | reflexivity].
  - now rewrite IH.
Qed.

End JsMapDelete.

Arguments mkeys_mdelete_in {K keq V} k k' m.
Arguments NoDup_mkeys_mdelete {K keq V} k m.
Arguments mget_mdelete_same {K keq} keq_spec {V} k m.
Arguments mget_mdelete_other {K keq} keq_spec {V} k k' m.

(** What the catalogue operations leave alone, and what the ledger
    operations leave alone. *)
Lemma createSeatLayout_buses l s :
  buses (fst (createSeatLayout l s)) = buses s
  /\ busIdCounter (fst (createSeatLayout l s)) = busIdCounter s
  /\ cities (fst (createSeatLayout l s)) = cities s.
Proof. repeat split. Qed.

Lemma fold_keeps {A B : Type} (proj : MemStorage -> B)
  (f : MemStorage -> A -> MemStorage) (l : list A) :
  (forall s a, proj (f s a) = proj s) ->
  forall s, proj (fold_left f l s) = proj s.
Proof.
  intros Hf. induction l as [|a l IH]; intros s; simpl; [reflexivity|].
  now rewrite IH, Hf.
Qed.

Lemma createDefaultSeatLayout_keeps {B : Type} (proj : MemStorage -> B)
  busId s :
  (forall l s, proj (fst (createSeatLayout l s)) = proj s) ->
  proj (createDefaultSeatLayout busId s) = proj s.
Proof.
  intros H. unfold createDefaultSeatLayout. apply fold_keeps.
  intros s1 row. apply fold_keeps. intros s2 col.
  destruct (defaultSeat busId row col); [apply H | reflexivity].
Qed.

Lemma createDefaultSeatLayout_layout_below busId s :
  (forall k l, In (k, l) (seatLayouts s) -> k < seatLayoutIdCounter s) ->
  forall k l,
    In (k, l) (seatLayouts (createDefaultSeatLayout busId s)) ->
    k < seatLayoutIdCounter (createDefaultSeatLayout busId s).
Proof.
  unfold createDefaultSeatLayout.
  assert (Hone : forall s a,
    (forall k l, In (k, l) (seatLayouts s) -> k < seatLayoutIdCounter s) ->
    forall k l, In (k, l) (seatLayouts (fst (createSeatLayout a s))) ->
                k < seatLayoutIdCounter (fst (createSeatLayout a s))).
  { intros s0 a H k l Hin. simpl in *. apply (in_mset Z.eqb_spec) in Hin.
    destruct Hin as [[= -> ->]|Hin]; [lia|]. apply H in Hin. lia. }
  assert (Hfold : forall (A : Type) (f : MemStorage -> A -> MemStorage)
                         (xs : list A),
    (forall s a,
        (forall k l, In (k, l) (seatLayouts s) -> k < seatLayoutIdCounter s) ->
        forall k l, In (k, l) (seatLayouts (f s a)) ->
                    k < seatLayoutIdCounter (f s a)) ->
    forall s,
      (forall k l, In (k, l) (seatLayouts s) -> k < seatLayoutIdCounter s) ->
      forall k l, In (k, l) (seatLayouts (fold_left f xs s)) ->
                  k < seatLayoutIdCounter (fold_left f xs s)).
  { intros A f xs Hf. induction xs as [|a xs IH]; intros s0 H; simpl.
    - exact H.
    - apply IH. now apply Hf. }
  revert s. apply Hfold. intros s1 row H1. apply Hfold; [|exact H1].
  intros s2 col H2. destruct (defaultSeat busId row col); [|exact H2].
  now apply Hone.
Qed.

Lemma WFC_emptyStorage : WFC emptyStorage.
Proof.
  constructor; simpl; try (intros; contradiction); try constructor.
Qed.

Lemma WF_emptyStorage : WF emptyStorage.
Proof.
  constructor; simpl; try (intros; contradiction); try constructor.
Qed.

Lemma initialStorage_seedOps : initialStorage = run seedOps emptyStorage.
Proof. vm_compute. reflexivity. Qed.

Lemma trips_counter_positive s busId date n k t :
  WF s -> WFC s ->
  In (k, t)
    match findTrip busId date s with
    | Some trip =>
        mset Z.eqb (Trip.id trip)
          (Trip.set_availableSeats (Trip.availableSeats trip + n) trip)
          (trips s)
    | None => trips s
    end ->
  0 < k.
Proof.
  intros Hwf Hc Hin. destruct (findTrip busId date s) as [trip|] eqn:E.
  - apply (in_mset Z.eqb_spec) in Hin.
    destruct Hin as [[= -> _]|Hin]; [|eapply wfc_trip_positive; eauto].
    eapply wfc_trip_positive; [exact Hc|]. eapply findTrip_In; eauto.
  - eapply wfc_trip_positive; eauto.
Qed.

Lemma WFC_step s o : WF s -> WFC s -> WFC (step s o).
Proof.
  intros Hwf Hc. destruct o as [name|b|id b|id|l|busId date|ib seats now|id].
  - destruct Hc. constructor; simpl; assumption.
  - (* createBus *)
    cbn [step]. unfold createBus. cbn [fst].
    set (s1 := with_buses _ _).
    assert (Hb : buses (createDefaultSeatLayout (busIdCounter s) s1)
                 = buses s ++ [(busIdCounter s,
                                Bus.of_insert (busIdCounter s) b)]).
    { rewrite (createDefaultSeatLayout_keeps buses) by reflexivity.
      subst s1. simpl.
      apply mset_fresh, fresh_key. apply Hc. }
    constructor.
    + rewrite Hb. intros k x H. apply in_app_or in H.
      destruct H as [H|[[= <- <-]|[]]]; [eapply wfc_bus_ids; eauto|].
      reflexivity.
    + rewrite Hb, (createDefaultSeatLayout_keeps busIdCounter) by reflexivity.
      subst s1. simpl. intros k x H. apply in_app_or in H.
      destruct H as [H|[[= <- <-]|[]]]; [|lia].
      apply (wfc_bus_below s Hc) in H. lia.
    + rewrite Hb. unfold mkeys. rewrite map_app. simpl.
      apply NoDup_app; [apply Hc | constructor; [intros [] | constructor] |].
      intros k Hk [<-|[]]. apply in_map_iff in Hk.
      destruct Hk as ([k x] & E & Hin). simpl in E. subst k.
      apply (wfc_bus_below s Hc) in Hin. lia.
    + apply createDefaultSeatLayout_layout_below. subst s1. simpl. apply Hc.
    + rewrite (createDefaultSeatLayout_keeps bookings) by reflexivity.
      subst s1. simpl. apply Hc.
    + rewrite (createDefaultSeatLayout_keeps trips) by reflexivity.
      subst s1. simpl. apply Hc.
    + rewrite (createDefaultSeatLayout_keeps tripIdCounter) by reflexivity.
      subst s1. simpl. apply Hc.
  - (* updateBus *)
    cbn [step]. unfold updateBus, mhas.
    destruct (mget Z.eqb id (buses s)) as [b0|] eqn:E; simpl; [|exact Hc].
    pose proof (mget_Some_in Z.eqb_spec _ _ _ E) as Hin0.
    constructor; simpl; try apply Hc.
    + intros k x H. apply (in_mset Z.eqb_spec) in H.
      destruct H as [[= -> ->]|H]; [reflexivity | eapply wfc_bus_ids; eauto].
    + intros k x H. apply (in_mset Z.eqb_spec) in H.
      destruct H as [[= -> ->]|H]; eapply wfc_bus_below; eauto.
    + apply (NoDup_mkeys_mset Z.eqb_spec). apply Hc.
  - (* deleteBus *)
    cbn [step]. constructor; simpl; try apply Hc.
    + intros k x H. apply in_mdelete in H. eapply wfc_bus_ids; eauto.
    + intros k x H. apply in_mdelete in H. eapply wfc_bus_below; eauto.
    + apply NoDup_mkeys_mdelete. apply Hc.
  - (* createSeatLayout *)
    cbn [step]. constructor; simpl; try apply Hc.
    intros k x H. apply (in_mset Z.eqb_spec) in H.
    destruct H as [[= -> ->]|H]; [lia|].
    apply (wfc_layout_below s Hc) in H. lia.
  - (* getSeatAvailability *)
    cbn [step]. destruct (findTrip busId date s) as [trip|] eqn:Hfind.
    { now rewrite (getSeatAvailability_existing _ _ _ _ Hfind). }
    destruct (getBus busId s) as [[bus|]|e] eqn:Hbus.
    2,3: unfold getSeatAvailability, getOrCreateTrip;
         rewrite Hfind, Hbus; exact Hc.
    rewrite (getSeatAvailability_create _ _ _ _ Hwf Hfind Hbus). cbn [fst].
    constructor; cbn [buses busIdCounter seatLayouts seatLayoutIdCounter
                      bookings trips tripIdCounter]; try apply Hc.
    + intros k x H. apply in_app_or in H.
      destruct H as [H|[[= <- <-]|[]]]; [eapply wfc_trip_positive; eauto|].
      apply Hc.
    + pose proof (wfc_trip_counter s Hc). lia.
  - (* createBooking *)
    cbn [step]. rewrite (createBooking_eq ib seats now s Hwf). cbn [fst].
    constructor; cbn [buses busIdCounter seatLayouts seatLayoutIdCounter
                      bookings trips tripIdCounter]; try apply Hc.
    + unfold mkeys. rewrite map_app. simpl.
      apply NoDup_app; [apply Hc | constructor; [intros [] | constructor] |].
      intros k Hk [<-|[]]. apply in_map_iff in Hk.
      destruct Hk as ([k x] & E & Hin). simpl in E. subst k.
      apply (wf_booking_below s Hwf) in Hin. lia.
    + intros k t H.
      exact (trips_counter_positive s _ _ (- Z.of_nat (List.length seats))
               k t Hwf Hc H).
  - (* cancelBooking *)
    cbn [step]. destruct (mget Z.eqb id (bookings s)) as [b0|] eqn:Hget.
    2:{ now rewrite cancelBooking_missing. }
    rewrite (cancelBooking_eq id s b0 Hget). cbn [fst].
    constructor; cbn [buses busIdCounter seatLayouts seatLayoutIdCounter
                      bookings trips tripIdCounter]; try apply Hc.
    + apply (NoDup_mkeys_mset Z.eqb_spec). apply Hc.
    + intros k t H. exact (trips_counter_positive s _ _ _ k t Hwf Hc H).
Qed.

Lemma WFC_run ops : forall s, WF s -> WFC s -> WFC (run ops s).
Proof.
  unfold run. induction ops as [|o ops IH]; intros s Hwf Hc; simpl.
  - exact Hc.
  - apply IH; [now apply WF_step | now apply WFC_step].
Qed.

Lemma reachable_WFC s : reachable s -> WFC s.
Proof.
  intros [ops ->]. rewrite initialStorage_seedOps.
  apply WFC_run.
  - apply WF_run, WF_emptyStorage.
  - apply WFC_run; [apply WF_emptyStorage | apply WFC_emptyStorage].
Qed.

(** ** Mapping a callback that may throw *)

Lemma mapResult_ext_in {A B : Type} (f g : A -> result B) (l : list A) :
  (forall x, In x l -> f x = g x) -> mapResult f l = mapResult g l.
Proof.
  induction l as [|x l IH]; simpl; intros H; [reflexivity|].
  rewrite (H x) by now left. rewrite IH; [reflexivity|].
  intros y Hy. apply H. now right.
Qed.

Lemma mapResult_app {A B : Type} (f : A -> result B) (l1 l2 : list A) :
  mapResult f (l1 ++ l2)
  = match mapResult f l1 with
    | Throw e => Throw e
    | Ok ys1 =>
        match mapResult f l2 with
        | Throw e => Throw e
        | Ok ys2 => Ok (ys1 ++ ys2)
        end
    end.
Proof.
  induction l1 as [|x l1 IH]; simpl.
  - destruct (mapResult f l2); reflexivity.
  - destruct (f x); [|reflexivity]. rewrite IH.
    destruct (mapResult f l1); [|reflexivity].
    destruct (mapResult f l2); reflexivity.
Qed.

Lemma mapResult_Ok {A B : Type} (f : A -> result B) (l : list A) ys :
  mapResult f l = Ok ys -> Forall2 (fun x y => f x = Ok y) l ys.
Proof.
  revert ys. induction l as [|x l IH]; simpl; intros ys H.
  - injection H as <-. constructor.
  - destruct (f x) as [y|e] eqn:E; [|discriminate].
    destruct (mapResult f l) as [ys'|e]; [|discriminate].
    injection H as <-. constructor; auto.
Qed.

Lemma mapResult_Throw {A B : Type} (f : A -> result B) (l : list A) e :
  mapResult f l = Throw e -> exists x, In x l /\ f x = Throw e.
Proof.
  induction l as [|x l IH]; simpl; [discriminate|].
  destruct (f x) as [y|e'] eqn:E.
  - destruct (mapResult f l) as [ys|e'']; [discriminate|].
    intros [= <-]. destruct (IH eq_refl) as (x' & Hin & Hx).
    exists x'. split; [now right | assumption].
  - intros [= <-]. exists x. split; [now left | assumption].
Qed.

Lemma mapResult_all_Ok {A B : Type} (f : A -> result B) (l : list A) :
  (forall x, In x l -> exists y, f x = Ok y) ->
  exists ys, mapResult f l = Ok ys.
Proof.
  intros H. destruct (mapResult f l) as [ys|e] eqn:E; [eauto|].
  apply mapResult_Throw in E. destruct E as (x & Hin & Hx).
  destruct (H x Hin) as [y Hy]. congruence.
Qed.

Lemma mapResult_map {A B C : Type} (f : A -> result B) (g : B -> C)
  (h : A -> C) (l : list A) ys :
  mapResult f l = Ok ys ->
  (forall x y, In x l -> f x = Ok y -> g y = h x) ->
  map g ys = map h l.
Proof.
  intros H Hg. apply mapResult_Ok in H.
  induction H as [|x y l ys Hxy _ IH]; simpl; [reflexivity|].
  rewrite (Hg x y) by (auto; now left). f_equal. apply IH.
  intros x' y' Hin. apply Hg. now right.
Qed.

Lemma mapResult_filter {A B : Type} (f : A -> result B) (p : A -> bool)
  (q : B -> bool) (l : list A) ys :
  mapResult f l = Ok ys ->
  (forall x y, In x l -> f x = Ok y -> q y = p x) ->
  mapResult f (filter p l) = Ok (filter q ys).
Proof.
  intros H Hq. apply mapResult_Ok in H.
  induction H as [|x y l ys Hxy _ IH]; simpl; [reflexivity|].
  rewrite (Hq x y) by (auto; now left).
  assert (IH' : mapResult f (filter p l) = Ok (filter q ys)).
  { apply IH. intros x' y' Hin. apply Hq. now right. }
  destruct (p x); simpl; [|exact IH'].
  now rewrite Hxy, IH'.
Qed.

(** ** Reading bookings back *)

Lemma getBookingWithDetails_booking b s bwd :
  getBookingWithDetails b s = Ok bwd -> BookingWithDetails.booking bwd = b.
Proof.
  unfold getBookingWithDetails.
  destruct (getBus (Booking.busId b) s) as [[bus|]|e]; try discriminate.
  now intros [= <-].
Qed.

(** A booking that was stored before [createBooking] reads the same after
    it. *)
Lemma getBookingWithDetails_afterBooking ib seats now s k b :
  WF s -> In (k, b) (bookings s) ->
  getBookingWithDetails b (afterBooking ib seats now s)
  = getBookingWithDetails b s.
Proof.
  intros Hwf Hin. unfold afterBooking.
  rewrite (createBooking_eq ib seats now s Hwf). cbn [fst].
  unfold getBookingWithDetails. rewrite (getBus_ext _ s) by reflexivity.
  destruct (getBus (Booking.busId b) s) as [[bus|]|e]; try reflexivity.
  do 2 f_equal. unfold detailsOf, mvalues. cbn [bookingDetails].
  rewrite map_app, filter_app.
  rewrite (filter_nil _ (map snd (newDetails _ _ _)));
    [now rewrite app_nil_r|].
  intros d Hd. apply in_map_iff in Hd. destruct Hd as ([k' d'] & E & Hd).
  simpl in E. subst d'. apply newDetails_in in Hd.
  destruct Hd as (_ & _ & ->).
  pose proof (wf_booking_ids s Hwf k b Hin).
  pose proof (wf_booking_below s Hwf k b Hin).
  apply Z.eqb_neq. lia.
Qed.

(** X1. [createBooking] and [getBooking] round trip: the id that
    [createBooking] issues was not in use, [getBooking] of that id afterwards
    gives exactly what [createBooking] returned (or fails with the same
    error), and [getBooking] of every other id answers as before. *)
Theorem createBooking_getBooking_round_trip ib seats now s :
  reachable s ->
  getBooking (bookingIdCounter s) s = Ok None
  /\ getBooking (bookingIdCounter s) (fst (createBooking ib seats now s))
     = match snd (createBooking ib seats now s) with
       | Ok b => Ok (Some b)
       | Throw e => Throw e
       end
  /\ (forall b,
        snd (createBooking ib seats now s) = Ok b ->
        Booking.id (BookingWithDetails.booking b) = bookingIdCounter s)
  /\ forall id',
       id' <> bookingIdCounter s ->
       getBooking id' (fst (createBooking ib seats now s)) = getBooking id' s.
Proof.
  intros Hr. apply reachable_WF in Hr.
  pose proof (afterBooking_get ib seats now s Hr) as Hget.
  pose proof (createBooking_snd ib seats now s Hr) as Hsnd.
  fold (afterBooking ib seats now s).
  split; [|split; [|split]].
  - unfold getBooking.
    now rewrite (fresh_key _ _ (wf_booking_below s Hr)).
  - unfold getBooking. rewrite Hget, Hsnd.
    destruct (getBookingWithDetails _ _); reflexivity.
  - intros b Hb. rewrite Hsnd in Hb.
    now rewrite (getBookingWithDetails_booking _ _ _ Hb).
  - intros id' Hne. unfold getBooking.
    assert (Hm : mget Z.eqb id' (bookings (afterBooking ib seats now s))
                 = mget Z.eqb id' (bookings s)).
    { unfold afterBooking. rewrite (createBooking_eq ib seats now s Hr).
      cbn [fst bookings].
      rewrite <- (mset_fresh _ _ _ (fresh_key _ _ (wf_booking_below s Hr))).
      apply (mget_mset_other Z.eqb_spec). congruence. }
    rewrite Hm. destruct (mget Z.eqb id' (bookings s)) as [b0|] eqn:E;
      [|reflexivity].
    apply (mget_Some_in Z.eqb_spec) in E.
    now rewrite (getBookingWithDetails_afterBooking ib seats now s id' b0 Hr E).
Qed.

Lemma createBooking_getBooking_round_trip_witness :
  reachable tripOpened
  /\ getBooking 1 tripOpened = Ok None
  /\ getBooking 1 (fst (createBooking exampleRequest ["2A"; "2B"] 0 tripOpened))
     = Ok (Some (BookingWithDetails.mk
                   (Booking.mk 1 7 1 "2025-06-01" 0 "confirmed" 4500 "paid")
                   karnatakaExpress (City.mk 1 "Bangalore, Karnataka")
                   (City.mk 2 "Hyderabad, Telangana") ["2A"; "2B"])).
Proof.
  assert (Hr : reachable tripOpened).
  { exists [OpGetSeatAvailability 1 "2025-06-01"]. vm_compute. reflexivity. }
  assert (Hc : bookingIdCounter tripOpened = 1) by (vm_compute; reflexivity).
  assert (Hs : snd (createBooking exampleRequest ["2A"; "2B"] 0 tripOpened)
               = Ok (BookingWithDetails.mk
                       (Booking.mk 1 7 1 "2025-06-01" 0 "confirmed" 4500
                          "paid")
                       karnatakaExpress (City.mk 1 "Bangalore, Karnataka")
                       (City.mk 2 "Hyderabad, Telangana") ["2A"; "2B"]))
    by (vm_compute; reflexivity).
  destruct (createBooking_getBooking_round_trip exampleRequest ["2A"; "2B"] 0
              tripOpened Hr) as (H1 & H2 & _).
  rewrite Hc in H1, H2. rewrite Hs in H2.
  split; [exact Hr|]. split; [exact H1 | exact H2].
Defined.


Lemma getAllBookings_afterBooking ib seats now s :
  WF s ->
  getAllBookings (afterBooking ib seats now s)
  = match getAllBookings s with
    | Throw e => Throw e
    | Ok all =>
        match snd (createBooking ib seats now s) with
        | Throw e => Throw e
        | Ok b => Ok (all ++ [b])
        end
    end.
Proof.
  intros Hwf. pose proof (createBooking_snd ib seats now s Hwf) as Hsnd.
  unfold getAllBookings.
  assert (Hb : bookings (afterBooking ib seats now s)
               = bookings s ++ [(bookingIdCounter s,
                                 Booking.of_insert (bookingIdCounter s) now ib)]).
  { unfold afterBooking. now rewrite (createBooking_eq ib seats now s Hwf). }
  rewrite Hb. unfold mvalues. rewrite map_app, mapResult_app.
  rewrite (mapResult_ext_in _ (fun b => getBookingWithDetails b s)).
  2:{ intros b Hin. apply in_map_iff in Hin.
      destruct Hin as ([k b'] & E & Hin). simpl in E. subst b'.
      now apply (getBookingWithDetails_afterBooking ib seats now s k b). }
  destruct (mapResult _ (map snd (bookings s))); [|reflexivity].
  cbn [map snd mapResult]. rewrite <- Hsnd.
  destruct (snd (createBooking ib seats now s)); reflexivity.
Qed.

(** X2. A [createBooking] whose bus is unknown is not rolled back: the call
    fails with "Bus not found for booking <id>", but the booking and one
    detail per seat stay in the store under the new id; [getBooking] of that
    id fails with the same error, and [getAllBookings], if it worked before,
    now fails with it too. *)
Theorem createBooking_unknown_bus_not_rolled_back ib seats now s :
  reachable s ->
  mget Z.eqb (InsertBooking.busId ib) (buses s) = None ->
  snd (createBooking ib seats now s)
  = Throw (JsError ("Bus not found for booking "
                      ++ num_to_string (bookingIdCounter s))%string)
  /\ mget Z.eqb (bookingIdCounter s)
       (bookings (fst (createBooking ib seats now s)))
     = Some (Booking.of_insert (bookingIdCounter s) now ib)
  /\ map BookingDetail.seatNumber
       (detailsOf (bookingIdCounter s) (fst (createBooking ib seats now s)))
     = seats
  /\ getBooking (bookingIdCounter s) (fst (createBooking ib seats now s))
     = Throw (JsError ("Bus not found for booking "
                         ++ num_to_string (bookingIdCounter s))%string)
  /\ forall all,
       getAllBookings s = Ok all ->
       getAllBookings (fst (createBooking ib seats now s))
       = Throw (JsError ("Bus not found for booking "
                           ++ num_to_string (bookingIdCounter s))%string).
Proof.
  intros Hr Hbus. apply reachable_WF in Hr.
  pose proof (afterBooking_get ib seats now s Hr) as Hget.
  pose proof (createBooking_snd ib seats now s Hr) as Hsnd.
  pose proof (getAllBookings_afterBooking ib seats now s Hr) as Hall.
  pose proof (afterBooking_detailsOf ib seats now s Hr) as Hd.
  unfold afterBooking in *.
  assert (Hthrow : snd (createBooking ib seats now s)
                   = Throw (JsError ("Bus not found for booking "
                                       ++ num_to_string (bookingIdCounter s))%string)).
  { rewrite Hsnd. unfold getBookingWithDetails.
    rewrite (createBooking_eq ib seats now s Hr). cbn [fst].
    rewrite (getBus_ext _ s) by reflexivity.
    unfold getBus. cbn [Booking.busId Booking.of_insert Booking.id].
    now rewrite Hbus. }
  split; [exact Hthrow|]. split; [exact Hget|].
  split; [rewrite Hd; apply newDetails_seats|].
  split.
  - unfold getBooking. rewrite Hget, <- Hsnd, Hthrow. reflexivity.
  - intros all Ha. now rewrite Hall, Ha, Hthrow.
Qed.

Lemma createBooking_unknown_bus_not_rolled_back_witness :
  reachable tripOpened
  /\ mget Z.eqb 99 (buses tripOpened) = None
  /\ snd (createBooking ghostRequest ["1A"] 0 tripOpened)
     = Throw (JsError "Bus not found for booking 1")
  /\ mget Z.eqb 1 (bookings (fst (createBooking ghostRequest ["1A"] 0
                                    tripOpened)))
     = Some (Booking.mk 1 7 99 "2025-06-01" 0 "confirmed" 4500 "paid")
  /\ getAllBookings tripOpened = Ok []
  /\ getAllBookings (fst (createBooking ghostRequest ["1A"] 0 tripOpened))
     = Throw (JsError "Bus not found for booking 1").
Proof.
  assert (Hr : reachable tripOpened).
  { exists [OpGetSeatAvailability 1 "2025-06-01"]. vm_compute. reflexivity. }
  assert (Hb : mget Z.eqb (InsertBooking.busId ghostRequest) (buses tripOpened)
               = None) by (vm_compute; reflexivity).
  assert (Hc : bookingIdCounter tripOpened = 1) by (vm_compute; reflexivity).
  assert (Ha : getAllBookings tripOpened = Ok []) by (vm_compute; reflexivity).
  destruct (createBooking_unknown_bus_not_rolled_back ghostRequest ["1A"] 0
              tripOpened Hr Hb) as (H1 & H2 & _ & _ & H5).
  specialize (H5 [] Ha). rewrite Hc in H1, H2, H5.
  split; [exact Hr|]. split; [exact Hb|]. split; [exact H1|].
  split; [exact H2|]. split; [exact Ha | exact H5].
Defined.

(** ** The bookings of one user *)

(** X3. [getUserBookings] returns exactly the stored bookings of that user,
    in the order they were created, never another user's; when
    [getAllBookings] succeeds it is [getAllBookings] filtered by the user
    id. *)
Theorem getUserBookings_only_own userId s :
  (forall l,
      getUserBookings userId s = Ok l ->
      map BookingWithDetails.booking l
      = filter (fun b => Booking.userId b =? userId) (mvalues (bookings s))
      /\ forall b, In b l ->
                   Booking.userId (BookingWithDetails.booking b) = userId)
  /\ forall all,
       getAllBookings s = Ok all ->
       getUserBookings userId s
       = Ok (filter
               (fun b =>
                  Booking.userId (BookingWithDetails.booking b) =? userId)
               all).
Proof.
  split.
  - intros l Hl. unfold getUserBookings in Hl.
    assert (Hm : map BookingWithDetails.booking l
                 = filter (fun b => Booking.userId b =? userId)
                     (mvalues (bookings s))).
    { rewrite <- (map_id (filter _ _)).
      apply (mapResult_map _ _ _ _ _ Hl).
      intros x y _ Hxy. now apply getBookingWithDetails_booking in Hxy. }
    split; [exact Hm|]. intros b Hb.
    assert (Hin : In (BookingWithDetails.booking b)
                     (map BookingWithDetails.booking l)) by now apply in_map.
    rewrite Hm in Hin. apply filter_In in Hin. apply Z.eqb_eq. apply Hin.
  - intros all Ha. unfold getUserBookings, getAllBookings in *.
    apply (mapResult_filter _ _ _ _ _ Ha).
    intros x y _ Hxy. now rewrite (getBookingWithDetails_booking _ _ _ Hxy).
Qed.

Lemma getUserBookings_only_own_witness :
  getUserBookings 7 seat2BBooked
  = Ok [BookingWithDetails.mk
          (Booking.mk 1 7 1 "2025-06-01" 0 "confirmed" 4500 "paid")
          karnatakaExpress (City.mk 1 "Bangalore, Karnataka")
          (City.mk 2 "Hyderabad, Telangana") ["2B"]]
  /\ getUserBookings 8 seat2BBooked = Ok [].
Proof.
  assert (Ha : getAllBookings seat2BBooked
               = Ok [BookingWithDetails.mk
                       (Booking.mk 1 7 1 "2025-06-01" 0 "confirmed" 4500
                          "paid")
                       karnatakaExpress (City.mk 1 "Bangalore, Karnataka")
                       (City.mk 2 "Hyderabad, Telangana") ["2B"]])
    by (vm_compute; reflexivity).
  split.
  - exact (proj2 (getUserBookings_only_own 7 seat2BBooked) _ Ha).
  - exact (proj2 (getUserBookings_only_own 8 seat2BBooked) _ Ha).
Defined.

(** X4. A successful [createBooking] appends the returned booking to the
    end of its user's [getUserBookings] list and leaves the list of every
    other user as it was. *)
Theorem createBooking_appends_to_user_list ib seats now s l b :
  reachable s ->
  getUserBookings (InsertBooking.userId ib) s = Ok l ->
  snd (createBooking ib seats now s) = Ok b ->
  getUserBookings (InsertBooking.userId ib) (fst (createBooking ib seats now s))
  = Ok (l ++ [b])
  /\ forall userId,
       userId <> InsertBooking.userId ib ->
       getUserBookings userId (fst (createBooking ib seats now s))
       = getUserBookings userId s.
Proof.
  intros Hr Hl Hb. apply reachable_WF in Hr.
  pose proof (createBooking_snd ib seats now s Hr) as Hsnd.
  rewrite Hb in Hsnd. fold (afterBooking ib seats now s).
  assert (Hbk : bookings (afterBooking ib seats now s)
                = bookings s ++ [(bookingIdCounter s,
                                  Booking.of_insert (bookingIdCounter s) now ib)]).
  { unfold afterBooking. now rewrite (createBooking_eq ib seats now s Hr). }
  assert (Hold : forall userId,
    mapResult (fun b0 => getBookingWithDetails b0 (afterBooking ib seats now s))
      (filter (fun b0 => Booking.userId b0 =? userId) (map snd (bookings s)))
    = getUserBookings userId s).
  { intros userId. unfold getUserBookings, mvalues.
    apply mapResult_ext_in. intros b0 Hin. apply filter_In in Hin.
    destruct Hin as [Hin _]. apply in_map_iff in Hin.
    destruct Hin as ([k b'] & E & Hin). simpl in E. subst b'.
    now apply (getBookingWithDetails_afterBooking ib seats now s k b0). }
  split.
  - unfold getUserBookings at 1. rewrite Hbk. unfold mvalues.
    rewrite map_app, filter_app, mapResult_app, Hold, Hl.
    cbn [map snd filter Booking.userId Booking.of_insert].
    rewrite Z.eqb_refl. cbn [mapResult]. now rewrite <- Hsnd.
  - intros userId Hne. unfold getUserBookings at 1. rewrite Hbk.
    unfold mvalues. rewrite map_app, filter_app, mapResult_app, Hold.
    cbn [map snd filter Booking.userId Booking.of_insert].
    rewrite (proj2 (Z.eqb_neq _ _)) by congruence. cbn [mapResult].
    destruct (getUserBookings userId s); [now rewrite app_nil_r | reflexivity].
Qed.

Lemma createBooking_appends_to_user_list_witness :
  reachable seat2BBooked
  /\ option_map (map BookingWithDetails.seats)
       (returned (getUserBookings 7 seat2BBooked)) = Some [["2B"]]
  /\ option_map (map BookingWithDetails.seats)
       (returned (getUserBookings 7
                    (fst (createBooking exampleRequest ["5A"; "5B"] 0
                            seat2BBooked))))
     = Some [["2B"]; ["5A"; "5B"]].
Proof.
  assert (Hr : reachable seat2BBooked).
  { exists [OpGetSeatAvailability 1 "2025-06-01";
            OpCreateBooking exampleRequest ["2B"] 0].
    vm_compute. reflexivity. }
  assert (Hl : getUserBookings (InsertBooking.userId exampleRequest)
                 seat2BBooked
               = Ok [BookingWithDetails.mk
                       (Booking.mk 1 7 1 "2025-06-01" 0 "confirmed" 4500
                          "paid")
                       karnatakaExpress (City.mk 1 "Bangalore, Karnataka")
                       (City.mk 2 "Hyderabad, Telangana") ["2B"]])
    by (vm_compute; reflexivity).
  assert (Hb : snd (createBooking exampleRequest ["5A"; "5B"] 0 seat2BBooked)
               = Ok (BookingWithDetails.mk
                       (Booking.mk 2 7 1 "2025-06-01" 0 "confirmed" 4500
                          "paid")
                       karnatakaExpress (City.mk 1 "Bangalore, Karnataka")
                       (City.mk 2 "Hyderabad, Telangana") ["5A"; "5B"]))
    by (vm_compute; reflexivity).
  destruct (createBooking_appends_to_user_list exampleRequest ["5A"; "5B"] 0
              seat2BBooked _ _ Hr Hl Hb) as [H _].
  split; [exact Hr|]. split.
  - change 7 with (InsertBooking.userId exampleRequest). now rewrite Hl.
  - change 7 with (InsertBooking.userId exampleRequest). now rewrite H.
Defined.

(** ** Seat keys of different trips never collide *)

Lemma string_of_uint_no_dash d :
  ~ In "-"%char (list_ascii_of_string (NilEmpty.string_of_uint d)).
Proof.
  induction d; simpl; intros H;
    try (destruct H as [H|H]; [discriminate H | exact (IHd H)]).
  exact H.
Qed.

Lemma num_to_string_no_dash n :
  0 < n -> ~ In "-"%char (list_ascii_of_string (num_to_string n)).
Proof.
  destruct n as [|p|p]; try lia. intros _.
  unfold num_to_string. simpl Z.to_int. unfold NilZero.string_of_int.
  unfold NilZero.string_of_uint.
  destruct (Pos.to_uint p) eqn:E; try (rewrite <- E);
    try apply string_of_uint_no_dash.
  now apply Unsigned.to_uint_nonnil in E.
Qed.

Lemma num_to_string_inj n m :
  0 < n -> 0 < m -> num_to_string n = num_to_string m -> n = m.
Proof.
  destruct n as [|p|p], m as [|q|q]; try lia. intros _ _.
  unfold num_to_string. simpl Z.to_int. unfold NilZero.string_of_int.
  assert (Hs : forall r, NilZero.string_of_uint (Pos.to_uint r)
                         = NilEmpty.string_of_uint (Pos.to_uint r)).
  { intros r. unfold NilZero.string_of_uint.
    destruct (Pos.to_uint r) eqn:E; try reflexivity.
    now apply Unsigned.to_uint_nonnil in E. }
  rewrite !Hs. intros H.
  assert (H' : Some (Pos.to_uint p) = Some (Pos.to_uint q)).
  { rewrite <- (NilEmpty.usu (Pos.to_uint p)), <- (NilEmpty.usu (Pos.to_uint q)).
    now rewrite H. }
  injection H' as H'. apply Unsigned.to_uint_inj in H'. now subst.
Qed.

Lemma dash_prefix_inj (p q a b : string) :
  ~ In "-"%char (list_ascii_of_string p) ->
  ~ In "-"%char (list_ascii_of_string q) ->
  (p ++ String "-" a)%string = (q ++ String "-" b)%string ->
  p = q /\ a = b.
Proof.
  revert q. induction p as [|c p IH]; intros [|c' q] Hp Hq; simpl.
  - intros [= ->]. auto.
  - intros [= <- _]. exfalso. apply Hq. now left.
  - intros [= -> _]. exfalso. apply Hp. now left.
  - intros [= -> H]. destruct (IH q) as [-> ->]; auto.
    + intros Hin. apply Hp. now right.
    + intros Hin. apply Hq. now right.
Qed.

(** The key of a seat of a trip determines the trip and the seat. *)
Lemma seatKey_inj_trip t t' a b :
  0 < t -> 0 < t' -> seatKey t a = seatKey t' b -> t = t' /\ a = b.
Proof.
  intros Ht Ht' H. unfold seatKey in H. simpl in H.
  apply dash_prefix_inj in H; try now apply num_to_string_no_dash.
  destruct H as [H ->]. split; [|reflexivity].
  now apply num_to_string_inj.
Qed.

Lemma markSeats_other_trip t t' flag seats seat m :
  0 < t -> 0 < t' -> t <> t' ->
  mget String.eqb (seatKey t' seat) (markSeats t flag seats m)
  = mget String.eqb (seatKey t' seat) m.
Proof.
  intros Ht Ht' Hne. revert m.
  induction seats as [|x seats IH]; intros m; [reflexivity|].
  rewrite markSeats_cons, IH.
  apply (mget_mset_other String.eqb_spec).
  intros E. apply seatKey_inj_trip in E; auto. destruct E. contradiction.
Qed.

(** Two trips of a reachable store with different bus or date have
    different ids. *)
Lemma distinct_trips_distinct_ids s busId date busId' date' t t' :
  WF s ->
  findTrip busId date s = Some t -> findTrip busId' date' s = Some t' ->
  (busId, date) <> (busId', date') ->
  Trip.id t <> Trip.id t'.
Proof.
  intros Hwf Ht Ht' Hne E.
  pose proof (findTrip_In _ _ _ _ Hwf Ht) as Hin.
  pose proof (findTrip_In _ _ _ _ Hwf Ht') as Hin'.
  rewrite E in Hin.
  pose proof (in_mget_nodup Z.eqb_spec _ _ _ (wf_trip_keys s Hwf) Hin) as G.
  pose proof (in_mget_nodup Z.eqb_spec _ _ _ (wf_trip_keys s Hwf) Hin') as G'.
  rewrite G in G'. injection G' as ->.
  apply findTrip_Some in Ht, Ht'. destruct Ht as [_ K], Ht' as [_ K'].
  congruence.
Qed.

Lemma seatReport_ext layout trip busId date s s' :
  (forall seat,
      mget String.eqb (seatKey (Trip.id trip) seat) (tripSeatAvailability s')
      = mget String.eqb (seatKey (Trip.id trip) seat)
          (tripSeatAvailability s)) ->
  (forall seat,
      shas seat (bookedSeats busId date s')
      = shas seat (bookedSeats busId date s)) ->
  seatReport layout trip busId date s' = seatReport layout trip busId date s.
Proof.
  intros Hm Hb. unfold seatReport. apply map_ext. intros seat.
  now rewrite Hm, Hb.
Qed.

Lemma afterBooking_detailsOf_old ib seats now s k b :
  WF s -> In (k, b) (bookings s) ->
  detailsOf (Booking.id b) (afterBooking ib seats now s)
  = detailsOf (Booking.id b) s.
Proof.
  intros Hwf Hin. unfold afterBooking.
  rewrite (createBooking_eq ib seats now s Hwf). cbn [fst].
  unfold detailsOf, mvalues. cbn [bookingDetails].
  rewrite map_app, filter_app.
  rewrite (filter_nil _ (map snd (newDetails _ _ _)));
    [now rewrite app_nil_r|].
  intros d Hd. apply in_map_iff in Hd. destruct Hd as ([k' d'] & E & Hd).
  simpl in E. subst d'. apply newDetails_in in Hd.
  destruct Hd as (_ & _ & ->).
  pose proof (wf_booking_ids s Hwf k b Hin).
  pose proof (wf_booking_below s Hwf k b Hin).
  apply Z.eqb_neq. lia.
Qed.

(** X5. Bookings do not leak between trips: a [createBooking] for one bus
    and date leaves the trip record of every other bus and date, and the
    whole [getSeatAvailability] report for it, exactly as they were. *)
Theorem createBooking_other_trip_untouched ib seats now s busId date trip :
  reachable s ->
  findTrip busId date s = Some trip ->
  (InsertBooking.busId ib, InsertBooking.travelDate ib) <> (busId, date) ->
  findTrip busId date (fst (createBooking ib seats now s)) = Some trip
  /\ snd (getSeatAvailability busId date (fst (createBooking ib seats now s)))
     = snd (getSeatAvailability busId date s).
Proof.
  intros Hr Hfind Hne.
  pose proof (reachable_WFC s Hr) as Hc. apply reachable_WF in Hr.
  fold (afterBooking ib seats now s).
  assert (Hf1 : findTrip busId date (afterBooking ib seats now s) = Some trip).
  { unfold afterBooking.
    rewrite (findTrip_createBooking ib seats now s _ _ Hr), Hfind.
    cbn [option_map].
    destruct (tripMatches _ _ trip) eqn:Hm; [|reflexivity].
    exfalso. apply Hne. apply tripMatches_key in Hm.
    apply findTrip_Some in Hfind. destruct Hfind as [_ K]. congruence. }
  split; [exact Hf1|].
  rewrite (getSeatAvailability_existing _ _ _ _ Hf1).
  rewrite (getSeatAvailability_existing _ _ _ _ Hfind). cbn [snd]. f_equal.
  assert (Hlay : getBusSeatLayout busId (afterBooking ib seats now s)
                 = getBusSeatLayout busId s).
  { unfold afterBooking, getBusSeatLayout.
    now rewrite (createBooking_eq ib seats now s Hr). }
  rewrite Hlay. apply seatReport_ext.
  - intros seat. unfold afterBooking.
    rewrite (createBooking_eq ib seats now s Hr).
    cbn [fst tripSeatAvailability].
    destruct (findTrip (InsertBooking.busId ib) (InsertBooking.travelDate ib) s)
      as [t0|] eqn:Hf0; [|reflexivity].
    apply markSeats_other_trip.
    + eapply wfc_trip_positive; [exact Hc|]. eapply findTrip_In; eauto.
    + eapply wfc_trip_positive; [exact Hc|]. eapply findTrip_In; eauto.
    + eapply distinct_trips_distinct_ids; eauto.
  - intros seat. rewrite !shas_bookedSeats.
    assert (Hbk : bookings (afterBooking ib seats now s)
                  = bookings s
                    ++ [(bookingIdCounter s,
                         Booking.of_insert (bookingIdCounter s) now ib)]).
    { unfold afterBooking. now rewrite (createBooking_eq ib seats now s Hr). }
    rewrite Hbk. unfold mvalues at 1. rewrite map_app, existsb_app.
    cbn [map snd existsb Booking.busId Booking.travelDate Booking.of_insert].
    assert (Hk : (InsertBooking.busId ib =? busId)
                 && String.eqb (InsertBooking.travelDate ib) date = false).
    { destruct (Z.eqb_spec (InsertBooking.busId ib) busId) as [E1|];
        [|reflexivity].
      destruct (String.eqb_spec (InsertBooking.travelDate ib) date) as [E2|];
        [|reflexivity].
      exfalso. apply Hne. congruence. }
    rewrite Hk. cbn [andb orb]. rewrite orb_false_r.
    apply existsb_ext_in. intros b Hb. apply in_map_iff in Hb.
    destruct Hb as ([k b'] & E & Hin). simpl in E. subst b'.
    now rewrite (afterBooking_detailsOf_old ib seats now s k b Hr Hin).
Qed.

Lemma createBooking_other_trip_untouched_witness :
  reachable tripOpened
  /\ findTrip 1 "2025-06-01" tripOpened = Some (Trip.mk 1 1 "2025-06-01" 30)
  /\ findTrip 1 "2025-06-01"
       (fst (createBooking
               (InsertBooking.mk 7 1 "2025-06-02" "confirmed" 4500 "paid")
               ["1A"] 0 tripOpened))
     = Some (Trip.mk 1 1 "2025-06-01" 30)
  /\ snd (getSeatAvailability 1 "2025-06-01"
            (fst (createBooking
                    (InsertBooking.mk 7 1 "2025-06-02" "confirmed" 4500 "paid")
                    ["1A"] 0 tripOpened)))
     = snd (getSeatAvailability 1 "2025-06-01" tripOpened).
Proof.
  assert (Hr : reachable tripOpened).
  { exists [OpGetSeatAvailability 1 "2025-06-01"]. vm_compute. reflexivity. }
  assert (Hf : findTrip 1 "2025-06-01" tripOpened
               = Some (Trip.mk 1 1 "2025-06-01" 30))
    by (vm_compute; reflexivity).
  assert (Hne : (InsertBooking.busId
                   (InsertBooking.mk 7 1 "2025-06-02" "confirmed" 4500 "paid"),
                 InsertBooking.travelDate
                   (InsertBooking.mk 7 1 "2025-06-02" "confirmed" 4500 "paid"))
                <> (1, "2025-06-01")) by (intros H; discriminate H).
  split; [exact Hr|]. split; [exact Hf|].
  exact (createBooking_other_trip_untouched _ ["1A"] 0 tripOpened 1
           "2025-06-01" _ Hr Hf Hne).
Defined.

(** X6. Cancellations do not leak between trips either: [cancelBooking] of
    a booking for one bus and date leaves the trip record of every other
    bus and date, and the whole [getSeatAvailability] report for it, exactly
    as they were. *)
Theorem cancelBooking_other_trip_untouched id s b0 busId date trip :
  reachable s ->
  mget Z.eqb id (bookings s) = Some b0 ->
  findTrip busId date s = Some trip ->
  (Booking.busId b0, Booking.travelDate b0) <> (busId, date) ->
  findTrip busId date (fst (cancelBooking id s)) = Some trip
  /\ snd (getSeatAvailability busId date (fst (cancelBooking id s)))
     = snd (getSeatAvailability busId date s).
Proof.
  intros Hr Hget Hfind Hne.
  pose proof (reachable_WFC s Hr) as Hc. apply reachable_WF in Hr.
  assert (Hf1 : findTrip busId date (fst (cancelBooking id s)) = Some trip).
  { rewrite (findTrip_cancelBooking id s b0 _ _ Hr Hget), Hfind.
    cbn [option_map].
    destruct (tripMatches _ _ trip) eqn:Hm; [|reflexivity].
    exfalso. apply Hne. apply tripMatches_key in Hm.
    apply findTrip_Some in Hfind. destruct Hfind as [_ K]. congruence. }
  split; [exact Hf1|].
  rewrite (getSeatAvailability_existing _ _ _ _ Hf1).
  rewrite (getSeatAvailability_existing _ _ _ _ Hfind). cbn [snd]. f_equal.
  assert (Hk : (Booking.busId b0 =? busId)
               && String.eqb (Booking.travelDate b0) date = false).
  { destruct (Z.eqb_spec (Booking.busId b0) busId) as [E1|]; [|reflexivity].
    destruct (String.eqb_spec (Booking.travelDate b0) date) as [E2|];
      [|reflexivity].
    exfalso. apply Hne. congruence. }
  rewrite (cancelBooking_eq id s b0 Hget). cbn [fst].
  unfold getBusSeatLayout at 1. cbn [seatLayouts].
  fold (getBusSeatLayout busId s). apply seatReport_ext.
  - intros seat. cbn [tripSeatAvailability].
    destruct (findTrip (Booking.busId b0) (Booking.travelDate b0) s)
      as [t0|] eqn:Hf0; [|reflexivity].
    apply markSeats_other_trip.
    + eapply wfc_trip_positive; [exact Hc|]. eapply findTrip_In; eauto.
    + eapply wfc_trip_positive; [exact Hc|]. eapply findTrip_In; eauto.
    + eapply distinct_trips_distinct_ids; eauto.
  - intros seat. rewrite !shas_bookedSeats. cbn [bookings].
    unfold detailsOf. cbn [bookingDetails].
    destruct (mset_replace Z.eqb_spec id b0
                (Booking.set_status "cancelled" b0) (bookings s)
                (wfc_booking_keys s Hc)
                (mget_Some_in Z.eqb_spec _ _ _ Hget))
      as (l1 & l2 & E1 & E2).
    rewrite E2, E1. unfold mvalues. rewrite !map_app, !existsb_app.
    cbn [map snd existsb Booking.busId Booking.travelDate Booking.set_status].
    now rewrite Hk.
Qed.

Lemma cancelBooking_other_trip_untouched_witness :
  reachable
    (run [OpGetSeatAvailability 2 "2025-07-01"] seat2BBooked)
  /\ findTrip 2 "2025-07-01"
       (fst (cancelBooking 1
               (run [OpGetSeatAvailability 2 "2025-07-01"] seat2BBooked)))
     = Some (Trip.mk 2 2 "2025-07-01" 40)
  /\ snd (getSeatAvailability 2 "2025-07-01"
            (fst (cancelBooking 1
                    (run [OpGetSeatAvailability 2 "2025-07-01"]
                       seat2BBooked))))
     = snd (getSeatAvailability 2 "2025-07-01"
              (run [OpGetSeatAvailability 2 "2025-07-01"] seat2BBooked)).
Proof.
  assert (Hr : reachable
                 (run [OpGetSeatAvailability 2 "2025-07-01"] seat2BBooked)).
  { exists [OpGetSeatAvailability 1 "2025-06-01";
            OpCreateBooking exampleRequest ["2B"] 0;
            OpGetSeatAvailability 2 "2025-07-01"].
    vm_compute. reflexivity. }
  assert (Hg : mget Z.eqb 1
                 (bookings (run [OpGetSeatAvailability 2 "2025-07-01"]
                              seat2BBooked))
               = Some (Booking.mk 1 7 1 "2025-06-01" 0 "confirmed" 4500 "paid"))
    by (vm_compute; reflexivity).
  assert (Hf : findTrip 2 "2025-07-01"
                 (run [OpGetSeatAvailability 2 "2025-07-01"] seat2BBooked)
               = Some (Trip.mk 2 2 "2025-07-01" 40))
    by (vm_compute; reflexivity).
  assert (Hne : (Booking.busId
                   (Booking.mk 1 7 1 "2025-06-01" 0 "confirmed" 4500 "paid"),
                 Booking.travelDate
                   (Booking.mk 1 7 1 "2025-06-01" 0 "confirmed" 4500 "paid"))
                <> (2, "2025-07-01")) by (intros H; discriminate H).
  split; [exact Hr|].
  exact (cancelBooking_other_trip_untouched 1 _ _ 2 "2025-07-01" _
           Hr Hg Hf Hne).
Defined.


(** ** Creating a bus *)

Lemma createDefaultSeatLayout_fold busId s :
  createDefaultSeatLayout busId s
  = fold_left (fun s l => fst (createSeatLayout l s)) (defaultLayout busId) s.
Proof.
  unfold createDefaultSeatLayout, defaultLayout. cbv zeta.
  assert (Hin : forall (cols : list Z) row s0,
    fold_left
      (fun s col =>
         match defaultSeat busId row col with
         | Some l => fst (createSeatLayout l s)
         | None => s
         end) cols s0
    = fold_left (fun s l => fst (createSeatLayout l s))
        (flat_map
           (fun col =>
              match defaultSeat busId row col with
              | Some l => [l]
              | None => []
              end) cols) s0).
  { induction cols as [|col cols IH]; intros row s0; simpl; [reflexivity|].
    rewrite fold_left_app, IH.
    destruct (defaultSeat busId row col); reflexivity. }
  generalize (zrange 1 (Z.to_nat 6)). intros rows. revert s.
  induction rows as [|row rows IH]; intros s; simpl; [reflexivity|].
  rewrite fold_left_app, IH, Hin. reflexivity.
Qed.

Lemma createSeatLayouts_eq ls s :
  (forall k l, In (k, l) (seatLayouts s) -> k < seatLayoutIdCounter s) ->
  fold_left (fun s l => fst (createSeatLayout l s)) ls s
  = mkMemStorage (cities s) (buses s)
      (seatLayouts s ++ newLayouts (seatLayoutIdCounter s) ls)
      (bookings s) (bookingDetails s) (trips s) (tripSeatAvailability s)
      (cityIdCounter s) (busIdCounter s)
      (seatLayoutIdCounter s + Z.of_nat (List.length ls))
      (bookingIdCounter s) (bookingDetailIdCounter s) (tripIdCounter s).
Proof.
  revert s. induction ls as [|l ls IH]; intros s Hb.
  - destruct s; simpl. rewrite app_nil_r, Z.add_0_r. reflexivity.
  - simpl fold_left. rewrite IH.
    + unfold createSeatLayout, with_seatLayout.
      cbn [fst cities buses seatLayouts bookings bookingDetails trips
           tripSeatAvailability cityIdCounter busIdCounter
           seatLayoutIdCounter bookingIdCounter bookingDetailIdCounter
           tripIdCounter].
      rewrite (mset_fresh _ _ _ (fresh_key _ _ Hb)).
      rewrite <- app_assoc. simpl. f_equal. simpl List.length. lia.
    + unfold createSeatLayout, with_seatLayout.
      cbn [fst seatLayouts seatLayoutIdCounter].
      intros k x Hin. apply (in_mset Z.eqb_spec) in Hin.
      destruct Hin as [[= -> ->]|Hin]; [lia|]. apply Hb in Hin. lia.
Qed.

Lemma newLayouts_seats c ls :
  map (fun l => (SeatLayout.seatNumber l, SeatLayout.rowPosition l,
                 SeatLayout.columnPosition l, SeatLayout.isVisible l))
      (mvalues (newLayouts c ls))
  = map (fun l => (InsertSeatLayout.seatNumber l,
                   InsertSeatLayout.rowPosition l,
                   InsertSeatLayout.columnPosition l,
                   InsertSeatLayout.isVisible l)) ls.
Proof.
  revert c. induction ls as [|l ls IH]; intros c; simpl; [reflexivity|].
  f_equal. apply IH.
Qed.

Lemma defaultLayout_seats busId :
  map (fun l => (InsertSeatLayout.seatNumber l,
                 InsertSeatLayout.rowPosition l,
                 InsertSeatLayout.columnPosition l,
                 InsertSeatLayout.isVisible l)) (defaultLayout busId)
  = [("1A", 1, 0, true); ("1B", 1, 1, true); ("1C", 1, 3, false);
     ("2A", 2, 0, true); ("2B", 2, 1, true); ("2C", 2, 3, true);
     ("3A", 3, 0, false); ("3B", 3, 1, true); ("3C", 3, 3, true);
     ("4A", 4, 0, false); ("4B", 4, 1, false); ("4C", 4, 3, true);
     ("5A", 5, 0, true); ("5B", 5, 1, true); ("5C", 5, 3, true);
     ("6A", 6, 0, true); ("6B", 6, 1, true); ("6C", 6, 2, true);
     ("6D", 6, 3, true); ("6E", 6, 4, true)].
Proof. vm_compute. reflexivity. Qed.

Lemma newLayouts_busId c ls l :
  In l (mvalues (newLayouts c ls)) ->
  exists x, In x ls /\ SeatLayout.busId l = InsertSeatLayout.busId x.
Proof.
  revert c. induction ls as [|x ls IH]; intros c; simpl; [intros []|].
  intros [<-|H].
  - exists x. split; [now left | reflexivity].
  - destruct (IH _ H) as (y & Hy & E). exists y. split; [now right | exact E].
Qed.

Lemma defaultLayout_busId busId l :
  In l (defaultLayout busId) -> InsertSeatLayout.busId l = busId.
Proof.
  unfold defaultLayout. intros H. apply in_flat_map in H.
  destruct H as (row & _ & H). apply in_flat_map in H.
  destruct H as (col & _ & H). unfold defaultSeat in H.
  destruct (row =? 6); [destruct H as [<-|[]]; reflexivity|].
  destruct (col =? 2); [destruct H|].
  destruct H as [<-|[]]; reflexivity.
Qed.

Lemma createBus_eq b s :
  WFC s ->
  fst (createBus b s)
  = mkMemStorage (cities s)
      (buses s ++ [(busIdCounter s, Bus.of_insert (busIdCounter s) b)])
      (seatLayouts s
         ++ newLayouts (seatLayoutIdCounter s)
              (defaultLayout (busIdCounter s)))
      (bookings s) (bookingDetails s) (trips s)
      (tripSeatAvailability s)
      (cityIdCounter s) (busIdCounter s + 1)
      (seatLayoutIdCounter s
       + Z.of_nat (List.length (defaultLayout (busIdCounter s))))
      (bookingIdCounter s) (bookingDetailIdCounter s)
      (tripIdCounter s).
Proof.
  intros Hc. unfold createBus. cbn [fst].
  rewrite createDefaultSeatLayout_fold, createSeatLayouts_eq.
  - unfold with_buses, with_busIdCounter.
    cbn [cities buses seatLayouts bookings bookingDetails trips
         tripSeatAvailability cityIdCounter busIdCounter
         seatLayoutIdCounter bookingIdCounter bookingDetailIdCounter
         tripIdCounter].
    now rewrite (mset_fresh _ _ _ (fresh_key _ _ (wfc_bus_below s Hc))).
  - simpl. apply Hc.
Qed.

(** X7. [createBus] stores the bus under the next bus id, which was not in
    use, touches no other bus, and appends the default layout to
    the seat layouts under fresh layout ids: always the same 20 seats, three
    in each of rows 1 to 5 (column 2 is the aisle) and five in row 6, with
    1C, 3A, 4A and 4B hidden, whatever [totalSeats] the bus declares. The
    layouts of the other buses are untouched. *)
Theorem createBus_default_layout b s :
  reachable s ->
  snd (createBus b s) = Bus.of_insert (busIdCounter s) b
  /\ mget Z.eqb (busIdCounter s) (buses s) = None
  /\ mget Z.eqb (busIdCounter s) (buses (fst (createBus b s)))
     = Some (Bus.of_insert (busIdCounter s) b)
  /\ (forall id, id <> busIdCounter s ->
                 mget Z.eqb id (buses (fst (createBus b s)))
                 = mget Z.eqb id (buses s))
  /\ seatLayouts (fst (createBus b s))
     = seatLayouts s
       ++ newLayouts (seatLayoutIdCounter s) (defaultLayout (busIdCounter s))
  /\ map (fun l => (SeatLayout.seatNumber l, SeatLayout.rowPosition l,
                    SeatLayout.columnPosition l, SeatLayout.isVisible l))
         (getBusSeatLayout (busIdCounter s) (fst (createBus b s)))
     = map (fun l => (SeatLayout.seatNumber l, SeatLayout.rowPosition l,
                      SeatLayout.columnPosition l, SeatLayout.isVisible l))
           (getBusSeatLayout (busIdCounter s) s)
       ++ [("1A", 1, 0, true); ("1B", 1, 1, true); ("1C", 1, 3, false);
           ("2A", 2, 0, true); ("2B", 2, 1, true); ("2C", 2, 3, true);
           ("3A", 3, 0, false); ("3B", 3, 1, true); ("3C", 3, 3, true);
           ("4A", 4, 0, false); ("4B", 4, 1, false); ("4C", 4, 3, true);
           ("5A", 5, 0, true); ("5B", 5, 1, true); ("5C", 5, 3, true);
           ("6A", 6, 0, true); ("6B", 6, 1, true); ("6C", 6, 2, true);
           ("6D", 6, 3, true); ("6E", 6, 4, true)]
  /\ forall busId, busId <> busIdCounter s ->
                   getBusSeatLayout busId (fst (createBus b s))
                   = getBusSeatLayout busId s.
Proof.
  intros Hr. pose proof (reachable_WFC s Hr) as Hc.
  pose proof (createBus_eq b s Hc) as E.
  assert (Hfresh : mget Z.eqb (busIdCounter s) (buses s) = None)
    by (apply fresh_key; apply Hc).
  rewrite E. cbn [buses seatLayouts].
  split; [reflexivity|]. split; [exact Hfresh|].
  split; [apply mget_appended; apply Hc|].
  split.
  { intros id Hne. rewrite <- (mset_fresh _ _ _ Hfresh).
    apply (mget_mset_other Z.eqb_spec). congruence. }
  split; [reflexivity|].
  assert (Hall : forall l,
            In l (mvalues (newLayouts (seatLayoutIdCounter s)
                             (defaultLayout (busIdCounter s)))) ->
            SeatLayout.busId l = busIdCounter s).
  { intros l Hl. apply newLayouts_busId in Hl.
    destruct Hl as (x & Hx & ->). now apply defaultLayout_busId. }
  split.
  - unfold getBusSeatLayout, mvalues. cbn [seatLayouts].
    rewrite map_app, filter_app, map_app. f_equal.
    fold (mvalues (newLayouts (seatLayoutIdCounter s)
                     (defaultLayout (busIdCounter s)))).
    rewrite forallb_filter_id.
    + rewrite newLayouts_seats. apply defaultLayout_seats.
    + apply forallb_forall. intros l Hl. apply Z.eqb_eq. now apply Hall.
  - intros busId Hne. unfold getBusSeatLayout, mvalues. cbn [seatLayouts].
    rewrite map_app, filter_app.
    rewrite (filter_nil _ (map snd (newLayouts _ _)));
      [now rewrite app_nil_r|].
    intros l Hl. apply Hall in Hl. apply Z.eqb_neq. congruence.
Qed.


Lemma createBus_default_layout_witness :
  reachable initialStorage
  /\ map (fun l => (SeatLayout.seatNumber l, SeatLayout.isVisible l))
         (getBusSeatLayout 6 (fst (createBus nightRider initialStorage)))
     = [("1A", true); ("1B", true); ("1C", false);
        ("2A", true); ("2B", true); ("2C", true);
        ("3A", false); ("3B", true); ("3C", true);
        ("4A", false); ("4B", false); ("4C", true);
        ("5A", true); ("5B", true); ("5C", true);
        ("6A", true); ("6B", true); ("6C", true);
        ("6D", true); ("6E", true)].
Proof.
  assert (Hr : reachable initialStorage) by (exists []; reflexivity).
  assert (Hc : busIdCounter initialStorage = 6) by (vm_compute; reflexivity).
  assert (Hold : getBusSeatLayout 6 initialStorage = [])
    by (vm_compute; reflexivity).
  destruct (createBus_default_layout nightRider initialStorage Hr)
    as (_ & _ & _ & _ & _ & H & _).
  rewrite Hc, Hold in H.
  apply (f_equal (map (fun q : string * Z * Z * bool =>
                         let '(n, _, _, v) := q in (n, v)))) in H.
  rewrite map_map in H.
  split; [exact Hr | exact H].
Defined.

(** ** Deleting and updating a bus *)

(** X8. [deleteBus] removes the bus and nothing else. Afterwards [getBus]
    finds no bus under the id and the other buses are as before; the seat
    layout of the deleted bus, its trips and its bookings stay in the store.
    A booking made for the deleted bus can no longer be read: [getBooking]
    throws. [getSeatAvailability] for the deleted bus throws on a date that
    has no trip yet and answers as before on a date that has one. *)
Theorem deleteBus_does_not_cascade id s :
  reachable s ->
  getBus id (fst (deleteBus id s)) = Ok None
  /\ (forall other, other <> id ->
        getBus other (fst (deleteBus id s)) = getBus other s)
  /\ getBusSeatLayout id (fst (deleteBus id s)) = getBusSeatLayout id s
  /\ trips (fst (deleteBus id s)) = trips s
  /\ bookings (fst (deleteBus id s)) = bookings s
  /\ bookingDetails (fst (deleteBus id s)) = bookingDetails s
  /\ (forall bookingId b,
        mget Z.eqb bookingId (bookings s) = Some b ->
        Booking.busId b = id ->
        getBooking bookingId (fst (deleteBus id s))
        = Throw (JsError ("Bus not found for booking "
                            ++ num_to_string (Booking.id b))%string))
  /\ (forall date,
        findTrip id date s = None ->
        getSeatAvailability id date (fst (deleteBus id s))
        = (fst (deleteBus id s),
           Throw (JsError ("Bus not found with id "
                             ++ num_to_string id)%string)))
  /\ (forall date trip,
        findTrip id date s = Some trip ->
        snd (getSeatAvailability id date (fst (deleteBus id s)))
        = snd (getSeatAvailability id date s)).
Proof.
  intros Hr. pose proof (reachable_WFC s Hr) as Hc.
  unfold deleteBus. cbn [fst].
  assert (Hgone : getBus id (with_buses (mdelete Z.eqb id (buses s)) s)
                  = Ok None).
  { unfold getBus. cbn [buses with_buses].
    now rewrite (mget_mdelete_same Z.eqb_spec _ _ (wfc_bus_keys s Hc)). }
  split; [exact Hgone|].
  split.
  { intros other Hne. unfold getBus. cbn [buses cities with_buses].
    rewrite (mget_mdelete_other Z.eqb_spec); [reflexivity | congruence]. }
  split; [reflexivity|]. split; [reflexivity|].
  split; [reflexivity|]. split; [reflexivity|].
  split.
  { intros bookingId b Hb Hbus. unfold getBooking. cbn [bookings with_buses].
    rewrite Hb. unfold getBookingWithDetails. rewrite Hbus, Hgone.
    reflexivity. }
  split.
  - intros date Hnone. unfold getSeatAvailability, getOrCreateTrip.
    change (findTrip id date (with_buses (mdelete Z.eqb id (buses s)) s))
      with (findTrip id date s).
    rewrite Hnone, Hgone. reflexivity.
  - intros date trip Ht.
    rewrite (getSeatAvailability_existing id date s trip Ht).
    rewrite (getSeatAvailability_existing id date
               (with_buses (mdelete Z.eqb id (buses s)) s) trip Ht).
    reflexivity.
Qed.

Lemma deleteBus_does_not_cascade_witness :
  reachable seat2BBooked
  /\ getBooking 1 (fst (deleteBus 1 seat2BBooked))
     = Throw (JsError "Bus not found for booking 1")
  /\ getSeatAvailability 1 "2025-06-02" (fst (deleteBus 1 seat2BBooked))
     = (fst (deleteBus 1 seat2BBooked),
        Throw (JsError "Bus not found with id 1")).
Proof.
  assert (Hr : reachable seat2BBooked).
  { exists [OpGetSeatAvailability 1 "2025-06-01";
            OpCreateBooking exampleRequest ["2B"] 0].
    vm_compute. reflexivity. }
  assert (Hb : mget Z.eqb 1 (bookings seat2BBooked)
               = Some (Booking.mk 1 7 1 "2025-06-01" 0 "confirmed" 4500
                         "paid")) by (vm_compute; reflexivity).
  assert (Ht : findTrip 1 "2025-06-02" seat2BBooked = None)
    by (vm_compute; reflexivity).
  destruct (deleteBus_does_not_cascade 1 seat2BBooked Hr)
    as (_ & _ & _ & _ & _ & _ & H1 & H2 & _).
  split; [exact Hr|].
  split; [exact (H1 1 _ Hb eq_refl) | exact (H2 "2025-06-02" Ht)].
Defined.

(** X9. [updateBus] on a bus that exists replaces the record in place: the
    bus keeps its id and its position among the buses, the other buses are
    untouched, and nothing else in the store moves. The seat layout is not
    rebuilt and the trips already opened keep their seat counters, whatever
    [totalSeats] the new record declares. On an id that is not in use the
    store is unchanged and nothing is returned. *)
Theorem updateBus_in_place id b s :
  match mget Z.eqb id (buses s) with
  | None => updateBus id b s = (s, None)
  | Some _ =>
      snd (updateBus id b s) = Some (Bus.of_insert id b)
      /\ mget Z.eqb id (buses (fst (updateBus id b s)))
         = Some (Bus.of_insert id b)
      /\ mkeys (buses (fst (updateBus id b s))) = mkeys (buses s)
      /\ (forall other, other <> id ->
            mget Z.eqb other (buses (fst (updateBus id b s)))
            = mget Z.eqb other (buses s))
      /\ sameLedger s (fst (updateBus id b s))
      /\ seatLayouts (fst (updateBus id b s)) = seatLayouts s
      /\ cities (fst (updateBus id b s)) = cities s
      /\ busIdCounter (fst (updateBus id b s)) = busIdCounter s
      /\ cityIdCounter (fst (updateBus id b s)) = cityIdCounter s
      /\ seatLayoutIdCounter (fst (updateBus id b s)) = seatLayoutIdCounter s
  end.
Proof.
  unfold updateBus, mhas.
  destruct (mget Z.eqb id (buses s)) as [old|] eqn:E; cbn [negb fst snd];
    [|reflexivity].
  cbn [buses with_buses].
  split; [reflexivity|].
  split; [apply (mget_mset_same Z.eqb_spec)|].
  split.
  { apply (mkeys_mset_in Z.eqb_spec).
    apply (mget_Some_in Z.eqb_spec) in E.
    now apply (in_map fst) in E. }
  split.
  { intros other Hne. apply (mget_mset_other Z.eqb_spec). congruence. }
  repeat split.
Qed.


(** ** Listing and searching buses *)

Lemma mapResult_In {A B : Type} (f : A -> result B) (l : list A) ys y :
  mapResult f l = Ok ys -> In y ys -> exists x, In x l /\ f x = Ok y.
Proof.
  revert ys. induction l as [|x l IH]; intros ys; simpl.
  - intros [= <-] [].
  - destruct (f x) as [y0|e] eqn:Ex; [|discriminate].
    destruct (mapResult f l) as [ys0|e]; [|discriminate].
    intros [= <-] [<-|Hin].
    + exists x. split; [now left | exact Ex].
    + destruct (IH _ eq_refl Hin) as (x' & Hx' & E).
      exists x'. split; [now right | exact E].
Qed.

Lemma withCities_bus s bus r :
  withCities s bus = Ok r -> BusWithCities.bus r = bus.
Proof.
  unfold withCities.
  destruct (mget Z.eqb (Bus.fromCityId bus) (cities s));
    [|discriminate].
  destruct (mget Z.eqb (Bus.toCityId bus) (cities s)); [|discriminate].
  now intros [= <-].
Qed.

Lemma getBus_withCities id s :
  getBus id s
  = match mget Z.eqb id (buses s) with
    | None => Ok None
    | Some bus =>
        match withCities s bus with
        | Ok r => Ok (Some r)
        | Throw e => Throw e
        end
    end.
Proof.
  unfold getBus, withCities.
  destruct (mget Z.eqb id (buses s)) as [bus|]; [|reflexivity].
  destruct (mget Z.eqb (Bus.fromCityId bus) (cities s));
    [|reflexivity].
  destruct (mget Z.eqb (Bus.toCityId bus) (cities s)); reflexivity.
Qed.

Lemma bus_stored s bus :
  WFC s -> In bus (mvalues (buses s)) ->
  mget Z.eqb (Bus.id bus) (buses s) = Some bus.
Proof.
  intros Hc Hin. unfold mvalues in Hin. apply in_map_iff in Hin.
  destruct Hin as ([k b0] & E & Hin). simpl in E. subst b0.
  rewrite <- (wfc_bus_ids s Hc k bus Hin).
  apply (in_mget_nodup Z.eqb_spec); [apply Hc | exact Hin].
Qed.

(** X10. [getAllBuses] and [getBus] agree on every reachable store. When
    the listing succeeds it holds every bus once, in the order the buses
    were created, and each entry is what [getBus] returns for its id. When
    it fails, the error is the one [getBus] raises for some bus of the
    store: one bus with a missing city makes the whole listing fail. *)
Theorem getAllBuses_getBus s :
  reachable s ->
  match getAllBuses s with
  | Ok l =>
      map (fun r => Bus.id (BusWithCities.bus r)) l = mkeys (buses s)
      /\ forall r, In r l ->
                   getBus (Bus.id (BusWithCities.bus r)) s = Ok (Some r)
  | Throw e =>
      exists id, In id (mkeys (buses s)) /\ getBus id s = Throw e
  end.
Proof.
  intros Hr. pose proof (reachable_WFC s Hr) as Hc.
  unfold getAllBuses.
  destruct (mapResult (withCities s) (mvalues (buses s))) as [l|e] eqn:E.
  - split.
    + rewrite (mapResult_map (withCities s)
                 (fun r => Bus.id (BusWithCities.bus r)) Bus.id _ _ E).
      * unfold mvalues, mkeys. rewrite map_map. apply map_ext_in.
        intros [k b] Hin. simpl. symmetry. now apply (wfc_bus_ids s Hc).
      * intros x y _ Hxy. now rewrite (withCities_bus _ _ _ Hxy).
    + intros r Hin. destruct (mapResult_In _ _ _ _ E Hin) as (bus & Hb & Hw).
      rewrite (withCities_bus _ _ _ Hw), getBus_withCities.
      now rewrite (bus_stored s bus Hc Hb), Hw.
  - destruct (mapResult_Throw _ _ _ E) as (bus & Hb & Hw).
    exists (Bus.id bus). split.
    + apply (bus_stored s bus Hc) in Hb.
      apply (mget_Some_in Z.eqb_spec) in Hb.
      now apply (in_map fst) in Hb.
    + rewrite getBus_withCities.
      now rewrite (bus_stored s bus Hc Hb), Hw.
Qed.

Lemma getAllBuses_getBus_witness :
  reachable initialStorage
  /\ match getAllBuses initialStorage with
     | Ok l =>
         map (fun r => Bus.id (BusWithCities.bus r)) l
         = mkeys (buses initialStorage)
         /\ forall r, In r l ->
                      getBus (Bus.id (BusWithCities.bus r)) initialStorage
                      = Ok (Some r)
     | Throw e =>
         exists id, In id (mkeys (buses initialStorage))
                    /\ getBus id initialStorage = Throw e
     end.
Proof.
  assert (Hr : reachable initialStorage) by (exists []; reflexivity).
  split; [exact Hr | exact (getAllBuses_getBus initialStorage Hr)].
Defined.

Lemma withCities_ext s s' bus :
  cities s' = cities s -> withCities s' bus = withCities s bus.
Proof. unfold withCities. now intros ->. Qed.

(** X11. [createBus] does not look at the cities of the bus. On a reachable
    store whose listing works, creating a bus with a departure or arrival
    city that does not exist succeeds and returns the bus; from then on
    [getAllBuses] throws for everybody, and so does [getBus] on the new
    id. *)
Theorem createBus_unknown_city_breaks_listing b s l :
  reachable s ->
  getAllBuses s = Ok l ->
  getCity (InsertBus.fromCityId b) s = None
  \/ getCity (InsertBus.toCityId b) s = None ->
  snd (createBus b s) = Bus.of_insert (busIdCounter s) b
  /\ getAllBuses (fst (createBus b s))
     = Throw (JsError ("City not found for bus "
                         ++ num_to_string (busIdCounter s))%string)
  /\ getBus (busIdCounter s) (fst (createBus b s))
     = Throw (JsError ("City not found for bus "
                         ++ num_to_string (busIdCounter s))%string).
Proof.
  intros Hr Hall Hcity. pose proof (reachable_WFC s Hr) as Hc.
  split; [reflexivity|].
  assert (Hnew : withCities s (Bus.of_insert (busIdCounter s) b)
                 = Throw (JsError
                            ("City not found for bus "
                               ++ num_to_string (busIdCounter s))%string)).
  { unfold withCities, getCity in *.
    cbn [Bus.fromCityId Bus.toCityId Bus.id Bus.of_insert].
    destruct Hcity as [-> | ->]; [reflexivity|].
    destruct (mget Z.eqb (InsertBus.fromCityId b) (cities s)); reflexivity. }
  rewrite (createBus_eq b s Hc). split.
  - unfold getAllBuses, mvalues. cbn [buses].
    rewrite map_app, mapResult_app.
    rewrite (mapResult_ext_in _ (withCities s)) by
      (intros; now apply withCities_ext).
    unfold getAllBuses, mvalues in Hall. rewrite Hall.
    cbn [map snd mapResult].
    rewrite (withCities_ext s) by reflexivity. rewrite Hnew. reflexivity.
  - rewrite getBus_withCities. cbn [buses].
    rewrite (mget_appended _ _ _ (wfc_bus_below s Hc)).
    rewrite (withCities_ext s) by reflexivity. now rewrite Hnew.
Qed.

Lemma createBus_unknown_city_breaks_listing_witness :
  reachable initialStorage
  /\ option_map (map (fun r => Bus.id (BusWithCities.bus r)))
       (returned (getAllBuses initialStorage))
     = Some [1; 2; 3; 4; 5]
  /\ getAllBuses (fst (createBus ghostBus initialStorage))
     = Throw (JsError "City not found for bus 6").
Proof.
  assert (Hr : reachable initialStorage) by (exists []; reflexivity).
  assert (Hx : exists l, getAllBuses initialStorage = Ok l
                         /\ map (fun r => Bus.id (BusWithCities.bus r)) l
                            = [1; 2; 3; 4; 5]).
  { vm_compute. eexists. split; reflexivity. }
  destruct Hx as (l & Hl & Hids).
  assert (Hcity : getCity (InsertBus.fromCityId ghostBus) initialStorage
                  = None) by (vm_compute; reflexivity).
  assert (Hc : busIdCounter initialStorage = 6) by (vm_compute; reflexivity).
  destruct (createBus_unknown_city_breaks_listing ghostBus initialStorage l
              Hr Hl (or_introl Hcity)) as (_ & H & _).
  rewrite Hc in H.
  split; [exact Hr|]. split; [|exact H].
  rewrite Hl. simpl. now rewrite Hids.
Defined.

Section SearchBusesFacts.

Variable parseInt : string -> option Z.

Lemma numberIs_true z n : numberIs z n = true -> n = Integer z.
Proof.
  destruct n as [|c|]; simpl; try discriminate.
  intros H. apply Z.eqb_eq in H. now subst.
Qed.

Lemma searchFilter_In params buses bus :
  In bus (searchFilter parseInt params buses) ->
  In bus buses
  /\ (forall n, SearchBusParams.fromCityId params = Some n ->
                numberTruthy n = true -> n = Integer (Bus.fromCityId bus))
  /\ (forall n, SearchBusParams.toCityId params = Some n ->
                numberTruthy n = true -> n = Integer (Bus.toCityId bus))
  /\ (forall range min,
        SearchBusParams.priceRange params = Some range -> range <> "" ->
        fst (priceBounds parseInt range) = Some min ->
        min * 100 <= Bus.price bus)
  /\ (forall range min max,
        SearchBusParams.priceRange params = Some range -> range <> "" ->
        priceBounds parseInt range = (Some min, Some max) ->
        Bus.price bus <= max * 100).
Proof.
  unfold searchFilter. destruct params as [f t d p]. simpl.
  set (l1 := match f with
             | Some c =>
                 if numberTruthy c
                 then filter (fun bus => numberIs (Bus.fromCityId bus) c) buses
                 else buses
             | None => buses
             end).
  set (l2 := match t with
             | Some c =>
                 if numberTruthy c
                 then filter (fun bus => numberIs (Bus.toCityId bus) c) l1
                 else l1
             | None => l1
             end).
  intros Hin.
  assert (H3 : In bus l2
               /\ (forall range min,
                     p = Some range -> range <> "" ->
                     fst (priceBounds parseInt range) = Some min ->
                     min * 100 <= Bus.price bus)
               /\ (forall range min max,
                     p = Some range -> range <> "" ->
                     priceBounds parseInt range = (Some min, Some max) ->
                     Bus.price bus <= max * 100)).
  { destruct p as [range|]; [|split; [exact Hin | split; discriminate]].
    destruct (String.eqb_spec range "") as [->|Hne].
    { split; [exact Hin|]. split; intros ? ?; [|intros ?]; intros [= <-];
        congruence. }
    destruct (priceBounds parseInt range) as [[min|] [max|]] eqn:Eb;
      simpl in Hin.
    - apply filter_In in Hin. destruct Hin as (Hin & Hp).
      apply andb_prop in Hp. destruct Hp as (H1 & H2).
      apply Z.leb_le in H1, H2.
      split; [exact Hin|]. split.
      + intros r m [= <-] _. rewrite Eb. now intros [= <-].
      + intros r m m' [= <-] _. rewrite Eb. now intros [= <- <-].
    - apply filter_In in Hin. destruct Hin as (Hin & Hp).
      apply Z.leb_le in Hp.
      split; [exact Hin|]. split.
      + intros r m [= <-] _. rewrite Eb. now intros [= <-].
      + intros r m m' [= <-] _. rewrite Eb. discriminate.
    - split; [exact Hin|]. split.
      + intros r m [= <-] _. rewrite Eb. discriminate.
      + intros r m m' [= <-] _. rewrite Eb. discriminate.
    - split; [exact Hin|]. split.
      + intros r m [= <-] _. rewrite Eb. discriminate.
      + intros r m m' [= <-] _. rewrite Eb. discriminate. }
  destruct H3 as (H2 & Hmin & Hmax).
  assert (H2' : In bus l1
                /\ forall n, t = Some n -> numberTruthy n = true ->
                             n = Integer (Bus.toCityId bus)).
  { subst l2. destruct t as [c|]; [|split; [exact H2 | discriminate]].
    destruct (numberTruthy c) eqn:Et.
    - apply filter_In in H2. destruct H2 as (H2 & Hp).
      apply numberIs_true in Hp. split; [exact H2|]. now intros n [= <-].
    - split; [exact H2|]. intros n [= <-]. congruence. }
  destruct H2' as (H1 & Hto).
  assert (H1' : In bus buses
                /\ forall n, f = Some n -> numberTruthy n = true ->
                             n = Integer (Bus.fromCityId bus)).
  { subst l1. destruct f as [c|]; [|split; [exact H1 | discriminate]].
    destruct (numberTruthy c) eqn:Et.
    - apply filter_In in H1. destruct H1 as (H1 & Hp).
      apply numberIs_true in Hp. split; [exact H1|]. now intros n [= <-].
    - split; [exact H1|]. intros n [= <-]. congruence. }
  destruct H1' as (H0 & Hfrom).
  repeat split; assumption.
Qed.

(** X12. What [searchBuses] returns, when it returns: every result is a bus
    of the store with its two cities attached, and it passes each filter
    that is active. A city filter is active when the id is given and is
    neither 0 nor [NaN]; the id is then the city id of the bus (so an id
    that is not an integer selects nothing). The price filter is active
    when the range is not empty and its first part parses; the bounds are
    the parsed numbers times 100, and the upper bound applies only when the
    second part parses too. *)
Theorem searchBuses_results params s l r :
  searchBuses parseInt params s = Ok l ->
  In r l ->
  In (BusWithCities.bus r) (mvalues (buses s))
  /\ withCities s (BusWithCities.bus r) = Ok r
  /\ (forall n, SearchBusParams.fromCityId params = Some n ->
                numberTruthy n = true ->
                n = Integer (Bus.fromCityId (BusWithCities.bus r)))
  /\ (forall n, SearchBusParams.toCityId params = Some n ->
                numberTruthy n = true ->
                n = Integer (Bus.toCityId (BusWithCities.bus r)))
  /\ (forall range min,
        SearchBusParams.priceRange params = Some range -> range <> "" ->
        fst (priceBounds parseInt range) = Some min ->
        min * 100 <= Bus.price (BusWithCities.bus r))
  /\ (forall range min max,
        SearchBusParams.priceRange params = Some range -> range <> "" ->
        priceBounds parseInt range = (Some min, Some max) ->
        Bus.price (BusWithCities.bus r) <= max * 100).
Proof.
  unfold searchBuses. intros E Hin.
  destruct (mapResult_In _ _ _ _ E Hin) as (bus & Hb & Hw).
  rewrite (withCities_bus _ _ _ Hw).
  destruct (searchFilter_In _ _ _ Hb) as (H0 & H1 & H2 & H3 & H4).
  repeat split; assumption.
Qed.

(** X13. The cases in which [searchBuses] filters nothing and is
    [getAllBuses]: each city id is absent, 0 or [NaN], and the price range
    is absent, empty, or has a first part that does not parse (a range such
    as [-500], whose first part is empty, sets no upper bound either). The
    date never matters. *)
Theorem searchBuses_inactive_filters params s :
  SearchBusParams.fromCityId params = None
  \/ SearchBusParams.fromCityId params = Some (Integer 0)
  \/ SearchBusParams.fromCityId params = Some NaN ->
  SearchBusParams.toCityId params = None
  \/ SearchBusParams.toCityId params = Some (Integer 0)
  \/ SearchBusParams.toCityId params = Some NaN ->
  SearchBusParams.priceRange params = None
  \/ SearchBusParams.priceRange params = Some ""
  \/ (exists range, SearchBusParams.priceRange params = Some range
                    /\ fst (priceBounds parseInt range) = None) ->
  searchBuses parseInt params s = getAllBuses s.
Proof.
  intros Hf Ht Hp. unfold searchBuses, getAllBuses. f_equal.
  unfold searchFilter. destruct params as [f t d p]. simpl in *.
  assert (E1 : match f with
               | Some c =>
                   if numberTruthy c
                   then filter (fun bus => numberIs (Bus.fromCityId bus) c)
                          (mvalues (buses s))
                   else mvalues (buses s)
               | None => mvalues (buses s)
               end = mvalues (buses s))
    by (destruct Hf as [-> | [-> | ->]]; reflexivity).
  rewrite E1.
  assert (E2 : match t with
               | Some c =>
                   if numberTruthy c
                   then filter (fun bus => numberIs (Bus.toCityId bus) c)
                          (mvalues (buses s))
                   else mvalues (buses s)
               | None => mvalues (buses s)
               end = mvalues (buses s))
    by (destruct Ht as [-> | [-> | ->]]; reflexivity).
  rewrite E2.
  destruct Hp as [-> | [-> | (range & -> & Hb)]]; [reflexivity..|].
  destruct (String.eqb range ""); [reflexivity|].
  destruct (priceBounds parseInt range) as [[min|] max]; [discriminate|].
  reflexivity.
Qed.

(** X14. A price range whose two parts parse and whose upper bound is below
    its lower bound selects nothing: the bounds are not swapped, and the
    answer is the empty list on every store, also on one where
    [getAllBuses] throws. *)
Theorem searchBuses_reversed_range params s range min max :
  SearchBusParams.priceRange params = Some range ->
  range <> "" ->
  priceBounds parseInt range = (Some min, Some max) ->
  max < min ->
  searchBuses parseInt params s = Ok [].
Proof.
  intros Hp Hne Hb Hlt. unfold searchBuses.
  replace (searchFilter parseInt params (mvalues (buses s))) with (@nil Bus.t);
    [reflexivity|].
  unfold searchFilter. rewrite Hp.
  destruct (String.eqb_spec range ""); [contradiction|].
  rewrite Hb. symmetry. apply filter_nil. intros bus _.
  apply andb_false_iff.
  destruct (Z.leb_spec (min * 100) (Bus.price bus)); [right | now left].
  apply Z.leb_gt. lia.
Qed.

End SearchBusesFacts.

Lemma searchBuses_results_witness :
  option_map (map (fun r => Bus.id (BusWithCities.bus r)))
    (returned (searchBuses parseDigits
                 (SearchBusParams.mk (Some (Integer 1)) None None
                    (Some "20-50"))
                 initialStorage))
  = Some [1; 2]
  /\ 20 * 100 <= 4500 <= 50 * 100.
Proof.
  assert (Hs : searchBuses parseDigits
                 (SearchBusParams.mk (Some (Integer 1)) None None
                    (Some "20-50"))
                 initialStorage
               = Ok [karnatakaExpress;
                     BusWithCities.mk
                       (Bus.mk 2 "Telangana Travels" "Standard" 1 2 "09:00"
                          "16:30" "7h 30m" 2850 40 (Some ["ac"]) (Some 310)
                          (Some 85))
                       (City.mk 1 "Bangalore, Karnataka")
                       (City.mk 2 "Hyderabad, Telangana")])
    by (vm_compute; reflexivity).
  assert (Hb : priceBounds parseDigits "20-50" = (Some 20, Some 50))
    by (vm_compute; reflexivity).
  assert (Hne : "20-50" <> "") by discriminate.
  destruct (searchBuses_results parseDigits _ _ _ karnatakaExpress Hs
              (or_introl eq_refl)) as (_ & _ & _ & _ & Hmin & Hmax).
  split; [rewrite Hs; reflexivity|].
  split.
  - exact (Hmin "20-50" 20 eq_refl Hne (f_equal fst Hb)).
  - exact (Hmax "20-50" 20 50 eq_refl Hne Hb).
Defined.

Lemma searchBuses_inactive_filters_witness :
  searchBuses parseDigits
    (SearchBusParams.mk (Some (Integer 0)) (Some NaN) (Some "2025-06-01")
       (Some "-500"))
    initialStorage
  = getAllBuses initialStorage.
Proof.
  apply searchBuses_inactive_filters.
  - right. left. reflexivity.
  - right. right. reflexivity.
  - right. right. exists "-500". split; [reflexivity|].
    vm_compute. reflexivity.
Defined.

Lemma searchBuses_reversed_range_witness :
  searchBuses parseDigits
    (SearchBusParams.mk None None None (Some "50-20"))
    (fst (createBus ghostBus initialStorage))
  = Ok [].
Proof.
  apply (searchBuses_reversed_range parseDigits _ _ "50-20" 50 20).
  - reflexivity.
  - discriminate.
  - vm_compute. reflexivity.
  - lia.
Defined.


(** * The routes *)

Lemma getSeatAvailability_keeps busId date s :
  cities (fst (getSeatAvailability busId date s)) = cities s
  /\ buses (fst (getSeatAvailability busId date s)) = buses s
  /\ seatLayouts (fst (getSeatAvailability busId date s)) = seatLayouts s
  /\ bookings (fst (getSeatAvailability busId date s)) = bookings s
  /\ bookingDetails (fst (getSeatAvailability busId date s))
     = bookingDetails s.
Proof.
  unfold getSeatAvailability, getOrCreateTrip.
  destruct (findTrip busId date s); [repeat split|].
  destruct (getBus busId s) as [[bus|]|e]; repeat split.
Qed.

Lemma cancel_after_get id s b :
  getBooking id s = Ok (Some b) ->
  exists b0,
    mget Z.eqb id (bookings s) = Some b0
    /\ BookingWithDetails.booking b = b0
    /\ snd (cancelBooking id s)
       = Ok (BookingWithDetails.mk (Booking.set_status "cancelled" b0)
               (BookingWithDetails.bus b) (BookingWithDetails.fromCity b)
               (BookingWithDetails.toCity b) (BookingWithDetails.seats b)).
Proof.
  unfold getBooking.
  destruct (mget Z.eqb id (bookings s)) as [b0|] eqn:E; [|discriminate].
  destruct (getBookingWithDetails b0 s) as [bwd|e] eqn:Eb; [|discriminate].
  intros [= <-]. exists b0. split; [reflexivity|].
  split; [now apply (getBookingWithDetails_booking b0 s)|].
  now rewrite (cancelBooking_result id s b0 E), Eb.
Qed.

Section RoutesFacts.

Variable parseInt : string -> option Z.
Variable toNumber : string -> JsNumber.

(** What a request does to the store: nothing, one catalogue operation on
    behalf of an administrator, [getSeatAvailability], [createBooking] in the
    name of the session user, or [cancelBooking] of a booking that the
    session user owns or administers. *)
Lemma handle_cases user c s :
  fst (handle parseInt toNumber user c s) = s
  \/ (exists u o,
        user = Some u /\ SessionUser.isAdmin u = true
        /\ sameLedger s (step s o)
        /\ fst (handle parseInt toNumber user c s) = step s o)
  \/ (exists id busId d,
        c = GetSeats id (Some d) /\ parseInt id = Some busId
        /\ fst (handle parseInt toNumber user c s)
           = step s (OpGetSeatAvailability busId d))
  \/ (exists u ib seats now,
        user = Some u /\ c = PostBooking (Some (ib, seats)) now
        /\ fst (handle parseInt toNumber user c s)
           = step s (OpCreateBooking (withUserId (SessionUser.id u) ib)
                       seats now))
  \/ (exists u id bookingId b,
        user = Some u /\ c = CancelBooking id
        /\ parseInt id = Some bookingId
        /\ getBooking bookingId s = Ok (Some b)
        /\ (SessionUser.isAdmin u = true
            \/ Booking.userId (BookingWithDetails.booking b)
               = SessionUser.id u)
        /\ fst (handle parseInt toNumber user c s)
           = step s (OpCancelBooking bookingId)).
Proof.
  destruct c as [|body|from to date priceRange|body|id|id body|id|id date
                 |body now| |id|id]; cbn [handle].
  - now left.
  - unfold postCityRoute, isAdmin.
    destruct user as [u|]; [|now left].
    destruct (SessionUser.isAdmin u) eqn:Ea; [|now left].
    destruct body as [name|]; [|now left].
    right; left. exists u, (OpCreateCity name).
    split; [reflexivity|]. split; [exact Ea|].
    split; [apply sameLedger_createCity | reflexivity].
  - left. unfold getBusesRoute.
    destruct (truthy from || truthy to || truthy date).
    + now destruct (searchBuses _ _ s).
    + now destruct (getAllBuses s).
  - unfold postBusRoute, isAdmin.
    destruct user as [u|]; [|now left].
    destruct (SessionUser.isAdmin u) eqn:Ea; [|now left].
    destruct body as [b|]; [|now left].
    right; left. exists u, (OpCreateBus b).
    split; [reflexivity|]. split; [exact Ea|].
    split; [apply sameLedger_createBus | reflexivity].
  - left. unfold getBusRoute.
    destruct (parseInt id); [|reflexivity].
    now destruct (getBus z s) as [[bus|]|e].
  - unfold putBusRoute, isAdmin.
    destruct user as [u|]; [|now left].
    destruct (SessionUser.isAdmin u) eqn:Ea; [|now left].
    destruct (parseInt id) as [busId|]; [|now left].
    destruct body as [b|]; [|now left].
    right; left. exists u, (OpUpdateBus busId b).
    split; [reflexivity|]. split; [exact Ea|].
    split; [apply sameLedger_updateBus|].
    cbn [step]. now destruct (updateBus busId b s) as [s' [bus|]].
  - unfold deleteBusRoute, isAdmin.
    destruct user as [u|]; [|now left].
    destruct (SessionUser.isAdmin u) eqn:Ea; [|now left].
    destruct (parseInt id) as [busId|]; [|now left].
    right; left. exists u, (OpDeleteBus busId).
    split; [reflexivity|]. split; [exact Ea|].
    split; [apply sameLedger_deleteBus|].
    cbn [step]. unfold deleteBus.
    now destruct (negb (mhas Z.eqb busId (buses s))).
  - unfold getSeatsRoute.
    destruct (parseInt id) as [busId|] eqn:Ep; [|now left].
    destruct date as [d|]; [|now left].
    destruct (negb (truthy (Some d))); [now left|].
    right; right; left. exists id, busId, d.
    split; [reflexivity|]. split; [exact Ep|].
    cbn [step]. now destruct (getSeatAvailability busId d s) as [s' [l|e]].
  - unfold postBookingRoute, isAuthenticated.
    destruct user as [u|]; [|now left].
    destruct body as [[ib seats]|]; [|now left].
    right; right; right; left. exists u, ib, seats, now.
    split; [reflexivity|]. split; [reflexivity|].
    cbn [step].
    now destruct (createBooking (withUserId (SessionUser.id u) ib) seats now s)
      as [s' [b|e]].
  - left. unfold getBookingsRoute, isAuthenticated.
    destruct user as [u|]; [|reflexivity].
    now destruct (if SessionUser.isAdmin u then getAllBookings s
                  else getUserBookings (SessionUser.id u) s).
  - left. unfold getBookingRoute, isAuthenticated.
    destruct user as [u|]; [|reflexivity].
    destruct (parseInt id) as [bookingId|]; [|reflexivity].
    destruct (getBooking bookingId s) as [[b|]|e]; try reflexivity.
    now destruct (negb (SessionUser.isAdmin u) && _).
  - unfold cancelBookingRoute, isAuthenticated.
    destruct user as [u|]; [|now left].
    destruct (parseInt id) as [bookingId|] eqn:Ep; [|now left].
    destruct (getBooking bookingId s) as [[b|]|e] eqn:Eg; try now left.
    destruct (negb (SessionUser.isAdmin u)
              && negb (Booking.userId (BookingWithDetails.booking b)
                       =? SessionUser.id u)) eqn:Eguard; [now left|].
    right; right; right; right. exists u, id, bookingId, b.
    split; [reflexivity|]. split; [reflexivity|]. split; [exact Ep|].
    split; [exact Eg|]. split.
    + apply andb_false_iff in Eguard. destruct Eguard as [E|E].
      * left. now apply negb_false_iff in E.
      * right. apply negb_false_iff in E. now apply Z.eqb_eq in E.
    + cbn [step]. now destruct (cancelBooking bookingId s) as [s' [b'|e]].
Qed.

(** X15. Whatever requests arrive, the store stays one that a history of
    storage operations produces from the seeded store: each route makes at
    most one storage call that writes, so everything proved of reachable
    stores holds behind the routes. *)
Theorem routes_keep_reachable user c s :
  reachable s -> reachable (fst (handle parseInt toNumber user c s)).
Proof.
  intros Hr.
  destruct (handle_cases user c s)
    as [E | [(u & o & _ & _ & _ & E) | [(id & busId & d & _ & _ & E)
       | [(u & ib & seats & now & _ & _ & E)
       | (u & id & bookingId & b & _ & _ & _ & _ & _ & E)]]]];
    rewrite E; try exact Hr; now apply reachable_step.
Qed.

(** X16. A user who is not an administrator can neither change nor create a
    booking record of another user, by any request: a record whose [userId]
    is not the session user's is in the store after the request exactly when
    it was there before, under the same id. *)
Theorem other_users_bookings_untouched u c s id b :
  reachable s ->
  SessionUser.isAdmin u = false ->
  Booking.userId b <> SessionUser.id u ->
  mget Z.eqb id (bookings (fst (handle parseInt toNumber (Some u) c s)))
  = Some b
  <-> mget Z.eqb id (bookings s) = Some b.
Proof.
  intros Hr Hna Hother. pose proof (reachable_WF s Hr) as Hwf.
  destruct (handle_cases (Some u) c s)
    as [E | [(u' & o & [= <-] & Ha & _) | [(i & busId & d & _ & _ & E)
       | [(u' & ib & seats & now & [= <-] & _ & E)
       | (u' & i & bookingId & b1 & [= <-] & _ & _ & Hg & Hown & E)]]]];
    try rewrite E.
  - reflexivity.
  - congruence.
  - cbn [step].
    now rewrite (proj1 (proj2 (proj2 (proj2
                   (getSeatAvailability_keeps busId d s))))).
  - cbn [step].
    rewrite (createBooking_eq _ seats now s Hwf). cbn [fst bookings].
    rewrite <- (mset_fresh _ _ _ (fresh_key _ _ (wf_booking_below s Hwf))).
    destruct (Z.eq_dec id (bookingIdCounter s)) as [->|Hne].
    + rewrite (mget_mset_same Z.eqb_spec).
      rewrite (fresh_key _ _ (wf_booking_below s Hwf)).
      split; [|discriminate]. intros [= <-]. now elim Hother.
    + rewrite (mget_mset_other Z.eqb_spec) by congruence. reflexivity.
  - cbn [step].
    destruct (cancel_after_get bookingId s b1 Hg) as (b0 & Hb0 & Hb1 & _).
    rewrite (cancelBooking_eq bookingId s b0 Hb0). cbn [fst bookings].
    assert (Hmine : Booking.userId b0 = SessionUser.id u).
    { destruct Hown as [Ha|Ho]; [congruence|]. now rewrite <- Hb1. }
    destruct (Z.eq_dec id bookingId) as [->|Hne].
    + rewrite (mget_mset_same Z.eqb_spec), Hb0.
      split; intros [= <-]; elim Hother; [|exact Hmine].
      destruct b0; exact Hmine.
    + rewrite (mget_mset_other Z.eqb_spec) by congruence. reflexivity.
Qed.

(** X17. What an unauthenticated client can do to the store: nothing, except
    through the seat map of a bus, which opens the trip of that bus and date
    when there is none. Of every other request the store is unchanged, and
    in all cases the cities, buses, seat layouts, bookings and booking
    details are. No booking is shown. *)
Theorem unauthenticated_requests c s :
  ((forall id date, c <> GetSeats id date) ->
   fst (handle parseInt toNumber None c s) = s)
  /\ cities (fst (handle parseInt toNumber None c s)) = cities s
  /\ buses (fst (handle parseInt toNumber None c s)) = buses s
  /\ seatLayouts (fst (handle parseInt toNumber None c s)) = seatLayouts s
  /\ bookings (fst (handle parseInt toNumber None c s)) = bookings s
  /\ bookingDetails (fst (handle parseInt toNumber None c s))
     = bookingDetails s
  /\ shownBookings (snd (handle parseInt toNumber None c s)) = [].
Proof.
  assert (Hshown : shownBookings (snd (handle parseInt toNumber None c s))
                   = []).
  { destruct c as [|body|from to date priceRange|body|id|id body|id|id date
                   |body now| |id|id]; cbn [handle]; try reflexivity.
    - unfold getBusesRoute.
      destruct (truthy from || truthy to || truthy date).
      + now destruct (searchBuses _ _ s).
      + now destruct (getAllBuses s).
    - unfold getBusRoute. destruct (parseInt id); [|reflexivity].
      now destruct (getBus z s) as [[bus|]|e].
    - unfold getSeatsRoute.
      destruct (parseInt id) as [busId|]; [|reflexivity].
      destruct date as [d|]; [|reflexivity].
      destruct (negb (truthy (Some d))); [reflexivity|].
      now destruct (getSeatAvailability busId d s) as [s' [l|e]]. }
  destruct (handle_cases None c s)
    as [E | [(u' & o & [=] & _) | [(i & busId & d & -> & _ & E)
       | [(u' & ib & seats & now & [=] & _)
       | (u' & i & bookingId & b1 & [=] & _)]]]].
  - rewrite E. repeat split; try reflexivity. exact Hshown.
  - rewrite E. cbn [step].
    destruct (getSeatAvailability_keeps busId d s) as (H1 & H2 & H3 & H4 & H5).
    split; [intros H; now elim (H i (Some d))|].
    repeat split; assumption.
Qed.

(** X18. A booking is shown only to its owner or to an administrator: every
    booking in a response, of whatever request, was requested by an
    authenticated user, and that user is an administrator or the [userId] of
    the booking. This includes the booking that [POST /api/bookings]
    returns, which carries the session user's id whatever [userId] the body
    gave. *)
Theorem bookings_shown_to_owner_or_admin user c s b :
  In b (shownBookings (snd (handle parseInt toNumber user c s))) ->
  exists u,
    user = Some u
    /\ (SessionUser.isAdmin u = true
        \/ Booking.userId (BookingWithDetails.booking b) = SessionUser.id u)
    /\ (forall body now,
          c = PostBooking body now ->
          Booking.userId (BookingWithDetails.booking b) = SessionUser.id u).
Proof.
  destruct c as [|body|from to date priceRange|body|id|id body|id|id date
                 |body now| |id|id]; cbn [handle].
  - intros [].
  - unfold postCityRoute, isAdmin. destruct user as [u|]; [|intros []].
    destruct (SessionUser.isAdmin u); [|intros []].
    destruct body; intros [].
  - unfold getBusesRoute.
    destruct (truthy from || truthy to || truthy date).
    + destruct (searchBuses _ _ s); intros [].
    + destruct (getAllBuses s); intros [].
  - unfold postBusRoute, isAdmin. destruct user as [u|]; [|intros []].
    destruct (SessionUser.isAdmin u); [|intros []].
    destruct body; intros [].
  - unfold getBusRoute. destruct (parseInt id); [|intros []].
    destruct (getBus z s) as [[bus|]|e]; intros [].
  - unfold putBusRoute, isAdmin. destruct user as [u|]; [|intros []].
    destruct (SessionUser.isAdmin u); [|intros []].
    destruct (parseInt id) as [busId|]; [|intros []].
    destruct body as [ib|]; [|intros []].
    destruct (updateBus busId ib s) as [s' [bus|]]; intros [].
  - unfold deleteBusRoute, isAdmin. destruct user as [u|]; [|intros []].
    destruct (SessionUser.isAdmin u); [|intros []].
    destruct (parseInt id) as [busId|]; [|intros []].
    unfold deleteBus. destruct (negb _); intros [].
  - unfold getSeatsRoute. destruct (parseInt id) as [busId|]; [|intros []].
    destruct date as [d|]; [|intros []].
    destruct (negb (truthy (Some d))); [intros []|].
    destruct (getSeatAvailability busId d s) as [s' [l|e]]; intros [].
  - unfold postBookingRoute, isAuthenticated.
    destruct user as [u|]; [|intros []].
    destruct body as [[ib seats]|]; [|intros []].
    destruct (createBooking (withUserId (SessionUser.id u) ib) seats now s)
      as [s' [b'|e]] eqn:E; [|intros []].
    intros [<-|[]]. exists u. split; [reflexivity|].
    apply (f_equal snd) in E. unfold createBooking in E. cbn [snd] in E.
    apply getBookingWithDetails_booking in E.
    assert (Hu : Booking.userId (BookingWithDetails.booking b')
                 = SessionUser.id u) by now rewrite E.
    split; [now right | intros _ _ _; exact Hu].
  - unfold getBookingsRoute, isAuthenticated.
    destruct user as [u|]; [|intros []].
    destruct (SessionUser.isAdmin u) eqn:Ea.
    + intros _. exists u. split; [reflexivity|].
      split; [now left | intros ? ? H; discriminate H].
    + destruct (getUserBookings (SessionUser.id u) s) as [l|e] eqn:E;
        [|intros []].
      cbn [snd shownBookings json]. intros Hin.
      exists u. split; [reflexivity|].
      split; [|intros ? ? H; discriminate H]. right.
      unfold getUserBookings in E.
      destruct (mapResult_In _ _ _ _ E Hin) as (b0 & Hb0 & Hw).
      apply filter_In in Hb0. destruct Hb0 as (_ & Hu).
      apply Z.eqb_eq in Hu.
      now rewrite (getBookingWithDetails_booking _ _ _ Hw).
  - unfold getBookingRoute, isAuthenticated.
    destruct user as [u|]; [|intros []].
    destruct (parseInt id) as [bookingId|]; [|intros []].
    destruct (getBooking bookingId s) as [[b'|]|e]; try (intros []).
    destruct (negb (SessionUser.isAdmin u)
              && negb (Booking.userId (BookingWithDetails.booking b')
                       =? SessionUser.id u)) eqn:Eguard; [intros []|].
    intros [<-|[]]. exists u. split; [reflexivity|].
    split; [|intros ? ? H; discriminate H].
    apply andb_false_iff in Eguard. destruct Eguard as [E|E].
    + left. now apply negb_false_iff in E.
    + right. apply negb_false_iff in E. now apply Z.eqb_eq in E.
  - unfold cancelBookingRoute, isAuthenticated.
    destruct user as [u|]; [|intros []].
    destruct (parseInt id) as [bookingId|]; [|intros []].
    destruct (getBooking bookingId s) as [[b'|]|e] eqn:Eg; try (intros []).
    destruct (negb (SessionUser.isAdmin u)
              && negb (Booking.userId (BookingWithDetails.booking b')
                       =? SessionUser.id u)) eqn:Eguard; [intros []|].
    destruct (cancel_after_get bookingId s b' Eg) as (b0 & Hb0 & Hb' & Hc).
    destruct (cancelBooking bookingId s) as [s' [b''|e]]; [|intros []].
    cbn [snd] in Hc. injection Hc as ->.
    intros [<-|[]]. exists u. split; [reflexivity|].
    split; [|intros ? ? H; discriminate H].
    cbn [BookingWithDetails.booking].
    replace (Booking.userId (Booking.set_status "cancelled" b0))
      with (Booking.userId b0) by (now destruct b0).
    rewrite <- Hb'.
    apply andb_false_iff in Eguard. destruct Eguard as [E|E].
    + left. now apply negb_false_iff in E.
    + right. apply negb_false_iff in E. now apply Z.eqb_eq in E.
Qed.

Lemma with_buses_same s : with_buses (buses s) s = s.
Proof. now destruct s. Qed.

Lemma mdelete_absent {V : Type} (k : Z) (m : JsMap Z V) :
  mget Z.eqb k m = None -> mdelete Z.eqb k m = m.
Proof.
  induction m as [|[k' v] m IH]; simpl; [reflexivity|].
  destruct (Z.eqb k k'); [discriminate|]. intros H. now rewrite IH.
Qed.

(** X19. A request that is answered with an error leaves the store as it
    was: with 400, 401, 403 or 404 always, and with 500 on every route but
    [POST /api/bookings], whose booking stays in the store when
    [createBooking] throws. In particular [cancelBooking] is never entered
    for a booking that cannot be read, and a cancellation that was let
    through does not fail. *)
Theorem error_responses_leave_store user c s :
  statusCode (snd (handle parseInt toNumber user c s)) <> 200 ->
  statusCode (snd (handle parseInt toNumber user c s)) <> 201 ->
  (statusCode (snd (handle parseInt toNumber user c s)) = 500 ->
   forall body now, c <> PostBooking body now) ->
  fst (handle parseInt toNumber user c s) = s.
Proof.
  destruct c as [|body|from to date priceRange|body|id|id body|id|id date
                 |body now| |id|id]; cbn [handle].
  - reflexivity.
  - unfold postCityRoute, isAdmin. destruct user as [u|]; [|reflexivity].
    destruct (SessionUser.isAdmin u); [|reflexivity].
    destruct body as [name|]; [|reflexivity].
    cbn. intros _ H. now elim H.
  - intros _ _ _. unfold getBusesRoute.
    destruct (truthy from || truthy to || truthy date).
    + now destruct (searchBuses _ _ s).
    + now destruct (getAllBuses s).
  - unfold postBusRoute, isAdmin. destruct user as [u|]; [|reflexivity].
    destruct (SessionUser.isAdmin u); [|reflexivity].
    destruct body as [b|]; [|reflexivity].
    cbn [createBus snd statusCode]. intros _ H. now elim H.
  - intros _ _ _. unfold getBusRoute. destruct (parseInt id); [|reflexivity].
    now destruct (getBus z s) as [[bus|]|e].
  - unfold putBusRoute, isAdmin. destruct user as [u|]; [|reflexivity].
    destruct (SessionUser.isAdmin u); [|reflexivity].
    destruct (parseInt id) as [busId|]; [|reflexivity].
    destruct body as [b|]; [|reflexivity].
    unfold updateBus. destruct (negb (mhas Z.eqb busId (buses s)));
      [reflexivity|].
    cbn. intros H. now elim H.
  - unfold deleteBusRoute, isAdmin. destruct user as [u|]; [|reflexivity].
    destruct (SessionUser.isAdmin u); [|reflexivity].
    destruct (parseInt id) as [busId|]; [|reflexivity].
    unfold deleteBus, mhas.
    destruct (mget Z.eqb busId (buses s)) as [bus|] eqn:E; cbn.
    + intros H. now elim H.
    + intros _ _ _. rewrite (mdelete_absent _ _ E). apply with_buses_same.
  - unfold getSeatsRoute. destruct (parseInt id) as [busId|]; [|reflexivity].
    destruct date as [d|]; [|reflexivity].
    destruct (negb (truthy (Some d))); [reflexivity|].
    destruct (getSeatAvailability busId d s) as [s' [l|e]] eqn:E; cbn.
    + intros H. now elim H.
    + intros _ _ _. now apply getSeatAvailability_throw in E.
  - unfold postBookingRoute, isAuthenticated.
    destruct user as [u|]; [|reflexivity].
    destruct body as [[ib seats]|]; [|reflexivity].
    destruct (createBooking (withUserId (SessionUser.id u) ib) seats now s)
      as [s' [b|e]]; cbn.
    + intros _ H. now elim H.
    + intros _ _ H. now elim (H eq_refl (Some (ib, seats)) now).
  - intros _ _ _. unfold getBookingsRoute, isAuthenticated.
    destruct user as [u|]; [|reflexivity].
    now destruct (if SessionUser.isAdmin u then getAllBookings s
                  else getUserBookings (SessionUser.id u) s).
  - intros _ _ _. unfold getBookingRoute, isAuthenticated.
    destruct user as [u|]; [|reflexivity].
    destruct (parseInt id) as [bookingId|]; [|reflexivity].
    destruct (getBooking bookingId s) as [[b|]|e]; try reflexivity.
    now destruct (negb (SessionUser.isAdmin u) && _).
  - unfold cancelBookingRoute, isAuthenticated.
    destruct user as [u|]; [|reflexivity].
    destruct (parseInt id) as [bookingId|]; [|reflexivity].
    destruct (getBooking bookingId s) as [[b|]|e] eqn:Eg; try reflexivity.
    destruct (negb (SessionUser.isAdmin u) && _); [reflexivity|].
    destruct (cancel_after_get bookingId s b Eg) as (b0 & _ & _ & Hc).
    destruct (cancelBooking bookingId s) as [s' [b'|e]]; cbn.
    + intros H. now elim H.
    + discriminate Hc.
Qed.

(** X20. [GET /api/buses] applies a price range only together with another
    parameter. Without [from] and [to], on a store whose buses can be
    listed: when [date] is absent or empty too, every bus is returned,
    whatever the price range; when a date is given, whichever, the buses
    priced within the parsed bounds times 100 are returned, in the same
    order. *)
Theorem getBuses_route_price_range from to date range min max s all :
  truthy from = false ->
  truthy to = false ->
  range <> "" ->
  priceBounds parseInt range = (Some min, Some max) ->
  getAllBuses s = Ok all ->
  getBusesRoute parseInt toNumber from to date (Some range) s
  = (s,
     mkResponse 200
       (JBuses
          (if truthy date
           then filter
                  (fun r =>
                     (min * 100 <=? Bus.price (BusWithCities.bus r))
                     && (Bus.price (BusWithCities.bus r) <=? max * 100))
                  all
           else all))).
Proof.
  intros Hf Ht Hne Hb Hall. unfold getBusesRoute. rewrite Hf, Ht.
  cbn [orb]. destruct (truthy date); [|now rewrite Hall].
  unfold searchBuses, searchFilter.
  cbn [SearchBusParams.fromCityId SearchBusParams.toCityId
       SearchBusParams.priceRange].
  assert (Hqf : queryNumber toNumber from = None).
  { unfold queryNumber. destruct from; [now rewrite Hf | reflexivity]. }
  assert (Hqt : queryNumber toNumber to = None).
  { unfold queryNumber. destruct to; [now rewrite Ht | reflexivity]. }
  rewrite Hqf, Hqt.
  destruct (String.eqb_spec range ""); [contradiction|].
  rewrite Hb. unfold getAllBuses in Hall.
  rewrite (mapResult_filter _ _
             (fun r =>
                (min * 100 <=? Bus.price (BusWithCities.bus r))
                && (Bus.price (BusWithCities.bus r) <=? max * 100))
             _ _ Hall); [reflexivity|].
  intros x y _ Hxy. now rewrite (withCities_bus _ _ _ Hxy).
Qed.

End RoutesFacts.


Lemma routes_keep_reachable_witness :
  reachable initialStorage
  /\ reachable
       (fst (handle parseDigits digitsNumber None
               (GetSeats "1" (Some "2025-06-01")) initialStorage))
  /\ fst (handle parseDigits digitsNumber None
            (GetSeats "1" (Some "2025-06-01")) initialStorage)
     = tripOpened.
Proof.
  assert (Hr : reachable initialStorage) by (exists []; reflexivity).
  split; [exact Hr|]. split.
  - exact (routes_keep_reachable parseDigits digitsNumber None
             (GetSeats "1" (Some "2025-06-01")) initialStorage Hr).
  - vm_compute. reflexivity.
Defined.

Lemma other_users_bookings_untouched_witness :
  reachable seat2BBooked
  /\ mget Z.eqb 1
       (bookings (fst (handle parseDigits digitsNumber (Some stranger)
                         (CancelBooking "1") seat2BBooked)))
     = Some (Booking.mk 1 7 1 "2025-06-01" 0 "confirmed" 4500 "paid").
Proof.
  assert (Hr : reachable seat2BBooked).
  { exists [OpGetSeatAvailability 1 "2025-06-01";
            OpCreateBooking exampleRequest ["2B"] 0].
    vm_compute. reflexivity. }
  assert (Hb : mget Z.eqb 1 (bookings seat2BBooked)
               = Some (Booking.mk 1 7 1 "2025-06-01" 0 "confirmed" 4500
                         "paid")) by (vm_compute; reflexivity).
  assert (Hne : Booking.userId
                  (Booking.mk 1 7 1 "2025-06-01" 0 "confirmed" 4500 "paid")
                <> SessionUser.id stranger) by (intros H; discriminate H).
  split; [exact Hr|].
  exact (proj2 (other_users_bookings_untouched parseDigits digitsNumber
                  stranger (CancelBooking "1") seat2BBooked 1 _ Hr eq_refl
                  Hne) Hb).
Defined.

Lemma bookings_shown_to_owner_or_admin_witness :
  shownBookings (snd (handle parseDigits digitsNumber (Some owner)
                        (GetBooking "1") seat2BBooked))
  = [BookingWithDetails.mk
       (Booking.mk 1 7 1 "2025-06-01" 0 "confirmed" 4500 "paid")
       karnatakaExpress (City.mk 1 "Bangalore, Karnataka")
       (City.mk 2 "Hyderabad, Telangana") ["2B"]]
  /\ shownBookings (snd (handle parseDigits digitsNumber (Some stranger)
                           (GetBooking "1") seat2BBooked))
     = []
  /\ exists u,
       Some owner = Some u
       /\ (SessionUser.isAdmin u = true \/ 7 = SessionUser.id u)
       /\ (forall body now,
             GetBooking "1" = PostBooking body now -> 7 = SessionUser.id u).
Proof.
  assert (Hs : shownBookings (snd (handle parseDigits digitsNumber
                                     (Some owner) (GetBooking "1")
                                     seat2BBooked))
               = [BookingWithDetails.mk
                    (Booking.mk 1 7 1 "2025-06-01" 0 "confirmed" 4500 "paid")
                    karnatakaExpress (City.mk 1 "Bangalore, Karnataka")
                    (City.mk 2 "Hyderabad, Telangana") ["2B"]])
    by (vm_compute; reflexivity).
  assert (Hn : shownBookings (snd (handle parseDigits digitsNumber
                                     (Some stranger) (GetBooking "1")
                                     seat2BBooked))
               = []) by (vm_compute; reflexivity).
  split; [exact Hs|]. split; [exact Hn|].
  apply (bookings_shown_to_owner_or_admin parseDigits digitsNumber
           (Some owner) (GetBooking "1") seat2BBooked
           (BookingWithDetails.mk
              (Booking.mk 1 7 1 "2025-06-01" 0 "confirmed" 4500 "paid")
              karnatakaExpress (City.mk 1 "Bangalore, Karnataka")
              (City.mk 2 "Hyderabad, Telangana") ["2B"])).
  rewrite Hs. left. reflexivity.
Defined.


Lemma error_responses_leave_store_witness :
  statusCode (snd (handle parseDigits digitsNumber (Some stranger)
                     (CancelBooking "1") seat2BBooked))
  = 403
  /\ fst (handle parseDigits digitsNumber (Some stranger)
            (CancelBooking "1") seat2BBooked)
     = seat2BBooked.
Proof.
  assert (Hst : statusCode (snd (handle parseDigits digitsNumber
                                   (Some stranger) (CancelBooking "1")
                                   seat2BBooked))
                = 403) by (vm_compute; reflexivity).
  split; [exact Hst|].
  apply error_responses_leave_store; rewrite Hst; discriminate.
Defined.

Lemma getBuses_route_price_range_witness :
  map (fun r => (Bus.id (BusWithCities.bus r), Bus.price (BusWithCities.bus r)))
      (shownBuses (snd (getBusesRoute parseDigits digitsNumber None None
                          (Some "2025-06-01") (Some "20-50") initialStorage)))
  = [(1, 4500); (2, 2850)]
  /\ map (fun r =>
            (Bus.id (BusWithCities.bus r), Bus.price (BusWithCities.bus r)))
         (shownBuses (snd (getBusesRoute parseDigits digitsNumber None None
                             None (Some "20-50") initialStorage)))
     = [(1, 4500); (2, 2850); (3, 5200); (4, 8500); (5, 9900)].
Proof.
  assert (Hall : getAllBuses initialStorage = Ok seededBuses)
    by (vm_compute; reflexivity).
  assert (Hb : priceBounds parseDigits "20-50" = (Some 20, Some 50))
    by (vm_compute; reflexivity).
  assert (Hne : "20-50" <> "") by discriminate.
  split.
  - rewrite (getBuses_route_price_range parseDigits digitsNumber None None
               (Some "2025-06-01") "20-50" 20 50 initialStorage seededBuses
               eq_refl eq_refl Hne Hb Hall).
    vm_compute. reflexivity.
  - rewrite (getBuses_route_price_range parseDigits digitsNumber None None
               None "20-50" 20 50 initialStorage seededBuses
               eq_refl eq_refl Hne Hb Hall).
    vm_compute. reflexivity.
Defined.


(** ** A booking made before its bus exists *)

Lemma getBusSeatLayout_createBus b s :
  WFC s ->
  getBusSeatLayout (busIdCounter s) (fst (createBus b s))
  = getBusSeatLayout (busIdCounter s) s
    ++ mvalues (newLayouts (seatLayoutIdCounter s)
                  (defaultLayout (busIdCounter s))).
Proof.
  intros Hc. rewrite (createBus_eq b s Hc).
  unfold getBusSeatLayout, mvalues. cbn [seatLayouts].
  rewrite map_app, filter_app. f_equal.
  apply forallb_filter_id. apply forallb_forall. intros l Hl.
  apply Z.eqb_eq. apply newLayouts_busId in Hl.
  destruct Hl as (x & Hx & ->). now apply defaultLayout_busId.
Qed.

Lemma seatReport_seatNumbers layout trip busId date s :
  map SeatAvailability.seatNumber (seatReport layout trip busId date s)
  = map SeatLayout.seatNumber layout.
Proof. unfold seatReport. rewrite map_map. reflexivity. Qed.

Lemma defaultLayout_names c busId :
  map SeatLayout.seatNumber (mvalues (newLayouts c (defaultLayout busId)))
  = ["1A"; "1B"; "1C"; "2A"; "2B"; "2C"; "3A"; "3B"; "3C"; "4A"; "4B"; "4C";
     "5A"; "5B"; "5C"; "6A"; "6B"; "6C"; "6D"; "6E"].
Proof.
  pose proof (f_equal (map (fun q : string * Z * Z * bool =>
                              let '(n, _, _, _) := q in n))
                (eq_trans (newLayouts_seats c (defaultLayout busId))
                   (defaultLayout_seats busId))) as H.
  rewrite map_map in H. exact H.
Qed.

(** X21. [createBooking] accepts a booking for a bus id that is not in use
    yet, and the booking then holds its seats on the bus that is created
    under that id later. On a reachable store, after a confirmed booking for
    the next bus id (which fails with "Bus not found for booking" but is
    kept) and a [createBus] with known cities, the first
    [getSeatAvailability] of the new bus on the booked date succeeds, lists
    the default seats after the seats laid out for that id before, and
    reports none of the booked seats available. *)
Theorem booking_before_bus_blocks_seat ib seats now b s seat fromCity toCity :
  reachable s ->
  InsertBooking.busId ib = busIdCounter s ->
  InsertBooking.status ib = "confirmed" ->
  In seat seats ->
  getCity (InsertBus.fromCityId b) s = Some fromCity ->
  getCity (InsertBus.toCityId b) s = Some toCity ->
  snd (createBooking ib seats now s)
  = Throw (JsError ("Bus not found for booking "
                      ++ num_to_string (bookingIdCounter s))%string)
  /\ snd (createBus b (fst (createBooking ib seats now s)))
     = Bus.of_insert (busIdCounter s) b
  /\ exists r,
       snd (getSeatAvailability (busIdCounter s) (InsertBooking.travelDate ib)
              (fst (createBus b (fst (createBooking ib seats now s)))))
       = Ok r
       /\ listedAvailable seat r = false
       /\ map SeatAvailability.seatNumber r
          = map SeatLayout.seatNumber (getBusSeatLayout (busIdCounter s) s)
            ++ ["1A"; "1B"; "1C"; "2A"; "2B"; "2C"; "3A"; "3B"; "3C"; "4A";
                "4B"; "4C"; "5A"; "5B"; "5C"; "6A"; "6B"; "6C"; "6D"; "6E"].
Proof.
  intros Hr Hbus Hstatus Hseat Hfrom Hto.
  pose proof (reachable_WF s Hr) as Hwf.
  pose proof (reachable_WFC s Hr) as Hc.
  pose proof (reachable_step s (OpCreateBooking ib seats now) Hr) as Hr1.
  cbn [step] in Hr1.
  pose proof (detailsOf_created ib seats now s Hwf) as Hdet.
  pose proof (createBooking_snd ib seats now s Hwf) as Hsnd.
  unfold afterBooking in Hsnd.
  assert (Hk : cities (fst (createBooking ib seats now s)) = cities s
               /\ buses (fst (createBooking ib seats now s)) = buses s
               /\ seatLayouts (fst (createBooking ib seats now s))
                  = seatLayouts s
               /\ busIdCounter (fst (createBooking ib seats now s))
                  = busIdCounter s
               /\ bookings (fst (createBooking ib seats now s))
                  = bookings s
                    ++ [(bookingIdCounter s,
                         Booking.of_insert (bookingIdCounter s) now ib)])
    by (rewrite (createBooking_eq ib seats now s Hwf); repeat split).
  destruct Hk as (Hcit & Hbuses & Hlay & Hctr & Hbk).
  set (s1 := fst (createBooking ib seats now s)) in *.
  pose proof (reachable_WFC s1 Hr1) as Hc1.
  pose proof (reachable_step s1 (OpCreateBus b) Hr1) as Hr2.
  cbn [step] in Hr2.
  pose proof (getBusSeatLayout_createBus b s1 Hc1) as Hlayout.
  assert (Hk2 : cities (fst (createBus b s1)) = cities s
                /\ buses (fst (createBus b s1))
                   = buses s1
                     ++ [(busIdCounter s1, Bus.of_insert (busIdCounter s1) b)]).
  { rewrite (createBus_eq b s1 Hc1). cbn [cities buses].
    split; [exact Hcit | reflexivity]. }
  destruct Hk2 as (Hcit2 & Hbuses2).
  destruct (sameLedger_createBus b s1) as (_ & _ & Hbk2 & Hdet2 & _).
  assert (Hsnd2 : snd (createBus b s1) = Bus.of_insert (busIdCounter s1) b)
    by reflexivity.
  set (s2 := fst (createBus b s1)) in *.
  pose proof (reachable_WF s2 Hr2) as Hwf2.
  split.
  { rewrite Hsnd. unfold getBookingWithDetails.
    rewrite (getBus_ext _ s s1 Hbuses Hcit). unfold getBus.
    cbn [Booking.busId Booking.id Booking.of_insert]. rewrite Hbus.
    now rewrite (fresh_key _ _ (wfc_bus_below s Hc)). }
  split; [now rewrite Hsnd2, Hctr|].
  assert (Hgb : getBus (busIdCounter s) s2
                = Ok (Some (BusWithCities.mk (Bus.of_insert (busIdCounter s) b)
                              fromCity toCity))).
  { rewrite getBus_withCities, Hbuses2, Hctr.
    rewrite mget_appended by (rewrite Hbuses; apply Hc).
    unfold withCities, getCity in *. rewrite Hcit2.
    cbn [Bus.fromCityId Bus.toCityId Bus.of_insert].
    now rewrite Hfrom, Hto. }
  assert (Hbooked : shas seat (bookedSeats (busIdCounter s)
                                 (InsertBooking.travelDate ib) s2) = true).
  { rewrite shas_bookedSeats, Hbk2, Hbk. unfold mvalues.
    rewrite map_app, existsb_app. apply orb_true_iff. right.
    cbn [map snd existsb Booking.busId Booking.travelDate Booking.status
         Booking.id Booking.of_insert].
    rewrite Hbus, Z.eqb_refl, String.eqb_refl, Hstatus. cbn [andb orb].
    rewrite orb_false_r.
    replace (detailsOf (bookingIdCounter s) s2)
      with (detailsOf (bookingIdCounter s) s1)
      by (unfold detailsOf; now rewrite Hdet2).
    rewrite Hdet. apply existsb_exists.
    rewrite <- (newDetails_seats (bookingDetailIdCounter s)
                  (bookingIdCounter s) seats) in Hseat.
    apply in_map_iff in Hseat. destruct Hseat as (d & Hd & Hin).
    exists d. split; [exact Hin|]. rewrite Hd. apply String.eqb_refl. }
  assert (Hnames : map SeatLayout.seatNumber
                     (getBusSeatLayout (busIdCounter s) s2)
                   = map SeatLayout.seatNumber
                       (getBusSeatLayout (busIdCounter s) s)
                     ++ ["1A"; "1B"; "1C"; "2A"; "2B"; "2C"; "3A"; "3B"; "3C";
                         "4A"; "4B"; "4C"; "5A"; "5B"; "5C"; "6A"; "6B"; "6C";
                         "6D"; "6E"]).
  { rewrite <- Hctr, Hlayout, map_app, defaultLayout_names.
    unfold getBusSeatLayout. now rewrite Hlay. }
  destruct (findTrip (busIdCounter s) (InsertBooking.travelDate ib) s2)
    as [trip|] eqn:Ef.
  - rewrite (getSeatAvailability_existing _ _ _ _ Ef). cbn [snd].
    eexists. split; [reflexivity|]. split.
    + rewrite listedAvailable_seatReport, Hbooked. apply andb_false_r.
    + now rewrite seatReport_seatNumbers.
  - rewrite (getSeatAvailability_create _ _ _ _ Hwf2 Ef Hgb). cbn [snd].
    eexists. split; [reflexivity|]. split.
    + rewrite listedAvailable_seatReport.
      rewrite (bookedSeats_ext _ _ s2) by reflexivity.
      rewrite Hbooked. apply andb_false_r.
    + now rewrite seatReport_seatNumbers.
Qed.


Lemma booking_before_bus_blocks_seat_witness :
  reachable initialStorage
  /\ getBus 6 initialStorage = Ok None
  /\ option_map (listedAvailable "1A")
       (returned
          (snd (getSeatAvailability (busIdCounter initialStorage)
                  (InsertBooking.travelDate earlyRequest)
                  (fst (createBus nightRider
                          (fst (createBooking earlyRequest ["1A"] 0
                                  initialStorage)))))))
     = Some false.
Proof.
  assert (Hr : reachable initialStorage) by (exists []; reflexivity).
  assert (Hb : InsertBooking.busId earlyRequest = busIdCounter initialStorage)
    by (vm_compute; reflexivity).
  assert (Hn : getBus 6 initialStorage = Ok None) by (vm_compute; reflexivity).
  assert (Hf : getCity (InsertBus.fromCityId nightRider) initialStorage
               = Some (City.mk 2 "Hyderabad, Telangana"))
    by (vm_compute; reflexivity).
  assert (Ht : getCity (InsertBus.toCityId nightRider) initialStorage
               = Some (City.mk 3 "Chennai, Tamil Nadu"))
    by (vm_compute; reflexivity).
  destruct (booking_before_bus_blocks_seat earlyRequest ["1A"] 0 nightRider
              initialStorage "1A" _ _ Hr Hb eq_refl (or_introl eq_refl) Hf Ht)
    as (_ & _ & r & Hret & Hl & _).
  split; [exact Hr|]. split; [exact Hn|].
  rewrite Hret. cbn [returned option_map]. now rewrite Hl.
Defined.


(** * The request log *)

Lemma startsWith_app prefix str :
  startsWith prefix str = true <-> exists rest, str = prefix ++ rest.
Proof.
  revert str. induction prefix as [|p prefix IH]; intros str; simpl.
  - split; [intros _; now exists str | reflexivity].
  - destruct str as [|c str].
    + split; [discriminate | intros (rest & E); discriminate E].
    + split.
      * intros H. apply andb_prop in H. destruct H as (Hp & Hs).
        apply N.eqb_eq in Hp. apply IH in Hs. destruct Hs as (rest & ->).
        exists rest. now subst.
      * intros (rest & [= -> ->]). rewrite N.eqb_refl. simpl.
        apply IH. now exists rest.
Qed.

(** X22. The request log: a line is logged exactly for the paths that start
    with [/api]. The logged line is never longer than 80 code units. A full
    line of at most 80 units is logged as it is; a longer one is cut to its
    first 79 units followed by the ellipsis, so exactly 80 units are
    logged. *)
Theorem requestLog_bounded method path statusCode duration captured :
  match requestLog method path statusCode duration captured with
  | None => forall rest, path <> unitsOf "/api" ++ rest
  | Some line =>
      (exists rest, path = unitsOf "/api" ++ rest)
      /\ (List.length line <= 80)%nat
      /\ firstn 79 line
         = firstn 79 (fullLogLine method path statusCode duration captured)
      /\ ((List.length
             (fullLogLine method path statusCode duration captured)
           <= 80)%nat ->
          line = fullLogLine method path statusCode duration captured)
      /\ ((80 < List.length
                  (fullLogLine method path statusCode duration captured))%nat
          -> List.length line = 80%nat /\ nth 79 line 0%N = ellipsis)
  end.
Proof.
  unfold requestLog.
  destruct (startsWith (unitsOf "/api") path) eqn:Es.
  - apply startsWith_app in Es.
    set (full := fullLogLine method path statusCode duration captured).
    destruct (Nat.ltb_spec 80 (List.length full)) as [Hlong|Hshort].
    + assert (Hlen : List.length (firstn 79 full) = 79%nat)
        by (apply firstn_length_le; lia).
      split; [exact Es|]. split; [rewrite length_app, Hlen; simpl; lia|].
      split.
      { rewrite firstn_app, Hlen, Nat.sub_diag.
        change (firstn 0 [ellipsis]) with (@nil N).
        now rewrite app_nil_r, firstn_firstn, Nat.min_id. }
      split; [lia|]. intros _. split.
      * rewrite length_app, Hlen. reflexivity.
      * rewrite app_nth2 by lia. rewrite Hlen, Nat.sub_diag. reflexivity.
    + split; [exact Es|]. split; [exact Hshort|]. split; [reflexivity|].
      split; [reflexivity | lia].
  - intros rest E.
    assert (H : startsWith (unitsOf "/api") path = true)
      by (apply startsWith_app; now exists rest).
    congruence.
Qed.


(** * Cities *)

Lemma step_cities s o :
  WF s ->
  (exists name, o = OpCreateCity name)
  \/ (cities (step s o) = cities s
      /\ cityIdCounter (step s o) = cityIdCounter s).
Proof.
  intros Hwf. destruct o as [name|b|id b|id|l|busId date|ib seats now|id];
    cbn [step].
  - left. now exists name.
  - right. unfold createBus. cbn [fst].
    split.
    + now rewrite (createDefaultSeatLayout_keeps cities).
    + now rewrite (createDefaultSeatLayout_keeps cityIdCounter).
  - right. unfold updateBus. now destruct (negb _).
  - right. split; reflexivity.
  - right. split; reflexivity.
  - right. unfold getSeatAvailability, getOrCreateTrip.
    destruct (findTrip busId date s); [split; reflexivity|].
    destruct (getBus busId s) as [[bus|]|e]; split; reflexivity.
  - right. rewrite (createBooking_eq ib seats now s Hwf). split; reflexivity.
  - right. destruct (mget Z.eqb id (bookings s)) as [b0|] eqn:E.
    + rewrite (cancelBooking_eq id s b0 E). split; reflexivity.
    + unfold cancelBooking. rewrite E. split; reflexivity.
Qed.

Lemma citiesBelow_step s o : WF s -> citiesBelow s -> citiesBelow (step s o).
Proof.
  intros Hwf Hb.
  destruct (step_cities s o Hwf) as [(name & ->) | (E1 & E2)].
  - intros k c Hin. cbn [step createCity fst with_city cities cityIdCounter]
      in *.
    apply (in_mset Z.eqb_spec) in Hin.
    destruct Hin as [[= -> _]|Hin]; [lia|]. apply Hb in Hin. lia.
  - intros k c Hin. rewrite E1 in Hin. rewrite E2. now apply (Hb k c).
Qed.

Lemma citiesBelow_run ops :
  forall s, WF s -> citiesBelow s -> citiesBelow (run ops s).
Proof.
  unfold run. induction ops as [|o ops IH]; intros s Hwf Hb; simpl.
  - exact Hb.
  - apply IH; [now apply WF_step | now apply citiesBelow_step].
Qed.

Lemma reachable_citiesBelow s : reachable s -> citiesBelow s.
Proof.
  intros [ops ->]. rewrite initialStorage_seedOps.
  apply citiesBelow_run.
  - apply WF_run. apply WF_emptyStorage.
  - apply citiesBelow_run; [apply WF_emptyStorage|]. intros k c [].
Qed.

Lemma mget_app_l {V : Type} (k : Z) (v : V) (m m' : JsMap Z V) :
  mget Z.eqb k m = Some v -> mget Z.eqb k (m ++ m') = Some v.
Proof.
  induction m as [|[k' v'] m IH]; simpl; [discriminate|].
  destruct (Z.eqb k k'); [trivial | exact IH].
Qed.

(** X23. [createCity] and [getCity] round trip on a reachable store: the new
    city gets the next city id, which was not in use; [getCity] of that id
    then gives the city, [getCity] of every other id answers as before, and
    [getAllCities] is the old list with the new city at its end. The name is
    not compared with the names already there. A listing of the buses that
    worked before gives the same list after. *)
Theorem createCity_getCity_round_trip name s :
  reachable s ->
  snd (createCity name s) = City.mk (cityIdCounter s) name
  /\ getCity (cityIdCounter s) s = None
  /\ getCity (cityIdCounter s) (fst (createCity name s))
     = Some (City.mk (cityIdCounter s) name)
  /\ (forall id, id <> cityIdCounter s ->
                 getCity id (fst (createCity name s)) = getCity id s)
  /\ getAllCities (fst (createCity name s))
     = getAllCities s ++ [City.mk (cityIdCounter s) name]
  /\ forall l, getAllBuses s = Ok l ->
               getAllBuses (fst (createCity name s)) = Ok l.
Proof.
  intros Hr. pose proof (reachable_citiesBelow s Hr) as Hb.
  pose proof (fresh_key _ _ Hb) as Hfresh.
  unfold getCity, getAllCities, createCity.
  cbn [fst snd with_city cities].
  rewrite (mset_fresh _ _ _ Hfresh).
  split; [reflexivity|]. split; [exact Hfresh|].
  split; [now apply mget_appended|].
  split.
  { intros id Hne. rewrite <- (mset_fresh _ _ _ Hfresh).
    apply (mget_mset_other Z.eqb_spec). congruence. }
  split; [unfold mvalues; now rewrite map_app|].
  intros l Hl. unfold getAllBuses in *. cbn [buses with_city].
  rewrite <- Hl. apply mapResult_ext_in. intros bus Hin.
  assert (Hok : exists r, withCities s bus = Ok r).
  { clear - Hl Hin. revert l Hl.
    induction (mvalues (buses s)) as [|x xs IH]; intros l Hl;
      [contradiction|].
    simpl in Hl. destruct (withCities s x) as [y|e] eqn:Ex; [|discriminate].
    destruct (mapResult (withCities s) xs) as [ys|e] eqn:Exs; [|discriminate].
    destruct Hin as [<-|Hin]; [now exists y|]. now apply (IH Hin ys). }
  destruct Hok as (r & Hok). rewrite Hok.
  unfold withCities in *. cbn [cities with_city].
  rewrite (mset_fresh _ _ _ Hfresh).
  destruct (mget Z.eqb (Bus.fromCityId bus) (cities s)) as [f|] eqn:Ef;
    [|discriminate].
  destruct (mget Z.eqb (Bus.toCityId bus) (cities s)) as [t|] eqn:Et;
    [|discriminate].
  now rewrite (mget_app_l _ _ _ _ Ef), (mget_app_l _ _ _ _ Et).
Qed.


Lemma createCity_getCity_round_trip_witness :
  reachable initialStorage
  /\ getCity 6 initialStorage = None
  /\ getCity 6 (fst (createCity "Pune, Maharashtra" initialStorage))
     = Some (City.mk 6 "Pune, Maharashtra").
Proof.
  assert (Hr : reachable initialStorage) by (exists []; reflexivity).
  assert (Hc : cityIdCounter initialStorage = 6) by (vm_compute; reflexivity).
  destruct (createCity_getCity_round_trip "Pune, Maharashtra" initialStorage
              Hr) as (_ & H1 & H2 & _).
  rewrite Hc in H1, H2.
  split; [exact Hr|]. split; [exact H1 | exact H2].
Defined.

(** * Users *)

Lemma registered_snoc l u :
  registered (l ++ [u]) = fst (createUser u (registered l)).
Proof. unfold registered. now rewrite fold_left_app. Qed.

Lemma registered_below l k v :
  In (k, v) (users (registered l)) -> k < userIdCounter (registered l).
Proof.
  revert k v. induction l as [|u l IH] using rev_ind; intros k v.
  - intros [].
  - rewrite registered_snoc. unfold createUser. cbn [fst users userIdCounter].
    intros Hin. apply (in_mset Z.eqb_spec) in Hin.
    destruct Hin as [[= -> _]|Hin]; [lia|]. apply IH in Hin. lia.
Qed.

Section UsersFacts.

Variable toLowerCase : string -> string.

(** X24. Registering a user. After any sequence of registrations,
    [createUser] gives the user the next id, which was not in use;
    [getUser] of that id then finds the user, every other id reads as
    before, and [getAllUsers] has the user at its end. Nothing is compared
    with the users already there: [getUserByUsername] and [getUserByEmail]
    keep answering with the earliest user whose name, or address, is the
    same up to case, so a later user with such a name is stored but never
    found by it. *)
Theorem createUser_lookup l u :
  snd (createUser u (registered l))
  = User.of_insert (userIdCounter (registered l)) u
  /\ getUser (userIdCounter (registered l)) (registered l) = None
  /\ getUser (userIdCounter (registered l)) (registered (l ++ [u]))
     = Some (User.of_insert (userIdCounter (registered l)) u)
  /\ (forall id, id <> userIdCounter (registered l) ->
                 getUser id (registered (l ++ [u]))
                 = getUser id (registered l))
  /\ getAllUsers (registered (l ++ [u]))
     = getAllUsers (registered l)
       ++ [User.of_insert (userIdCounter (registered l)) u]
  /\ (forall username,
        getUserByUsername toLowerCase username (registered (l ++ [u]))
        = match getUserByUsername toLowerCase username (registered l) with
          | Some first => Some first
          | None =>
              if String.eqb (toLowerCase (InsertUser.username u))
                   (toLowerCase username)
              then Some (User.of_insert (userIdCounter (registered l)) u)
              else None
          end)
  /\ (forall email,
        getUserByEmail toLowerCase email (registered (l ++ [u]))
        = match getUserByEmail toLowerCase email (registered l) with
          | Some first => Some first
          | None =>
              if String.eqb (toLowerCase (InsertUser.email u))
                   (toLowerCase email)
              then Some (User.of_insert (userIdCounter (registered l)) u)
              else None
          end).
Proof.
  pose proof (fresh_key _ _ (registered_below l)) as Hfresh.
  rewrite registered_snoc.
  unfold getUser, getAllUsers, getUserByUsername, getUserByEmail, createUser.
  cbn [fst snd users]. rewrite (mset_fresh _ _ _ Hfresh).
  split; [reflexivity|]. split; [exact Hfresh|].
  split; [apply mget_appended; apply registered_below|].
  split.
  { intros id Hne. rewrite <- (mset_fresh _ _ _ Hfresh).
    apply (mget_mset_other Z.eqb_spec). congruence. }
  split; [unfold mvalues; now rewrite map_app|].
  split.
  - intros username. unfold mvalues. rewrite map_app, find_app_split.
    destruct (find _ (map snd (users (registered l)))); [reflexivity|].
    cbn [map snd find User.username User.of_insert].
    now destruct (String.eqb _ _).
  - intros email. unfold mvalues. rewrite map_app, find_app_split.
    destruct (find _ (map snd (users (registered l)))); [reflexivity|].
    cbn [map snd find User.email User.of_insert].
    now destruct (String.eqb _ _).
Qed.

End UsersFacts.


(** * Adding a seat to a bus *)

(** X25. [createSeatLayout] on a reachable store appends the seat to the
    layout of its bus under a fresh id and leaves the layouts of the other
    buses alone. It does not look at the trips: a trip already opened for
    the bus keeps its record, with the same [availableSeats], and the next
    [getSeatAvailability] for it is the report as it was with one entry more
    for the new seat, available unless the seat map of the trip or a
    confirmed booking already says otherwise. *)
Theorem createSeatLayout_extends_report l date trip s :
  reachable s ->
  findTrip (InsertSeatLayout.busId l) date s = Some trip ->
  snd (createSeatLayout l s) = SeatLayout.of_insert (seatLayoutIdCounter s) l
  /\ getBusSeatLayout (InsertSeatLayout.busId l) (fst (createSeatLayout l s))
     = getBusSeatLayout (InsertSeatLayout.busId l) s
       ++ [SeatLayout.of_insert (seatLayoutIdCounter s) l]
  /\ (forall other,
        other <> InsertSeatLayout.busId l ->
        getBusSeatLayout other (fst (createSeatLayout l s))
        = getBusSeatLayout other s)
  /\ findTrip (InsertSeatLayout.busId l) date (fst (createSeatLayout l s))
     = Some trip
  /\ exists r,
       snd (getSeatAvailability (InsertSeatLayout.busId l) date s) = Ok r
       /\ snd (getSeatAvailability (InsertSeatLayout.busId l) date
                 (fst (createSeatLayout l s)))
          = Ok (r ++ [SeatAvailability.mk
                        (InsertSeatLayout.seatNumber l)
                        (notMarkedUnavailable
                           (mget String.eqb
                              (seatKey (Trip.id trip)
                                 (InsertSeatLayout.seatNumber l))
                              (tripSeatAvailability s))
                         && negb (shas (InsertSeatLayout.seatNumber l)
                                    (bookedSeats (InsertSeatLayout.busId l)
                                       date s)))
                        (InsertSeatLayout.rowPosition l)
                        (InsertSeatLayout.columnPosition l)
                        (InsertSeatLayout.isVisible l)]).
Proof.
  intros Hr Ht. pose proof (reachable_WFC s Hr) as Hc.
  pose proof (fresh_key _ _ (wfc_layout_below s Hc)) as Hfresh.
  assert (Hlay : forall busId,
            getBusSeatLayout busId (fst (createSeatLayout l s))
            = getBusSeatLayout busId s
              ++ (if InsertSeatLayout.busId l =? busId
                  then [SeatLayout.of_insert (seatLayoutIdCounter s) l]
                  else [])).
  { intros busId. unfold getBusSeatLayout, createSeatLayout, mvalues.
    cbn [fst seatLayouts with_seatLayout].
    rewrite (mset_fresh _ _ _ Hfresh), map_app, filter_app. reflexivity. }
  split; [reflexivity|].
  split; [now rewrite Hlay, Z.eqb_refl|].
  split.
  { intros other Hne. rewrite Hlay.
    destruct (Z.eqb_spec (InsertSeatLayout.busId l) other);
      [congruence | apply app_nil_r]. }
  split; [exact Ht|].
  exists (seatReport (getBusSeatLayout (InsertSeatLayout.busId l) s) trip
            (InsertSeatLayout.busId l) date s).
  split; [now rewrite (getSeatAvailability_existing _ _ _ _ Ht)|].
  rewrite (getSeatAvailability_existing (InsertSeatLayout.busId l) date
             (fst (createSeatLayout l s)) trip Ht).
  cbn [snd]. rewrite Hlay, Z.eqb_refl. unfold seatReport.
  rewrite map_app. reflexivity.
Qed.

Lemma createSeatLayout_extends_report_witness :
  reachable seat2BBooked
  /\ option_map (map (fun a => (SeatAvailability.seatNumber a,
                                 SeatAvailability.isAvailable a)))
       (returned
          (snd (getSeatAvailability 1 "2025-06-01"
                  (fst (createSeatLayout
                          (InsertSeatLayout.mk 1 "7A" 7 0 true)
                          seat2BBooked)))))
     = option_map (fun r =>
                     map (fun a => (SeatAvailability.seatNumber a,
                                    SeatAvailability.isAvailable a)) r
                     ++ [("7A", true)])
         (returned (snd (getSeatAvailability 1 "2025-06-01" seat2BBooked)))
  /\ findTrip 1 "2025-06-01"
       (fst (createSeatLayout (InsertSeatLayout.mk 1 "7A" 7 0 true)
               seat2BBooked))
     = Some (Trip.mk 1 1 "2025-06-01" 29).
Proof.
  assert (Hr : reachable seat2BBooked).
  { exists [OpGetSeatAvailability 1 "2025-06-01";
            OpCreateBooking exampleRequest ["2B"] 0].
    vm_compute. reflexivity. }
  assert (Ht : findTrip
                 (InsertSeatLayout.busId (InsertSeatLayout.mk 1 "7A" 7 0 true))
                 "2025-06-01" seat2BBooked
               = Some (Trip.mk 1 1 "2025-06-01" 29))
    by (vm_compute; reflexivity).
  assert (Hflag : notMarkedUnavailable
                    (mget String.eqb (seatKey 1 "7A")
                       (tripSeatAvailability seat2BBooked))
                  && negb (shas "7A" (bookedSeats 1 "2025-06-01" seat2BBooked))
                  = true) by (vm_compute; reflexivity).
  destruct (createSeatLayout_extends_report
              (InsertSeatLayout.mk 1 "7A" 7 0 true) "2025-06-01" _
              seat2BBooked Hr Ht) as (_ & _ & _ & Hf & r & H1 & H2).
  cbn [InsertSeatLayout.busId InsertSeatLayout.seatNumber
       InsertSeatLayout.rowPosition InsertSeatLayout.columnPosition
       InsertSeatLayout.isVisible Trip.id] in H1, H2, Hf.
  rewrite Hflag in H2.
  split; [exact Hr|]. split; [|exact Hf].
  rewrite H1, H2. cbn [returned option_map]. now rewrite map_app.
Defined.
